(** * JNI loader generator for Kotlin [@NativeExport] functions

    A shallow embedding of [scripts/jni_on_load_generator.py] and the
    properties of its type mapper, source scanner, extractor and code
    emitter.

    Text is modelled as Stdlib [string]: a sequence of characters whose
    code points are below 256 (the Latin-1 range of Unicode, which holds
    ASCII).  On this alphabet the character classes below are the ones of
    Python 3 for [str]: [\s] and [str.strip] take the Unicode white space,
    [\w] the Unicode letters and digits and the underscore. *)

From Stdlib Require Import String Ascii List Bool Arith ZArith Lia.
From Stdlib Require Import Permutation DecimalString.
From Equations Require Import Equations.
Import ListNotations.

Open Scope list_scope.
Open Scope string_scope.

(** ** Python string operations *)

Module PyStr.

(** [bool(s)]: a string is truthy when it is not empty. *)
Definition truthy (s : string) : bool := negb (s =? "").

(** [s.endswith(suf)] *)
Fixpoint endswith (s suf : string) : bool :=
  if s =? suf then true
  else match s with
       | EmptyString => false
       | String _ s' => endswith s' suf
       end.

(** [s.startswith(pre)] *)
Definition startswith (s pre : string) : bool := String.prefix pre s.

(** [s[:-n]] for [n > 0] *)
Definition drop_last (n : nat) (s : string) : string :=
  substring 0 (String.length s - n) s.

(** [s[i:]] for [i >= 0] *)
Fixpoint slice_from (i : nat) (s : string) : string :=
  match i, s with
  | O, _ => s
  | S _, EmptyString => EmptyString
  | S i', String _ s' => slice_from i' s'
  end.

(** [needle in hay] on strings: substring containment. *)
Fixpoint contains (needle hay : string) : bool :=
  if String.prefix needle hay then true
  else match hay with
       | EmptyString => false
       | String _ hay' => contains needle hay'
       end.

(** [c in s] for a single character. *)
Fixpoint mem_char (c : ascii) (s : string) : bool :=
  match s with
  | EmptyString => false
  | String d s' => if Ascii.eqb c d then true else mem_char c s'
  end.

(** [str.isspace] and the class [\s]: TAB, LF, VT, FF, CR, FS, GS, RS,
    US, SPACE, NEL (U+0085) and NBSP (U+00A0). *)
Definition is_space (c : ascii) : bool :=
let n := nat_of_ascii c in
(((9 <=? n) && (n <=? 13)) || ((28 <=? n) && (n <=? 32))
 || (n =? 133) || (n =? 160))%nat.

(** The ranges [A-Z], [a-z] and [0-9]. *)
Definition is_upper (c : ascii) : bool :=
let n := nat_of_ascii c in ((65 <=? n) && (n <=? 90))%nat.

Definition is_lower (c : ascii) : bool :=
let n := nat_of_ascii c in ((97 <=? n) && (n <=? 122))%nat.

Definition is_digit (c : ascii) : bool :=
let n := nat_of_ascii c in ((48 <=? n) && (n <=? 57))%nat.

(** The letters and digits above ASCII: U+00AA, U+00B2, U+00B3, U+00B5,
    U+00B9, U+00BA, U+00BC to U+00BE, U+00C0 to U+00D6, U+00D8 to U+00F6
    and U+00F8 to U+00FF. *)
Definition is_latin1_alnum (c : ascii) : bool :=
let n := nat_of_ascii c in
((n =? 170) || (n =? 178) || (n =? 179) || (n =? 181) || (n =? 185) || (n =? 186)
 || ((188 <=? n) && (n <=? 190)) || ((192 <=? n) && (n <=? 214))
 || ((216 <=? n) && (n <=? 246)) || ((248 <=? n) && (n <=? 255)))%nat.

(** The class [\w]: letters, digits and the underscore. *)
Definition is_word (c : ascii) : bool :=
is_upper c || is_lower c || is_digit c || Ascii.eqb c "_" || is_latin1_alnum c.

(** [c.isupper()] for one character: [A-Z], U+00C0 to U+00D6 and U+00D8
    to U+00DE. *)
Definition isupper (c : ascii) : bool :=
let n := nat_of_ascii c in
(((65 <=? n) && (n <=? 90)) || ((192 <=? n) && (n <=? 214))
 || ((216 <=? n) && (n <=? 222)))%nat.

(** [c.upper()] for one character: the letters [a-z], U+00E0 to U+00F6
    and U+00F8 to U+00FE go 32 places down, the sharp s (U+00DF) becomes
    two letters, and the other characters stay.  The upper cases of U+00B5
    and U+00FF lie outside the alphabet; they are the only two, and [upper]
    leaves these two characters as they are. *)
Definition upper (c : ascii) : string :=
let n := nat_of_ascii c in
if (((97 <=? n) && (n <=? 122)) || ((224 <=? n) && (n <=? 246))
    || ((248 <=? n) && (n <=? 254)))%nat
then String (ascii_of_nat (n - 32)) EmptyString
else if (n =? 223)%nat then "SS"
     else String c EmptyString.

(** [s.lstrip()] *)
Fixpoint lstrip (s : string) : string :=
  match s with
  | EmptyString => EmptyString
  | String c s' => if is_space c then lstrip s' else s
  end.

(** [s.rstrip()] *)
Fixpoint rstrip (s : string) : string :=
  match s with
  | EmptyString => EmptyString
  | String c s' =>
      match rstrip s' with
      | EmptyString => if is_space c then EmptyString else String c EmptyString
      | r => String c r
      end
  end.

(** [s.strip()] *)
Definition strip (s : string) : string := rstrip (lstrip s).

(** [s.split(sep)] for a single-character separator: always at least
    one field, empty fields kept. *)
Fixpoint split (sep : ascii) (s : string) : list string :=
  match s with
  | EmptyString => [EmptyString]
  | String c s' =>
      if Ascii.eqb c sep then EmptyString :: split sep s'
      else match split sep s' with
           | [] => [String c EmptyString]
           | w :: ws => String c w :: ws
           end
  end.

(** [s.rfind(c)] for a single character: the last index, or -1. *)
Fixpoint rfind_from (c : ascii) (s : string) (i : Z) (last : Z) : Z :=
  match s with
  | EmptyString => last
  | String d s' => rfind_from c s' (i + 1) (if Ascii.eqb c d then i else last)
  end.

Definition rfind (c : ascii) (s : string) : Z := rfind_from c s 0 (-1).

(** [s.replace(a, b)] for single characters. *)
Fixpoint replace (a b : ascii) (s : string) : string :=
  match s with
  | EmptyString => EmptyString
  | String c s' => String (if Ascii.eqb c a then b else c) (replace a b s')
  end.

(** ["".join(parts)] *)
Definition join (parts : list string) : string := String.concat "" parts.

(** [str(n)] for a non-negative integer. *)
Definition of_nat (n : nat) : string := NilEmpty.string_of_uint (Nat.to_uint n).

End PyStr.

(** ** Python dictionaries

    A [dict] keeps its keys in insertion order, and the emitter iterates
    over it, so it is modelled as an association list with unique keys
    listed in the order of their first insertion. *)

Definition dict (V : Type) : Type := list (string * V).

Fixpoint dict_get {V : Type} (d : dict V) (k : string) : option V :=
  match d with
  | [] => None
  | (k', v) :: d' => if k =? k' then Some v else dict_get d' k
  end.

Definition dict_keys {V : Type} (d : dict V) : list string := map fst d.

(** ** TypeMapper *)

(** The table [mapping] of [kotlin_to_jni_type]. *)
Definition mapping : dict string :=
  [ ("Int", "I"); ("Float", "F"); ("Double", "D"); ("Long", "J");
    ("Boolean", "Z"); ("Byte", "B"); ("Short", "S"); ("Char", "C");
    ("String", "Ljava/lang/String;"); ("Unit", "V") ].

(** The table [wrapper_mapping] of [kotlin_to_jni_type]. *)
Definition wrapper_mapping : dict string :=
  [ ("I", "Ljava/lang/Integer;"); ("F", "Ljava/lang/Float;");
    ("D", "Ljava/lang/Double;"); ("J", "Ljava/lang/Long;");
    ("Z", "Ljava/lang/Boolean;"); ("B", "Ljava/lang/Byte;");
    ("S", "Ljava/lang/Short;"); ("C", "Ljava/lang/Character;") ].

(** The part of [kotlin_to_jni_type] after the array test: the table
    lookup, [if not base_sig: return None], and the boxing of a nullable
    primitive.  [wrapper_mapping[base_sig]] raises [KeyError] on a missing
    key; [wrapper_mapping_total] below shows that no entry of [mapping]
    reaches that case, which is rendered here as [None]. *)
Definition base_type (ktype : string) (nullable : bool) : option string :=
  match dict_get mapping ktype with
  | None => None
  | Some base_sig =>
      if negb (PyStr.truthy base_sig) then None
      else if nullable && PyStr.contains base_sig "IFDJZBSC"
           then dict_get wrapper_mapping base_sig
           else Some base_sig
  end.

(** Keeps the equation of a test in scope of the branch it selects. *)
Definition inspect {A : Type} (a : A) : {b : A | a = b} := exist _ a eq_refl.

(** [kotlin_to_jni_type(ktype, nullable)]; Python's [None] is [None].
    The recursion on the element type of an array strips five characters
    at each call. *)
Equations? kotlin_to_jni_type (ktype : string) (nullable : bool) : option string
  by wf (String.length ktype) lt :=
  kotlin_to_jni_type ktype nullable with inspect (PyStr.endswith ktype "Array") => {
    | exist _ true Hends with kotlin_to_jni_type (PyStr.drop_last 5 ktype) false => {
        | Some element_sig =>
            if PyStr.truthy element_sig then Some ("[" ++ element_sig) else None
        | None => None };
    | exist _ false _ => base_type ktype nullable }.
Proof.
  assert (Hsub : forall m t, m <= String.length t ->
                             String.length (substring 0 m t) = m).
  { induction m as [|m IH]; intros [|c t] Hm; simpl in *; try lia;
      try reflexivity.
    f_equal. apply IH. lia. }
  assert (Hlen : forall s suf, PyStr.endswith s suf = true ->
                               String.length suf <= String.length s).
  { induction s as [|c s IH]; intros suf; cbn [PyStr.endswith].
    - destruct (String.eqb_spec "" suf) as [<-|]; [simpl; lia | discriminate].
    - destruct (String.eqb_spec (String c s) suf) as [<-|]; [simpl; lia |].
      intros H. specialize (IH _ H). simpl. lia. }
  unfold PyStr.drop_last. rewrite Hsub by lia.
  apply Hlen in Hends. simpl in Hends. lia.
Qed.

(** [parse_kotlin_type(type_str)] *)
Definition parse_kotlin_type (type_str : string) : string * bool :=
  let type_str := PyStr.strip type_str in
  let is_nullable := PyStr.endswith type_str "?" in
  let type_str := if is_nullable then PyStr.drop_last 1 type_str else type_str in
  (type_str, is_nullable).

(** ** The regular expressions of the generator

    Each pattern of the source is written out as the matcher Python's
    backtracking engine runs for it: pieces are tried left to right,
    quantifiers are greedy, an alternation or an optional group falls back
    to its next choice when what follows fails.  A greedy [\s*], [\s+],
    [\w+] or [[^)]*] is always followed here by a piece that cannot start
    with a character of that class, so giving back characters never turns a
    failure into a success and only the longest run is tried. *)

Module Re.

Definition LF : ascii := "010"%char.

(** A literal: the rest of the text after it. *)
Fixpoint lit (p s : string) : option string :=
  match p, s with
  | EmptyString, _ => Some s
  | String a p', String b s' => if Ascii.eqb a b then lit p' s' else None
  | String _ _, EmptyString => None
  end.

(** An alternation of literals that are not prefixes of one another. *)
Fixpoint alt_lit (ps : list string) (s : string) : option string :=
  match ps with
  | [] => None
  | p :: ps' => match lit p s with
                | Some r => Some r
                | None => alt_lit ps' s
                end
  end.

(** The longest run of characters of a class, and the rest. *)
Fixpoint span (f : ascii -> bool) (s : string) : string * string :=
  match s with
  | EmptyString => (EmptyString, EmptyString)
  | String c s' =>
      if f c then let (run, rest) := span f s' in (String c run, rest)
      else (EmptyString, s)
  end.

(** [\s*] *)
Definition skip_ws (s : string) : string := snd (span PyStr.is_space s).

(** [\s+] *)
Definition ws_plus (s : string) : option string :=
  let (run, rest) := span PyStr.is_space s in
  if PyStr.truthy run then Some rest else None.

Definition orelse {A : Type} (a b : option A) : option A :=
  match a with Some _ => a | None => b end.

(** [finditer]: the matches of a pattern from left to right, without
    overlap.  [m prev s] tries the pattern at one position, where [s] is
    the text from that position on and [prev] the character before it
    (none at the start of the text), and gives the captured groups and
    the text after the match.  After a match of [n] characters the next
    [n - 1] positions are skipped; no pattern here matches the empty
    string. *)
Fixpoint finditer {G : Type} (m : option ascii -> string -> option (G * string))
         (skip : nat) (prev : option ascii) (s : string) : list G :=
  match s with
  | EmptyString => []
  | String c s' =>
      match skip with
      | S k => finditer m k (Some c) s'
      | O => match m prev s with
             | Some (g, rest) =>
                 (g :: finditer m (String.length s - String.length rest - 1) (Some c) s')%list
             | None => finditer m 0 (Some c) s'
             end
      end
  end.

(** [search]: the first match of a pattern. *)
Fixpoint search {G : Type} (m : string -> option (G * string)) (s : string) : option G :=
  match m s with
  | Some (g, _) => Some g
  | None => match s with
            | EmptyString => None
            | String _ s' => search m s'
            end
  end.

(** *** [package\s+([a-zA-Z0-9_.]+)] *)

Definition is_package_char (c : ascii) : bool :=
  PyStr.is_lower c || PyStr.is_upper c || PyStr.is_digit c
  || Ascii.eqb c "_" || Ascii.eqb c ".".

Definition match_package (s : string) : option (string * string) :=
  match lit "package" s with
  | None => None
  | Some s1 =>
      match ws_plus s1 with
      | None => None
      | Some s2 =>
          let (g, rest) := span is_package_char s2 in
          if PyStr.truthy g then Some (g, rest) else None
      end
  end.

(** *** [(?:class|object)\s+(\w+)], the end of both class patterns *)

Definition class_decl (s : string) : option (string * string) :=
  match alt_lit ["class"; "object"] s with
  | None => None
  | Some s1 =>
      match ws_plus s1 with
      | None => None
      | Some s2 =>
          let (g, rest) := span PyStr.is_word s2 in
          if PyStr.truthy g then Some (g, rest) else None
      end
  end.

(** [(?:^|\n)] under [re.MULTILINE]: the positions the rest of the
    pattern is tried from, in the order of the alternation.  [^] holds at
    the start of the text and after a line feed. *)
Definition line_start (prev : option ascii) (s : string) : list string :=
  ((match prev with
    | None => [s]
    | Some c => if Ascii.eqb c LF then [s] else []
    end)
   ++ (match s with
       | String c s' => if Ascii.eqb c LF then [s'] else []
       | EmptyString => []
       end))%list.

Fixpoint first_of {G : Type} (m : string -> option G) (starts : list string) : option G :=
  match starts with
  | [] => None
  | s :: rest => orelse (m s) (first_of m rest)
  end.

(** *** [(?:^|\n)\s*(?:(?:public|private|internal|protected)\s+)?(?:class|object)\s+(\w+)] *)

Definition visibility_tail (s : string) : option (string * string) :=
  let s0 := skip_ws s in
  match alt_lit ["public"; "private"; "internal"; "protected"] s0 with
  | Some s1 =>
      match ws_plus s1 with
      | Some s2 => orelse (class_decl s2) (class_decl s0)
      | None => class_decl s0
      end
  | None => class_decl s0
  end.

Definition match_visibility (prev : option ascii) (s : string) : option (string * string) :=
  first_of visibility_tail (line_start prev s).

(** *** [(?:^|\n)\s*(?:(?:abstract|final|open|sealed|data|inner)\s+)*(?:class|object)\s+(\w+)]

    The starred group is run at most [fuel] times; each round takes at
    least one character, so the length of the text is enough fuel. *)

Fixpoint modifiers_star (fuel : nat) (s : string) : option (string * string) :=
  match fuel with
  | O => class_decl s
  | S fuel' =>
      match alt_lit ["abstract"; "final"; "open"; "sealed"; "data"; "inner"] s with
      | Some s1 =>
          match ws_plus s1 with
          | Some s2 => orelse (modifiers_star fuel' s2) (class_decl s)
          | None => class_decl s
          end
      | None => class_decl s
      end
  end.

Definition modifiers_tail (s : string) : option (string * string) :=
  let s0 := skip_ws s in modifiers_star (String.length s0) s0.

Definition match_modifiers (prev : option ascii) (s : string) : option (string * string) :=
  first_of modifiers_tail (line_start prev s).

(** *** The method pattern

    [(?:@JvmStatic\s* )?@NativeExport\s*fun\s+(?P<name>\w+)\s*\((?P<params>[^)]* )\)\s*(?::\s*(?P<ret>[^{\s]+))?]
    (a blank is put here between a star and a closing parenthesis of the
    pattern; the pattern has none). *)

Record method_match : Type := MethodMatch {
  group_name : string;
  group_params : string;
  group_ret : option string   (* [None] when the group did not take part *)
}.

Definition is_not_rparen (c : ascii) : bool := negb (Ascii.eqb c ")").

Definition is_ret_char (c : ascii) : bool :=
  negb (Ascii.eqb c "{") && negb (PyStr.is_space c).

(** [\s*(?::\s*(?P<ret>[^{\s]+))?] at the end of the pattern. *)
Definition return_tail (s : string) : option string * string :=
  let s0 := skip_ws s in
  match lit ":" s0 with
  | Some s1 =>
      let (g, rest) := span is_ret_char (skip_ws s1) in
      if PyStr.truthy g then (Some g, rest) else (None, s0)
  | None => (None, s0)
  end.

(** From [@NativeExport] to the closing parenthesis of the parameters,
    and the return part. *)
Definition native_export_tail (s : string) : option (method_match * string) :=
  match lit "@NativeExport" s with
  | None => None
  | Some s1 =>
      match lit "fun" (skip_ws s1) with
      | None => None
      | Some s2 =>
          match ws_plus s2 with
          | None => None
          | Some s3 =>
              let (name, s4) := span PyStr.is_word s3 in
              if negb (PyStr.truthy name) then None
              else match lit "(" (skip_ws s4) with
                   | None => None
                   | Some s5 =>
                       let (params, s6) := span is_not_rparen s5 in
                       match lit ")" s6 with
                       | None => None
                       | Some s7 =>
                           let (ret, rest) := return_tail s7 in
                           Some (MethodMatch name params ret, rest)
                       end
                   end
          end
      end
  end.

Definition match_method (_ : option ascii) (s : string) : option (method_match * string) :=
  match lit "@JvmStatic" s with
  | Some s1 => orelse (native_export_tail (skip_ws s1)) (native_export_tail s)
  | None => native_export_tail s
  end.

End Re.

(** ** Paths

    A [pathlib.Path] is modelled by its normal form as a POSIX string;
    two paths are equal, and hash alike, when these strings are equal. *)

Definition Path : Type := string.

(** [path.name]: the last component. *)
Definition path_name (p : Path) : string :=
  PyStr.slice_from (Z.to_nat (PyStr.rfind "/" p + 1)) p.

(** [path.suffix]: from the last dot of the name on, unless that dot is the
    first or the last character of the name. *)
Definition path_suffix (p : Path) : string :=
  let name := path_name p in
  let i := PyStr.rfind "." name in
  if ((0 <? i) && (i <? Z.of_nat (String.length name) - 1))%Z
  then PyStr.slice_from (Z.to_nat i) name
  else "".

(** [path.stem]: the name without its suffix. *)
Definition path_stem (p : Path) : string :=
  let name := path_name p in
  let i := PyStr.rfind "." name in
  if ((0 <? i) && (i <? Z.of_nat (String.length name) - 1))%Z
  then substring 0 (Z.to_nat i) name
  else name.

(** ** Exceptions and standard output *)

Inductive exn : Type :=
| re_error (msg : string)             (* [re.error], raised when a pattern is compiled *)
| IndexError (msg : string)
| NotImplementedError (msg : string)  (* pathlib, on a glob pattern that is not relative *)
| ValueError (msg : string)           (* pathlib, on an empty or invalid glob pattern *)
| OSError (msg : string).             (* on opening a file that cannot be created *)

Inductive outcome (A : Type) : Type :=
| Ret (a : A)
| Raise (e : exn).
Arguments Ret {A} a.
Arguments Raise {A} e.

(** A computation that prints lines and either returns or raises. *)
Definition M (A : Type) : Type := list string -> outcome A * list string.

Definition ret {A : Type} (a : A) : M A := fun out => (Ret a, out).

Definition bind {A B : Type} (c : M A) (k : A -> M B) : M B :=
  fun out => match c out with
             | (Ret a, out') => k a out'
             | (Raise e, out') => (Raise e, out')
             end.

Definition print (line : string) : M unit := fun out => (Ret tt, (out ++ [line])%list).

Definition lift {A : Type} (o : outcome A) : M A := fun out => (o, out).

Definition when (b : bool) (c : M unit) : M unit := if b then c else ret tt.

Notation "x <- c ;; k" := (bind c (fun x => k))
  (at level 61, c at next level, right associativity).
Notation "c ;; k" := (bind c (fun _ => k))
  (at level 61, right associativity).

(** ** Extractor: the owning class *)

Inductive class_pattern : Type :=
| pattern_visibility   (* [class_patterns[0]] *)
| pattern_modifiers    (* [class_patterns[1]] *)
| pattern_lookbehind.  (* [class_patterns[2]]: [(?<!@\w{0,20})\b(?:class|object)\s+(\w+)] *)

Definition class_patterns : list class_pattern :=
  [pattern_visibility; pattern_modifiers; pattern_lookbehind].

(** [re.finditer(pattern, file_content, re.MULTILINE)] for the class
    patterns, as the list of [match.group(1)].  The pattern is compiled
    when [finditer] is called.  The look-behind of the third pattern,
    [@\w{0,20}], matches between 1 and 21 characters; Python's [re] accepts
    only a look-behind of one fixed width and raises [re.error] for this
    one, whatever the text. *)
Definition re_finditer (pattern : class_pattern) (file_content : string)
  : outcome (list string) :=
  match pattern with
  | pattern_visibility => Ret (Re.finditer Re.match_visibility 0 None file_content)
  | pattern_modifiers => Ret (Re.finditer Re.match_modifiers 0 None file_content)
  | pattern_lookbehind => Raise (re_error "look-behind requires fixed-width pattern")
  end.

(** The inner loop over the matches of one pattern: the first candidate
    that is not the annotation's own name. *)
Fixpoint first_candidate (candidates : list string) : option string :=
  match candidates with
  | [] => None
  | candidate :: rest =>
      if negb (candidate =? "NativeExport") && negb (PyStr.startswith candidate "Native")
      then Some candidate
      else first_candidate rest
  end.

(** [bool(x)] for a value that is [None] or a string. *)
Definition truthy_opt (x : option string) : bool :=
  match x with
  | Some s => PyStr.truthy s
  | None => false
  end.

(** The outer loop over [class_patterns], left with [break] once a class
    name is set. *)
Fixpoint class_loop (patterns : list class_pattern) (file_content : string)
  : outcome (option string) :=
  match patterns with
  | [] => Ret None
  | pattern :: rest =>
      match re_finditer pattern file_content with
      | Raise e => Raise e
      | Ret candidates =>
          let class_name := first_candidate candidates in
          if truthy_opt class_name then Ret class_name
          else class_loop rest file_content
      end
  end.

(** The class name inferred from the file name; [class_name[0]] raises
    [IndexError] on an empty stem. *)
Definition class_from_filename (file_path : Path) : outcome string :=
  match path_stem file_path with
  | EmptyString => Raise (IndexError "string index out of range")
  | String c rest =>
      if negb (PyStr.isupper c) then Ret (PyStr.upper c ++ rest)
      else Ret (String c rest)
  end.

(** [extract_package_and_class(file_content, file_path)] *)
Definition extract_package_and_class (file_content : string) (file_path : Path)
  : outcome (option string) :=
  let package_name := Re.search Re.match_package file_content in
  match class_loop class_patterns file_content with
  | Raise e => Raise e
  | Ret found =>
      match (if negb (truthy_opt found)
             then match class_from_filename file_path with
                  | Ret c => Ret (Some c)
                  | Raise e => Raise e
                  end
             else Ret found) with
      | Raise e => Raise e
      | Ret class_name =>
          match package_name, class_name with
          | Some p, Some c =>
              if PyStr.truthy p && PyStr.truthy c
              then Ret (Some (PyStr.replace "." "/" p ++ "/" ++ c))
              else if PyStr.truthy c then Ret (Some c) else Ret None
          | None, Some c => if PyStr.truthy c then Ret (Some c) else Ret None
          | _, None => Ret None
          end
      end
  end.

(** ** The file system seen by one run *)

(** The file system and [pathlib], as far as a run consults them.
    [Path(".").glob(input_path)] is consumed at once by [extend]; it gives
    the matches of the pattern, or the exception [pathlib] raises for a
    pattern it refuses: [NotImplementedError] for a pattern that is not
    relative (an absolute path that is neither a Kotlin file nor a
    directory is such a pattern), [ValueError] for an empty or invalid
    one.  [output_path.open('w')] returns, or raises when the file cannot
    be created. *)
Record FileSystem : Type := {
  to_path : string -> Path;                 (* [Path(input_path)] *)
  is_file : Path -> bool;                   (* [path.is_file()] *)
  is_dir : Path -> bool;                    (* [path.is_dir()] *)
  rglob_kt : Path -> list Path;             (* [path.rglob("*.kt")] *)
  glob_cwd : string -> outcome (list Path); (* [Path(".").glob(input_path)] *)
  read_text : Path -> string + string;      (* the text, or the message of the exception *)
  open_write : Path -> outcome unit         (* [output_path.open('w', encoding='utf-8')] *)
}.

(** ** SourceScanner *)

(** The order in which a [set] built from a list hands its elements back
    depends on the hashes of the elements, and the hash of a path is a
    string hash, which Python salts anew in each process.  A run is
    therefore given the iteration order of its sets: it lists each element
    of the list once. *)
Record SetOrder : Type := {
  list_set : list Path -> list Path;   (* [list(set(xs))] *)
  list_set_spec : forall xs, Permutation (list_set xs) (nodup string_dec xs)
}.

(** The loop of [find_kotlin_files] over [input_paths]. *)
Fixpoint collect_kotlin_files (fs : FileSystem) (input_paths : list string)
         (kotlin_files : list Path) : outcome (list Path) :=
  match input_paths with
  | [] => Ret kotlin_files
  | input_path :: rest =>
      let path := to_path fs input_path in
      if is_file fs path && (path_suffix path =? ".kt")
      then collect_kotlin_files fs rest (kotlin_files ++ [path])%list
      else if is_dir fs path
           then collect_kotlin_files fs rest (kotlin_files ++ rglob_kt fs path)%list
           else match glob_cwd fs input_path with
                | Raise e => Raise e
                | Ret matches =>
                    collect_kotlin_files fs rest (kotlin_files ++ matches)%list
                end
  end.

(** [find_kotlin_files(input_paths)] *)
Definition find_kotlin_files (so : SetOrder) (fs : FileSystem)
           (input_paths : list string) : outcome (list Path) :=
  match collect_kotlin_files fs input_paths [] with
  | Raise e => Raise e
  | Ret kotlin_files => Ret (list_set so kotlin_files)
  end.

(** ** Extractor: the exported functions *)

(** [(function_name, jni_signature)] *)
Definition method : Type := (string * string)%type.

(** [class_methods[class_name].extend(methods_found)] on a
    [defaultdict(list)]: a new key goes to the end, a known key keeps its
    place. *)
Fixpoint dict_extend (d : dict (list method)) (k : string) (v : list method)
  : dict (list method) :=
  match d with
  | [] => [(k, v)]
  | (k', v') :: d' =>
      if k =? k' then (k', (v' ++ v)%list) :: d'
      else (k', v') :: dict_extend d' k v
  end.

(** The loop over [params.split(',')]: the descriptors of the parameters,
    or [None] once [param_parsing_success] is false. *)
Fixpoint params_loop (name : string) (params : list string) (sig_parts : list string)
  : M (option (list string)) :=
  match params with
  | [] => ret (Some sig_parts)
  | param :: rest =>
      let param := PyStr.strip param in
      if negb (PyStr.mem_char ":" param) then
        print ("Warning: Invalid parameter format in " ++ name ++ ": " ++ param) ;;
        ret None
      else
        let colon_idx := PyStr.rfind ":" param in
        let param_type :=
          PyStr.strip (PyStr.slice_from (Z.to_nat (colon_idx + 1)) param) in
        let (type_name, is_nullable) := parse_kotlin_type param_type in
        let sig := kotlin_to_jni_type type_name is_nullable in
        match sig with
        | Some sig' =>
            if PyStr.truthy sig' then params_loop name rest (sig_parts ++ [sig'])%list
            else print ("Error: Unknown parameter type in " ++ name ++ ": " ++ param_type) ;;
                 ret None
        | None =>
            print ("Error: Unknown parameter type in " ++ name ++ ": " ++ param_type) ;;
            ret None
        end
  end.

(** The body of the loop over the matches of the method pattern: the entry
    appended to [methods_found], if any. *)
Definition process_match (verbose : bool) (m : Re.method_match) : M (option method) :=
  let name := Re.group_name m in
  let params := PyStr.strip (Re.group_params m) in
  let ret_ := if truthy_opt (Re.group_ret m)
              then match Re.group_ret m with Some r => r | None => "Unit" end
              else "Unit" in
  when verbose (print ("  Found function: " ++ name)) ;;
  sig_parts <- (if PyStr.truthy params
                then params_loop name (PyStr.split "," params) []
                else ret (Some [])) ;;
  match sig_parts with
  | None => ret None
  | Some sig_parts =>
      let (ret_type, ret_nullable) := parse_kotlin_type ret_ in
      let ret_sig := kotlin_to_jni_type ret_type ret_nullable in
      if negb (truthy_opt ret_sig) then
        print ("Error: Unknown return type in " ++ name ++ ": " ++ ret_) ;;
        ret None
      else
        let signature :=
          "(" ++ PyStr.join sig_parts ++ ")"
              ++ match ret_sig with Some r => r | None => "" end in
        when verbose (print ("    Signature: " ++ signature)) ;;
        ret (Some (name, signature))
  end.

(** The loop over [method_pattern.finditer(text)]. *)
Fixpoint methods_loop (verbose : bool) (matches : list Re.method_match)
         (methods_found : list method) : M (list method) :=
  match matches with
  | [] => ret methods_found
  | m :: rest =>
      r <- process_match verbose m ;;
      match r with
      | Some entry => methods_loop verbose rest (methods_found ++ [entry])%list
      | None => methods_loop verbose rest methods_found
      end
  end.

(** [method_pattern.finditer(text)] *)
Definition method_matches (text : string) : list Re.method_match :=
  Re.finditer Re.match_method 0 None text.

(** The loop of [extract_native_exports] over [kotlin_files]. *)
Fixpoint files_loop (fs : FileSystem) (verbose : bool) (kotlin_files : list Path)
         (class_methods : dict (list method)) : M (dict (list method)) :=
  match kotlin_files with
  | [] => ret class_methods
  | kt_file :: rest =>
      when verbose (print ("Scanning: " ++ kt_file)) ;;
      match read_text fs kt_file with
      | inr e =>
          print ("Warning: Could not read " ++ kt_file ++ ": " ++ e) ;;
          files_loop fs verbose rest class_methods
      | inl text =>
          class_name <- lift (extract_package_and_class text kt_file) ;;
          match class_name with
          | None =>
              print ("Warning: Could not determine class name for " ++ kt_file) ;;
              files_loop fs verbose rest class_methods
          | Some class_name =>
              if negb (PyStr.truthy class_name) then
                print ("Warning: Could not determine class name for " ++ kt_file) ;;
                files_loop fs verbose rest class_methods
              else
                when verbose (print ("  Class: " ++ class_name)) ;;
                methods_found <- methods_loop verbose (method_matches text) [] ;;
                match methods_found with
                | [] => files_loop fs verbose rest class_methods
                | _ :: _ =>
                    files_loop fs verbose rest
                               (dict_extend class_methods class_name methods_found)
                end
          end
      end
  end.

(** [extract_native_exports(kotlin_files, verbose)] *)
Definition extract_native_exports (fs : FileSystem) (kotlin_files : list Path)
           (verbose : bool) : M (dict (list method)) :=
  files_loop fs verbose kotlin_files [].

(** ** CodeEmitter *)

Definition nl : string := String Re.LF "".
Definition dq : string := String "034"%char "".

(** [f.write(text)] on the text written so far. *)
Definition write (f : string) (text : string) : string := f ++ text.

(** [class_name.split('/')[-1]] *)
Definition short_name (class_name : string) : string :=
  List.last (PyStr.split "/" class_name) "".

(** The two writes of the loop over the methods of a class. *)
Definition emit_method (class_name : string) (f : string) (m : method) : string :=
  let (name, sig) := m in
  let f := write f ("        helper->getStaticMethodID(" ++ dq ++ class_name ++ dq
                    ++ ", " ++ dq ++ name ++ dq ++ "," ++ nl) in
  let f := write f ("                                  " ++ dq ++ sig ++ dq ++ ");"
                    ++ nl ++ nl) in
  f.

(** The body of the loop over [class_methods.items()]. *)
Definition emit_class (f : string) (entry : string * list method) : string :=
  let (class_name, methods) := entry in
  let f := write f ("    // Load methods for " ++ class_name ++ nl) in
  let f := write f ("    {" ++ nl) in
  let f := write f ("        auto clazzRef = helper->findClass(" ++ dq ++ class_name
                    ++ dq ++ ");" ++ nl) in
  let f := write f ("        if (!clazzRef)" ++ nl) in
  let f := write f ("        {" ++ nl) in
  let f := write f ("            SATURN_ERROR(" ++ dq ++ "Failed to find "
                    ++ short_name class_name ++ " class" ++ dq ++ ");" ++ nl) in
  let f := write f ("            return JNI_ERR;" ++ nl) in
  let f := write f ("        }" ++ nl ++ nl) in
  let f := write f ("        helper->createGlobalRef(clazzRef);" ++ nl ++ nl) in
  let f := fold_left (emit_method class_name) methods f in
  let f := write f ("    }" ++ nl ++ nl) in
  f.

(** [sum(len(methods) for methods in class_methods.values())] *)
Definition total_methods (class_methods : dict (list method)) : nat :=
  list_sum (map (fun entry => List.length (snd entry)) class_methods).

(** [generate_cpp_file(class_methods, output_path, helper_class)]: the text
    of the file once it is closed. *)
Definition generate_cpp_file (class_methods : dict (list method))
           (helper_class : string) : string :=
  let f := "" in
  let f := write f ("// Auto-generated JNI loader code" ++ nl) in
  let f := write f ("// Generated by jni_generator.py" ++ nl) in
  let f := write f ("// Found " ++ PyStr.of_nat (List.length class_methods)
                    ++ " classes with " ++ PyStr.of_nat (total_methods class_methods)
                    ++ " methods" ++ nl ++ nl) in
  let f := write f ("JNIEXPORT jint JNI_OnLoad(JavaVM* vm, void* reserved)" ++ nl) in
  let f := write f ("{" ++ nl) in
  let f := write f ("    saturn::tools::Logger::initialize();" ++ nl ++ nl) in
  let f := write f ("    auto helper = " ++ helper_class ++ "::getInstance();" ++ nl ++ nl) in
  let f := write f ("    helper->initialize(vm);" ++ nl ++ nl) in
  let f := fold_left emit_class class_methods f in
  let f := write f ("    return JNI_VERSION_1_6;" ++ nl) in
  let f := write f ("}" ++ nl) in
  let f := write f (nl ++ "JNIEXPORT void JNICALL JNI_OnUnload(JavaVM* vm, void* /*reserved*/)"
                    ++ nl) in
  let f := write f ("{" ++ nl) in
  let f := write f ("    saturn::platform::agdk::JNIHelper::getInstance()->shutdown();"
                    ++ nl ++ nl) in
  let f := write f ("    saturn::tools::Logger::shutdown();" ++ nl) in
  let f := write f ("}" ++ nl) in
  f.

(** ** The command-line tool *)

(** The namespace returned by [parse_arguments]. *)
Record Args : Type := {
  input : option (list string);   (* [None] without [-i] *)
  output : string;
  helper_class : string;
  verbose : bool
}.

(** What [main] leaves behind: its return value, handed to [exit], and the
    output file if one was written (its path and text). *)
Record Run : Type := {
  exit_code : Z;
  written : option (Path * string)
}.

(** The loop of [main] printing the methods of a class. *)
Fixpoint print_methods (methods : list method) : M unit :=
  match methods with
  | [] => ret tt
  | (name, sig) :: rest =>
      print ("    " ++ name ++ ": " ++ sig) ;; print_methods rest
  end.

(** The loop of [main] printing the classes. *)
Fixpoint print_classes (class_methods : dict (list method)) : M unit :=
  match class_methods with
  | [] => ret tt
  | (class_name, methods) :: rest =>
      print ("  " ++ class_name ++ ":") ;;
      print_methods methods ;;
      print_classes rest
  end.

(** [args.input] after [if not args.input: args.input = [...]]. *)
Definition effective_input (args : Args) : list string :=
  match input args with
  | None => ["engine_bridge/src/main/java"]
  | Some [] => ["engine_bridge/src/main/java"]
  | Some l => l
  end.

(** [main()], given the parsed arguments.  The output file is opened by
    [generate_cpp_file], before anything is written to it. *)
Definition main (so : SetOrder) (fs : FileSystem) (args : Args) : M Run :=
  kotlin_files <- lift (find_kotlin_files so fs (effective_input args)) ;;
  match kotlin_files with
  | [] =>
      print "Error: No Kotlin files found in specified input paths" ;;
      ret {| exit_code := 1; written := None |}
  | _ :: _ =>
      when (verbose args)
           (print ("Found " ++ PyStr.of_nat (List.length kotlin_files) ++ " Kotlin files")) ;;
      class_methods <- extract_native_exports fs kotlin_files (verbose args) ;;
      match class_methods with
      | [] =>
          print "Warning: No @NativeExport methods found" ;;
          ret {| exit_code := 0; written := None |}
      | _ :: _ =>
          let output_path := to_path fs (output args) in
          lift (open_write fs output_path) ;;
          let text := generate_cpp_file class_methods (helper_class args) in
          print ("Generated " ++ output_path ++ " with "
                 ++ PyStr.of_nat (List.length class_methods) ++ " classes and "
                 ++ PyStr.of_nat (total_methods class_methods) ++ " method loaders.") ;;
          when (verbose args)
               (print (nl ++ "Classes and methods:") ;; print_classes class_methods) ;;
          ret {| exit_code := 0; written := Some (output_path, text) |}
      end
  end.

(** ** Reference tables and notions used by the statements *)

(** The documented descriptors: Kotlin type, descriptor of the non-nullable
    type, descriptor of the nullable type. *)
Definition documented_table : list (string * string * string) :=
  [ ("Int", "I", "Ljava/lang/Integer;");
    ("Float", "F", "Ljava/lang/Float;");
    ("Double", "D", "Ljava/lang/Double;");
    ("Long", "J", "Ljava/lang/Long;");
    ("Boolean", "Z", "Ljava/lang/Boolean;");
    ("Byte", "B", "Ljava/lang/Byte;");
    ("Short", "S", "Ljava/lang/Short;");
    ("Char", "C", "Ljava/lang/Character;");
    ("String", "Ljava/lang/String;", "Ljava/lang/String;");
    ("Unit", "V", "V") ].

(** The primitive single-letter codes. *)
Definition primitive_codes : list string :=
  ["I"; "F"; "D"; "J"; "Z"; "B"; "S"; "C"].

Definition is_primitive_code (d : string) : bool :=
  existsb (String.eqb d) primitive_codes.

(** [n] array suffixes after an element type, and [n] array markers before
    a descriptor. *)
Fixpoint array_of (n : nat) (element : string) : string :=
  match n with
  | O => element
  | S n' => array_of n' element ++ "Array"
  end.

Fixpoint array_marks (n : nat) (d : string) : string :=
  match n with
  | O => d
  | S n' => "[" ++ array_marks n' d
  end.

(** What one input contributes to the scan: itself when it is a Kotlin
    file, the Kotlin files below it when it is a directory, and otherwise
    the files it matches as a glob pattern. *)
Definition candidates (fs : FileSystem) (input_path : string) : outcome (list Path) :=
  let path := to_path fs input_path in
  if is_file fs path && (path_suffix path =? ".kt") then Ret [path]
  else if is_dir fs path then Ret (rglob_kt fs path)
       else glob_cwd fs input_path.

(** What the inputs contribute one after the other, or the exception of
    the first input that raises. *)
Fixpoint all_candidates (fs : FileSystem) (input_paths : list string)
  : outcome (list Path) :=
  match input_paths with
  | [] => Ret []
  | input_path :: rest =>
      match candidates fs input_path with
      | Raise e => Raise e
      | Ret matches =>
          match all_candidates fs rest with
          | Raise e => Raise e
          | Ret others => Ret (matches ++ others)%list
          end
      end
  end.

(** Two iteration orders a set of paths can have: the order of last
    insertion and its reverse. *)
Definition insertion_order : SetOrder :=
  {| list_set := nodup string_dec;
     list_set_spec := fun xs => Permutation_refl (nodup string_dec xs) |}.

Definition reverse_order : SetOrder :=
  {| list_set := fun xs => rev (nodup string_dec xs);
     list_set_spec := fun xs => Permutation_sym (Permutation_rev (nodup string_dec xs)) |}.

(** *** SignatureBuilder, in the words of the specification

    The type text of a parameter is what follows its last colon; a type
    text has a descriptor when the mapper knows the type; the signature of
    a function is the descriptors of its parameters between parentheses,
    followed by the descriptor of its return type. *)

Definition param_type (param : string) : string :=
  let param := PyStr.strip param in
  PyStr.strip (PyStr.slice_from (Z.to_nat (PyStr.rfind ":" param + 1)) param).

Definition descriptor (type_text : string) : option string :=
  let (type_name, is_nullable) := parse_kotlin_type type_text in
  kotlin_to_jni_type type_name is_nullable.

(** A parameter is malformed when it has no type separator. *)
Definition malformed (param : string) : bool :=
  negb (PyStr.mem_char ":" (PyStr.strip param)).

Definition param_descriptor (param : string) : option string :=
  if malformed param then None else descriptor (param_type param).

Fixpoint all_descriptors (params : list string) : option (list string) :=
  match params with
  | [] => Some []
  | param :: rest =>
      match param_descriptor param with
      | None => None
      | Some d => option_map (cons d) (all_descriptors rest)
      end
  end.

(** The parameters of a matched function, and the text of its return type
    (the "no value" type when none is written). *)
Definition params_of (m : Re.method_match) : list string :=
  let params := PyStr.strip (Re.group_params m) in
  if PyStr.truthy params then PyStr.split "," params else [].

Definition return_text (m : Re.method_match) : string :=
  match Re.group_ret m with
  | Some r => if PyStr.truthy r then r else "Unit"
  | None => "Unit"
  end.

(** The ExportedFunction of a match: it exists only if every parameter and
    the return type have a descriptor. *)
Definition entry_of (m : Re.method_match) : option method :=
  match all_descriptors (params_of m), descriptor (return_text m) with
  | Some ds, Some r => Some (Re.group_name m, "(" ++ PyStr.join ds ++ ")" ++ r)
  | _, _ => None
  end.

(** A function without malformed parameter and without unknown type. *)
Definition well_formed (m : Re.method_match) : Prop :=
  Forall (fun param => malformed param = false
                       /\ descriptor (param_type param) <> None) (params_of m)
  /\ descriptor (return_text m) <> None.

(** A function with a parameter of unknown type. *)
Definition has_unknown_param (m : Re.method_match) : Prop :=
  Exists (fun param => malformed param = false
                       /\ descriptor (param_type param) = None) (params_of m).

(** The entries of the functions of a file that resolve, in the order of
    their declarations. *)
Definition successes (matches : list Re.method_match) : list method :=
  flat_map (fun m => match entry_of m with Some e => [e] | None => [] end) matches.

(** [c] returns [a] from any standard output, without raising. *)
Definition returns {A : Type} (c : M A) (a : A) : Prop :=
  forall out, exists out', c out = (Ret a, out').

(** *** One file, as the Extractor sees it *)

Inductive file_view : Type :=
| Skipped                                            (* unreadable, or no class name *)
| Crashed (e : exn)                                  (* the class detection raised *)
| Scanned (class_name : string) (found : list method).

Definition scan_file (fs : FileSystem) (kt_file : Path) : file_view :=
  match read_text fs kt_file with
  | inr _ => Skipped
  | inl text =>
      match extract_package_and_class text kt_file with
      | Raise e => Crashed e
      | Ret None => Skipped
      | Ret (Some class_name) =>
          if PyStr.truthy class_name
          then Scanned class_name (successes (method_matches text))
          else Skipped
      end
  end.

(** The class-to-functions grouping built from the views of the files, in
    the order of the files. *)
Fixpoint group_files (fs : FileSystem) (kotlin_files : list Path)
         (class_methods : dict (list method)) : outcome (dict (list method)) :=
  match kotlin_files with
  | [] => Ret class_methods
  | kt_file :: rest =>
      match scan_file fs kt_file with
      | Crashed e => Raise e
      | Skipped => group_files fs rest class_methods
      | Scanned _ [] => group_files fs rest class_methods
      | Scanned class_name found =>
          group_files fs rest (dict_extend class_methods class_name found)
      end
  end.

(** The owning class of a file and the annotated functions it declares. *)
Definition owning_class (fs : FileSystem) (kt_file : Path) : option string :=
  match read_text fs kt_file with
  | inr _ => None
  | inl text =>
      match extract_package_and_class text kt_file with
      | Ret (Some class_name) => if PyStr.truthy class_name then Some class_name else None
      | _ => None
      end
  end.

Definition declared (fs : FileSystem) (kt_file : Path) : list Re.method_match :=
  match read_text fs kt_file with
  | inr _ => []
  | inl text => method_matches text
  end.

(** The elements of a list in the order of their first occurrence. *)
Fixpoint first_occurrences (l : list string) : list string :=
  match l with
  | [] => []
  | x :: l' => x :: filter (fun y => negb (y =? x)) (first_occurrences l')
  end.

(** The owning classes of the files that declare at least one function, and
    the functions declared for a class, file after file. *)
Definition classes_of (fs : FileSystem) (kotlin_files : list Path) : list string :=
  flat_map (fun p => match owning_class fs p, declared fs p with
                     | Some c, _ :: _ => [c]
                     | _, _ => []
                     end) kotlin_files.

Definition functions_of (fs : FileSystem) (kotlin_files : list Path) (c : string)
  : list method :=
  flat_map (fun p => match owning_class fs p with
                     | Some c' => if c' =? c then successes (declared fs p) else []
                     | None => []
                     end) kotlin_files.

(** [class_methods.get(k, [])] *)
Definition dict_find (d : dict (list method)) (k : string) : list method :=
  match dict_get d k with
  | Some v => v
  | None => []
  end.

Definition notin (ks : list string) (k : string) : bool :=
  negb (existsb (String.eqb k) ks).

(** The class a file adds to the grouping, if it adds one, the functions
    it adds to a given class, and the number of functions it adds. *)
Definition class_found (fs : FileSystem) (kt_file : Path) : list string :=
  match scan_file fs kt_file with
  | Scanned class_name (_ :: _) => [class_name]
  | _ => []
  end.

Definition found_for (fs : FileSystem) (c : string) (kt_file : Path) : list method :=
  match scan_file fs kt_file with
  | Scanned class_name found => if c =? class_name then found else []
  | _ => []
  end.

Definition found_count (fs : FileSystem) (kt_file : Path) : nat :=
  match scan_file fs kt_file with
  | Scanned _ found => List.length found
  | _ => 0
  end.

Definition crashes (fs : FileSystem) (kt_file : Path) : bool :=
  match scan_file fs kt_file with
  | Crashed _ => true
  | _ => false
  end.

(** The grouping in closed form: the classes the files add, in the order
    of the first file that adds them, each with the functions the files add
    to it, file after file and, within a file, in the order of the
    declarations. *)
Definition grouping_of (fs : FileSystem) (kotlin_files : list Path)
  : dict (list method) :=
  map (fun c => (c, flat_map (found_for fs c) kotlin_files))
      (first_occurrences (flat_map (class_found fs) kotlin_files)).

(** At most one of the files adds functions to the class [c]. *)
Definition single_source (fs : FileSystem) (kotlin_files : list Path) (c : string)
  : Prop :=
  forall f1 f2, In f1 kotlin_files -> In f2 kotlin_files ->
                found_for fs c f1 <> [] -> found_for fs c f2 <> [] -> f1 = f2.

(** *** A small source tree *)

Definition lines (ls : list string) : string := String.concat nl ls ++ nl.

Definition math_kt : string :=
  lines [ "package com.example";
          "";
          "object Math {";
          "    @JvmStatic";
          "    @NativeExport";
          "    fun add(a: Int, b: Int): Int = a + b";
          "";
          "    @NativeExport fun getName(): String? { return null }";
          "}" ].

Definition more_kt : string :=
  lines [ "package com.example";
          "object Math {";
          "    @JvmStatic @NativeExport";
          "    fun scale(xs: FloatArray, k: Float?): FloatArray { return xs }";
          "}" ].

Definition clock_kt : string :=
  lines [ "package com.example.time";
          "internal class Clock {";
          "    @NativeExport fun now(): Long { return 0 }";
          "    @NativeExport fun reset() { }";
          "}" ].

Definition bridge_kt : string :=
  lines [ "package com.example";
          "object Bridge {";
          "    @NativeExport fun bad(handle: Foo, n: Int): Int { return 0 }";
          "    @NativeExport fun good(n: Int): Int { return n }";
          "}" ].

(** A class declared with a visibility modifier and another modifier. *)
Definition foo_kt : string :=
  lines [ "package com.example";
          "public data class Foo {";
          "    @NativeExport fun good(n: Int): Int { return n }";
          "}" ].

Definition app_bridge_kt : string :=
  lines [ "package com.example";
          "internal open class Bridge {";
          "    @NativeExport fun bad(handle: Foo, n: Int): Int { return 0 }";
          "    @NativeExport fun good(n: Int): Int { return n }";
          "}" ].

(** A file of top-level functions, without class declaration. *)
Definition helpers_kt : string :=
  lines [ "package com.example";
          "";
          "fun clamp(x: Int): Int = x" ].

Definition demo_fs : FileSystem :=
  {| to_path := fun s => s;
     is_file := fun p => existsb (String.eqb p)
                           ["src/math.kt"; "src/more.kt"; "src/clock.kt";
                            "src/bridge.kt"; "lib/helpers.kt";
                            "app/foo.kt"; "app/bridge.kt"];
     is_dir := fun p => (p =? "src") || (p =? "lib") || (p =? "app");
     rglob_kt := fun p =>
       if p =? "src" then ["src/math.kt"; "src/clock.kt"; "src/more.kt"; "src/bridge.kt"]
       else if p =? "lib" then ["lib/helpers.kt"]
       else if p =? "app" then ["app/foo.kt"; "app/bridge.kt"] else [];
     glob_cwd := fun pattern =>
       if PyStr.startswith pattern "/"
       then Raise (NotImplementedError "Non-relative patterns are unsupported")
       else if pattern =? "src/m*.kt" then Ret ["src/math.kt"; "src/more.kt"]
       else if pattern =? "src/*.kt"
            then Ret ["src/math.kt"; "src/clock.kt"; "src/more.kt"; "src/bridge.kt"]
            else Ret [];
     read_text := fun p =>
       if p =? "src/math.kt" then inl math_kt
       else if p =? "src/more.kt" then inl more_kt
       else if p =? "src/clock.kt" then inl clock_kt
       else if p =? "src/bridge.kt" then inl bridge_kt
       else if p =? "lib/helpers.kt" then inl helpers_kt
       else if p =? "app/foo.kt" then inl foo_kt
       else if p =? "app/bridge.kt" then inl app_bridge_kt
       else inr ("[Errno 2] No such file or directory: '" ++ p ++ "'");
     open_write := fun p =>
       if PyStr.startswith p "gen/"
       then Raise (OSError ("[Errno 2] No such file or directory: '" ++ p ++ "'"))
       else Ret tt |}.

(** *** The parts of the emitted source, in the words of the specification *)

(** The header comment: the count of classes and of functions. *)
Definition header_comment (class_methods : dict (list method)) : string :=
  "// Auto-generated JNI loader code" ++ nl
  ++ "// Generated by jni_generator.py" ++ nl
  ++ "// Found " ++ PyStr.of_nat (List.length class_methods) ++ " classes with "
  ++ PyStr.of_nat (total_methods class_methods) ++ " methods" ++ nl ++ nl.

(** The start of the load entry point: logging, then the helper accessor
    and its initialization with the runtime handle. *)
Definition load_prologue (helper : string) : string :=
  "JNIEXPORT jint JNI_OnLoad(JavaVM* vm, void* reserved)" ++ nl
  ++ "{" ++ nl
  ++ "    saturn::tools::Logger::initialize();" ++ nl ++ nl
  ++ "    auto helper = " ++ helper ++ "::getInstance();" ++ nl ++ nl
  ++ "    helper->initialize(vm);" ++ nl ++ nl.

(** The class is resolved by its fully-qualified name. *)
Definition resolve_class (class_name : string) : string :=
  "        auto clazzRef = helper->findClass(" ++ dq ++ class_name ++ dq ++ ");" ++ nl.

(** On failure: an error naming the short name of the class, and the error
    sentinel returned from the entry point. *)
Definition fail_fast (class_name : string) : string :=
  "        if (!clazzRef)" ++ nl
  ++ "        {" ++ nl
  ++ "            SATURN_ERROR(" ++ dq ++ "Failed to find " ++ short_name class_name
  ++ " class" ++ dq ++ ");" ++ nl
  ++ "            return JNI_ERR;" ++ nl
  ++ "        }" ++ nl ++ nl.

(** On success: the global reference. *)
Definition global_reference : string :=
  "        helper->createGlobalRef(clazzRef);" ++ nl ++ nl.

(** One method handle, by class name, function name and signature. *)
Definition method_handle (class_name : string) (m : method) : string :=
  "        helper->getStaticMethodID(" ++ dq ++ class_name ++ dq ++ ", "
  ++ dq ++ fst m ++ dq ++ "," ++ nl
  ++ "                                  " ++ dq ++ snd m ++ dq ++ ");" ++ nl ++ nl.

(** The scoped block of a class. *)
Definition class_block (entry : string * list method) : string :=
  "    // Load methods for " ++ fst entry ++ nl
  ++ "    {" ++ nl
  ++ resolve_class (fst entry)
  ++ fail_fast (fst entry)
  ++ global_reference
  ++ String.concat "" (map (method_handle (fst entry)) (snd entry))
  ++ "    }" ++ nl ++ nl.

(** The end of the load entry point: the success sentinel. *)
Definition load_epilogue : string :=
  "    return JNI_VERSION_1_6;" ++ nl ++ "}" ++ nl.

Definition unload_entry_point : string :=
  nl ++ "JNIEXPORT void JNICALL JNI_OnUnload(JavaVM* vm, void* /*reserved*/)" ++ nl
  ++ "{" ++ nl
  ++ "    saturn::platform::agdk::JNIHelper::getInstance()->shutdown();" ++ nl ++ nl
  ++ "    saturn::tools::Logger::shutdown();" ++ nl
  ++ "}" ++ nl.

(** What a run over the resolved files ends with, given the grouping the
    Extractor builds from them. *)
Definition run_of (fs : FileSystem) (args : Args) (kotlin_files : list Path)
  : outcome Run :=
  match kotlin_files with
  | [] => Ret {| exit_code := 1; written := None |}
  | _ :: _ =>
      match group_files fs kotlin_files [] with
      | Raise e => Raise e
      | Ret [] => Ret {| exit_code := 0; written := None |}
      | Ret class_methods =>
          match open_write fs (to_path fs (output args)) with
          | Raise e => Raise e
          | Ret _ =>
              Ret {| exit_code := 0;
                     written := Some (to_path fs (output args),
                                      generate_cpp_file class_methods
                                                        (helper_class args)) |}
          end
      end
  end.

(** What a run ends with, given what the scanner ends with. *)
Definition scan_then_run (fs : FileSystem) (args : Args)
           (scan : outcome (list Path)) : outcome Run :=
  match scan with
  | Raise e => Raise e
  | Ret kotlin_files => run_of fs args kotlin_files
  end.

(** The text of the output file of a run, if it wrote one. *)
Definition written_text (r : outcome Run) : option string :=
  match r with
  | Ret run => option_map snd (written run)
  | Raise _ => None
  end.

Definition demo_args (inputs : list string) : Args :=
  {| input := Some inputs;
     output := "jni_loader.cpp";
     helper_class := "saturn::platform::agdk::JNIHelper";
     verbose := false |}.

(** *** Alphabets of the extracted names *)

(** The characters of a descriptor: letters, and the slash, the semicolon
    and the opening bracket. *)
Definition is_descriptor_char (c : ascii) : bool :=
  PyStr.is_upper c || PyStr.is_lower c || PyStr.mem_char c "/;[".

(** The characters of a signature: those of a descriptor and the two
    parentheses. *)
Definition is_signature_char (c : ascii) : bool :=
  is_descriptor_char c || PyStr.mem_char c "()".

(** The characters of a class name: word characters and the slash. *)
Definition is_class_char (c : ascii) : bool :=
  PyStr.is_word c || Ascii.eqb c "/".

Fixpoint all_chars (f : ascii -> bool) (s : string) : bool :=
  match s with
  | EmptyString => true
  | String c s' => f c && all_chars f s'
  end.

(** A well-formed entry of the grouping: a non-empty word as function
    name and a signature over the signature alphabet; a well-formed binding:
    a class name over the class alphabet and a non-empty list of well-formed
    entries. *)
Definition method_ok (m : method) : Prop :=
  fst m <> ""
  /\ all_chars PyStr.is_word (fst m) = true
  /\ all_chars is_signature_char (snd m) = true.

Definition binding_ok (entry : string * list method) : Prop :=
  fst entry <> ""
  /\ all_chars is_class_char (fst entry) = true
  /\ snd entry <> []
  /\ Forall method_ok (snd entry).

(** A text in which neither of the first two class patterns finds a
    candidate outside the annotation names. *)
Definition lacks_class_declaration (text : string) : bool :=
  negb (truthy_opt (first_candidate (Re.finditer Re.match_visibility 0 None text)))
  && negb (truthy_opt (first_candidate (Re.finditer Re.match_modifiers 0 None text))).

(** [c] returns [a] after printing the lines [msgs], without raising. *)
Definition prints {A : Type} (c : M A) (a : A) (msgs : list string) : Prop :=
  forall out, c out = (Ret a, (out ++ msgs)%list).

(** * Properties *)

(** ** Strings *)

Lemma append_empty_r (s : string) : s ++ "" = s.
Proof. induction s as [|c s IH]; simpl; [reflexivity | now rewrite IH]. Qed.

Lemma append_assoc (a b c : string) : (a ++ b) ++ c = a ++ (b ++ c).
Proof. induction a as [|x a IH]; simpl; [reflexivity | now rewrite IH]. Qed.

Lemma append_length (a b : string) :
  String.length (a ++ b) = String.length a + String.length b.
Proof. induction a as [|x a IH]; simpl; [reflexivity | now rewrite IH]. Qed.

Lemma append_inv_length (a b c : string) :
  a ++ c = b -> String.length b = String.length a + String.length c.
Proof. intros <-. apply append_length. Qed.

Lemma endswith_append (x suf : string) : PyStr.endswith (x ++ suf) suf = true.
Proof.
  induction x as [|c x IH]; cbn [append PyStr.endswith].
  - destruct suf; cbn [PyStr.endswith]; now rewrite String.eqb_refl.
  - rewrite IH. now destruct (String c (x ++ suf) =? suf).
Qed.

Lemma substring_prefix (x y : string) :
  substring 0 (String.length x) (x ++ y) = x.
Proof.
  induction x as [|c x IH]; simpl.
  - now destruct y.
  - now rewrite IH.
Qed.

Lemma drop_last_append (x suf : string) :
  PyStr.drop_last (String.length suf) (x ++ suf) = x.
Proof.
  unfold PyStr.drop_last. rewrite append_length.
  replace (String.length x + String.length suf - String.length suf)
    with (String.length x) by lia.
  apply substring_prefix.
Qed.

(** ** The matchers consume text

    [finditer] resumes after a match by skipping its characters, and the
    starred group of the second class pattern is run on fuel: both rest on
    every match taking at least one character. *)

Lemma lit_length (p s r : string) :
  Re.lit p s = Some r -> String.length s = String.length p + String.length r.
Proof.
  revert s. induction p as [|a p IH]; intros [|b s]; cbn [Re.lit String.length];
    try discriminate.
  - now intros [= <-].
  - now intros [= <-].
  - destruct (Ascii.eqb a b); [|discriminate].
    intros H. rewrite (IH _ H). reflexivity.
Qed.

Lemma alt_lit_length (ps : list string) (s r : string) :
  Forall (fun p => 0 < String.length p) ps ->
  Re.alt_lit ps s = Some r -> String.length r < String.length s.
Proof.
  induction 1 as [|p ps Hp _ IH]; cbn [Re.alt_lit]; [discriminate|].
  destruct (Re.lit p s) as [r'|] eqn:Hlit; [|exact IH].
  intros [= <-]. apply lit_length in Hlit. lia.
Qed.

Lemma span_length (f : ascii -> bool) (s : string) :
  String.length s
  = String.length (fst (Re.span f s)) + String.length (snd (Re.span f s)).
Proof.
  induction s as [|c s IH]; cbn [Re.span]; [reflexivity|].
  destruct (f c); [|reflexivity].
  destruct (Re.span f s) as [run rest]. cbn [fst snd String.length] in *. lia.
Qed.

Lemma skip_ws_length (s : string) : String.length (Re.skip_ws s) <= String.length s.
Proof. unfold Re.skip_ws. rewrite (span_length PyStr.is_space s). lia. Qed.

Lemma truthy_length (s : string) : PyStr.truthy s = true -> 0 < String.length s.
Proof. destruct s; [discriminate | cbn; lia]. Qed.

Lemma ws_plus_length (s r : string) :
  Re.ws_plus s = Some r -> String.length r < String.length s.
Proof.
  unfold Re.ws_plus. pose proof (span_length PyStr.is_space s) as Hlen.
  destruct (Re.span PyStr.is_space s) as [run rest]. cbn [fst snd] in Hlen.
  destruct (PyStr.truthy run) eqn:Hrun; [|discriminate].
  intros [= <-]. apply truthy_length in Hrun. lia.
Qed.

Ltac nonempty_literals := repeat constructor; cbn; lia.

Lemma class_decl_length (s g rest : string) :
  Re.class_decl s = Some (g, rest) -> String.length rest < String.length s.
Proof.
  unfold Re.class_decl.
  destruct (Re.alt_lit ["class"; "object"] s) as [s1|] eqn:H1; [|discriminate].
  apply alt_lit_length in H1; [|nonempty_literals].
  destruct (Re.ws_plus s1) as [s2|] eqn:H2; [|discriminate].
  apply ws_plus_length in H2.
  pose proof (span_length PyStr.is_word s2) as Hlen.
  destruct (Re.span PyStr.is_word s2) as [run rest']. cbn [fst snd] in Hlen.
  destruct (PyStr.truthy run); [|discriminate].
  intros [= _ <-]. lia.
Qed.

Lemma orelse_cases {A : Type} (a b : option A) (x : A) :
  Re.orelse a b = Some x -> a = Some x \/ b = Some x.
Proof. destruct a; cbn; auto. Qed.

Lemma visibility_tail_length (s g rest : string) :
  Re.visibility_tail s = Some (g, rest) -> String.length rest < String.length s.
Proof.
  unfold Re.visibility_tail. pose proof (skip_ws_length s) as Hws.
  destruct (Re.alt_lit _ (Re.skip_ws s)) as [s1|] eqn:H1.
  - apply alt_lit_length in H1; [|nonempty_literals].
    destruct (Re.ws_plus s1) as [s2|] eqn:H2.
    + apply ws_plus_length in H2.
      intros H. apply orelse_cases in H as [H|H]; apply class_decl_length in H; lia.
    + intros H. apply class_decl_length in H. lia.
  - intros H. apply class_decl_length in H. lia.
Qed.

Lemma modifiers_star_length (fuel : nat) (s g rest : string) :
  Re.modifiers_star fuel s = Some (g, rest) -> String.length rest < String.length s.
Proof.
  revert s. induction fuel as [|fuel IH]; intros s; cbn [Re.modifiers_star].
  - apply class_decl_length.
  - destruct (Re.alt_lit _ s) as [s1|] eqn:H1; [|apply class_decl_length].
    apply alt_lit_length in H1; [|nonempty_literals].
    destruct (Re.ws_plus s1) as [s2|] eqn:H2; [|apply class_decl_length].
    apply ws_plus_length in H2.
    intros H. apply orelse_cases in H as [H|H].
    + apply IH in H. lia.
    + now apply class_decl_length in H.
Qed.

(** The length of the text is enough fuel for the starred group: more
    fuel changes nothing. *)
Lemma modifiers_star_fuel (n m : nat) (s : string) :
  String.length s <= n -> String.length s <= m ->
  Re.modifiers_star n s = Re.modifiers_star m s.
Proof.
  revert m s. induction n as [|n IH]; intros [|m] s Hn Hm; cbn [Re.modifiers_star];
    try reflexivity.
  - destruct s; [reflexivity | cbn in Hn; lia].
  - destruct s; [reflexivity | cbn in Hm; lia].
  - destruct (Re.alt_lit _ s) as [s1|] eqn:H1; [|reflexivity].
    apply alt_lit_length in H1; [|nonempty_literals].
    destruct (Re.ws_plus s1) as [s2|] eqn:H2; [|reflexivity].
    apply ws_plus_length in H2.
    rewrite (IH m s2) by lia. reflexivity.
Qed.

Lemma first_of_line_start_length {G : Type} (tail : string -> option (G * string))
      (prev : option ascii) (s : string) (g : G) (rest : string) :
  (forall s' g' rest', tail s' = Some (g', rest') ->
                       String.length rest' < String.length s') ->
  Re.first_of tail (Re.line_start prev s) = Some (g, rest) ->
  String.length rest < String.length s.
Proof.
  intros Htail. unfold Re.line_start.
  assert (Hsub : forall starts,
             Forall (fun s' => String.length s' <= String.length s) starts ->
             Re.first_of tail starts = Some (g, rest) ->
             String.length rest < String.length s).
  { induction 1 as [|s' starts Hs' _ IH]; cbn [Re.first_of]; [discriminate|].
    intros H. apply orelse_cases in H as [H|H]; [|now apply IH].
    apply Htail in H. lia. }
  apply Hsub. apply Forall_app. split.
  - destruct prev as [c|]; [destruct (Ascii.eqb c Re.LF)|]; repeat constructor.
  - destruct s as [|c s']; [constructor|].
    destruct (Ascii.eqb c Re.LF); repeat constructor.
Qed.

Lemma match_visibility_length (prev : option ascii) (s g rest : string) :
  Re.match_visibility prev s = Some (g, rest) -> String.length rest < String.length s.
Proof. apply first_of_line_start_length. apply visibility_tail_length. Qed.

Lemma match_modifiers_length (prev : option ascii) (s g rest : string) :
  Re.match_modifiers prev s = Some (g, rest) -> String.length rest < String.length s.
Proof.
  apply first_of_line_start_length. intros s' g' rest'. unfold Re.modifiers_tail.
  intros H. apply modifiers_star_length in H.
  pose proof (skip_ws_length s'). lia.
Qed.

Lemma native_export_tail_length (s : string) (m : Re.method_match) (rest : string) :
  Re.native_export_tail s = Some (m, rest) -> String.length rest < String.length s.
Proof.
  unfold Re.native_export_tail.
  destruct (Re.lit "@NativeExport" s) as [s1|] eqn:H1; [|discriminate].
  apply lit_length in H1. pose proof (skip_ws_length s1) as Hs1.
  destruct (Re.lit "fun" (Re.skip_ws s1)) as [s2|] eqn:H2; [|discriminate].
  apply lit_length in H2.
  destruct (Re.ws_plus s2) as [s3|] eqn:H3; [|discriminate].
  apply ws_plus_length in H3.
  pose proof (span_length PyStr.is_word s3) as H4.
  destruct (Re.span PyStr.is_word s3) as [name s4]. cbn [fst snd] in H4.
  destruct (PyStr.truthy name); cbn [negb]; [|discriminate].
  pose proof (skip_ws_length s4) as Hs4.
  destruct (Re.lit "(" (Re.skip_ws s4)) as [s5|] eqn:H5; [|discriminate].
  apply lit_length in H5.
  pose proof (span_length Re.is_not_rparen s5) as H6.
  destruct (Re.span Re.is_not_rparen s5) as [params s6]. cbn [fst snd] in H6.
  destruct (Re.lit ")" s6) as [s7|] eqn:H7; [|discriminate].
  apply lit_length in H7.
  assert (H8 : String.length (snd (Re.return_tail s7)) <= String.length s7).
  { unfold Re.return_tail. pose proof (skip_ws_length s7) as Hs7.
    destruct (Re.lit ":" (Re.skip_ws s7)) as [s8|] eqn:H8; [|exact Hs7].
    apply lit_length in H8. pose proof (skip_ws_length s8) as Hs8.
    pose proof (span_length Re.is_ret_char (Re.skip_ws s8)) as H9.
    destruct (Re.span Re.is_ret_char (Re.skip_ws s8)) as [g r]. cbn [fst snd] in H9.
    destruct (PyStr.truthy g); cbn [snd]; lia. }
  destruct (Re.return_tail s7) as [ret rest']. cbn [snd] in H8.
  intros [= _ <-]. cbn [String.length] in *. lia.
Qed.

Lemma match_method_length (prev : option ascii) (s : string) (m : Re.method_match)
      (rest : string) :
  Re.match_method prev s = Some (m, rest) -> String.length rest < String.length s.
Proof.
  unfold Re.match_method.
  destruct (Re.lit "@JvmStatic" s) as [s1|] eqn:H1; [|apply native_export_tail_length].
  apply lit_length in H1. pose proof (skip_ws_length s1) as Hs1.
  intros H. apply orelse_cases in H as [H|H]; apply native_export_tail_length in H; lia.
Qed.

(** ** TypeMapper *)

(** The equation of [kotlin_to_jni_type], as the source reads. *)
Lemma kotlin_to_jni_type_eq (ktype : string) (nullable : bool) :
  kotlin_to_jni_type ktype nullable =
  if PyStr.endswith ktype "Array"
  then match kotlin_to_jni_type (PyStr.drop_last 5 ktype) false with
       | Some element_sig =>
           if PyStr.truthy element_sig then Some ("[" ++ element_sig) else None
       | None => None
       end
  else base_type ktype nullable.
Proof.
  funelim (kotlin_to_jni_type ktype nullable);
    repeat match goal with
      | H : PyStr.endswith ?k _ = _ |- context [PyStr.endswith ?k _] => rewrite H
      | H : kotlin_to_jni_type ?k false = Some _
        |- context [kotlin_to_jni_type ?k false] => rewrite H
      | H : kotlin_to_jni_type ?k false = None
        |- context [kotlin_to_jni_type ?k false] => rewrite H
      end; reflexivity.
Qed.

Lemma base_type_truthy (ktype : string) (nullable : bool) (d : string) :
  base_type ktype nullable = Some d -> PyStr.truthy d = true.
Proof.
  unfold base_type.
  destruct (dict_get mapping ktype) as [base_sig|]; [|discriminate].
  destruct (PyStr.truthy base_sig) eqn:Hb; cbn [negb]; [|discriminate].
  destruct (nullable && PyStr.contains base_sig "IFDJZBSC").
  - unfold wrapper_mapping. cbn [dict_get].
    repeat match goal with
      | |- context [if ?b then _ else _] => destruct b
      end; intros H; inversion H; reflexivity.
  - intros H; inversion H; subst; exact Hb.
Qed.

(** A descriptor is never the empty string, so the test [if element_sig:]
    of the array rule only separates [None] from a descriptor. *)
Lemma kotlin_to_jni_type_truthy (ktype : string) (nullable : bool) (d : string) :
  kotlin_to_jni_type ktype nullable = Some d -> PyStr.truthy d = true.
Proof.
  rewrite kotlin_to_jni_type_eq.
  destruct (PyStr.endswith ktype "Array").
  - destruct (kotlin_to_jni_type (PyStr.drop_last 5 ktype) false) as [e|];
      [|discriminate].
    destruct (PyStr.truthy e); [|discriminate].
    intros H; inversion H; reflexivity.
  - apply base_type_truthy.
Qed.

(** No entry of [mapping] makes [wrapper_mapping[base_sig]] raise
    [KeyError]: the values of [mapping] found inside ["IFDJZBSC"] are keys
    of [wrapper_mapping]. *)
Lemma wrapper_mapping_total :
  Forall (fun entry =>
            PyStr.contains (snd entry) "IFDJZBSC" = true ->
            dict_get wrapper_mapping (snd entry) <> None) mapping.
Proof. repeat constructor; cbn; discriminate. Qed.

(** C3. Every type name of the fixed table maps, when it is not nullable,
    to its documented descriptor (a single letter for a primitive, the
    object code for String, V for Unit); when it is nullable it maps to the
    documented boxed-object descriptor, which differs from the plain one
    exactly when the plain one is a primitive single-letter code. The table
    named here has the keys of the mapper's own table. *)
Theorem type_mapper_table :
  map (fun row => fst (fst row)) documented_table = dict_keys mapping
  /\ Forall (fun row =>
               let '(name, plain, boxed) := row in
               kotlin_to_jni_type name false = Some plain
               /\ kotlin_to_jni_type name true = Some boxed
               /\ (is_primitive_code plain = true
                   /\ dict_get wrapper_mapping plain = Some boxed
                   /\ boxed <> plain
                   \/ is_primitive_code plain = false /\ boxed = plain))
            documented_table.
Proof.
  split; [reflexivity|].
  unfold documented_table.
  repeat (apply Forall_cons;
          [ split; [reflexivity | split; [reflexivity|]];
            first [ left; split; [reflexivity | split; [reflexivity | discriminate]]
                  | right; split; reflexivity ]
          | ]).
  apply Forall_nil.
Qed.

(** The array rule, one suffix at a time. *)
Lemma array_suffix (element : string) :
  kotlin_to_jni_type (element ++ "Array") false =
  option_map (String.append "[") (kotlin_to_jni_type element false).
Proof.
  rewrite (kotlin_to_jni_type_eq (element ++ "Array")).
  rewrite endswith_append.
  change 5 with (String.length "Array"). rewrite drop_last_append.
  destruct (kotlin_to_jni_type element false) as [d|] eqn:Hd; [|reflexivity].
  rewrite (kotlin_to_jni_type_truthy _ _ _ Hd). reflexivity.
Qed.

(** C4. For every element type name, the mapper applied to the name with
    the array suffix appended, non-nullable, is the array marker put before
    what the mapper gives for the element, non-nullable; the same holds
    for any number of nested suffixes; and when the element does not map
    (the mapper gives [None]) the array type does not map either. *)
Theorem array_rule (element : string) :
  kotlin_to_jni_type (element ++ "Array") false =
    option_map (String.append "[") (kotlin_to_jni_type element false)
  /\ forall n : nat,
      kotlin_to_jni_type (array_of n element) false =
        option_map (array_marks n) (kotlin_to_jni_type element false).
Proof.
  split; [apply array_suffix|].
  induction n as [|n IH]; cbn [array_of array_marks].
  - now destruct (kotlin_to_jni_type element false).
  - rewrite array_suffix, IH.
    now destruct (kotlin_to_jni_type element false).
Qed.

(** C9. For every type name that ends with the array suffix, the mapper
    gives the same result whether the type is nullable or not: the array
    rule comes before the nullability rule and maps the element as
    non-nullable, so an array is never boxed. *)
Theorem array_ignores_nullability (ktype : string) :
  PyStr.endswith ktype "Array" = true ->
  kotlin_to_jni_type ktype true = kotlin_to_jni_type ktype false.
Proof.
  intros Hends.
  rewrite (kotlin_to_jni_type_eq ktype true), (kotlin_to_jni_type_eq ktype false).
  rewrite Hends. reflexivity.
Qed.

Lemma array_ignores_nullability_witness :
  PyStr.endswith "IntArray" "Array" = true
  /\ kotlin_to_jni_type "IntArray" true = kotlin_to_jni_type "IntArray" false.
Proof.
  split; [reflexivity|].
  apply (array_ignores_nullability "IntArray"). reflexivity.
Defined.

(** ** SourceScanner *)

Lemma collect_kotlin_files_candidates (fs : FileSystem) (input_paths : list string)
      (kotlin_files : list Path) :
  collect_kotlin_files fs input_paths kotlin_files
  = match all_candidates fs input_paths with
    | Raise e => Raise e
    | Ret found => Ret (kotlin_files ++ found)%list
    end.
Proof.
  revert kotlin_files.
  induction input_paths as [|input_path rest IH]; intros kotlin_files;
    cbn [collect_kotlin_files all_candidates].
  - now rewrite app_nil_r.
  - unfold candidates.
    destruct (is_file fs (to_path fs input_path)
              && (path_suffix (to_path fs input_path) =? ".kt"));
      [|destruct (is_dir fs (to_path fs input_path));
        [|destruct (glob_cwd fs input_path) as [matches|e]; [|reflexivity]]];
      rewrite IH; destruct (all_candidates fs rest); try reflexivity;
      now rewrite <- app_assoc.
Qed.

Lemma find_kotlin_files_candidates (so : SetOrder) (fs : FileSystem)
      (input_paths : list string) :
  find_kotlin_files so fs input_paths
  = match all_candidates fs input_paths with
    | Raise e => Raise e
    | Ret found => Ret (list_set so found)
    end.
Proof.
  unfold find_kotlin_files. rewrite collect_kotlin_files_candidates.
  now destruct (all_candidates fs input_paths).
Qed.

Lemma all_candidates_In (fs : FileSystem) (input_paths : list string)
      (found : list Path) (p : Path) :
  all_candidates fs input_paths = Ret found ->
  (In p found
   <-> exists input_path matches,
         In input_path input_paths
         /\ candidates fs input_path = Ret matches /\ In p matches).
Proof.
  revert found. induction input_paths as [|input_path rest IH]; intros found;
    cbn [all_candidates].
  - intros [= <-]. split; [contradiction | intros (? & ? & [] & _)].
  - destruct (candidates fs input_path) as [matches|e] eqn:Hc; [|discriminate].
    destruct (all_candidates fs rest) as [others|e]; [|discriminate].
    intros [= <-]. rewrite in_app_iff, (IH others eq_refl). split.
    + intros [Hp | (i & ms & Hi & Hms & Hp)].
      * exists input_path, matches. repeat split; [now left | assumption..].
      * exists i, ms. repeat split; [now right | assumption..].
    + intros (i & ms & [<-|Hi] & Hms & Hp).
      * rewrite Hc in Hms. injection Hms as <-. now left.
      * right. now exists i, ms.
Qed.

Lemma all_candidates_returns (fs : FileSystem) (input_paths : list string) :
  (forall input_path, In input_path input_paths ->
                      exists matches, candidates fs input_path = Ret matches) ->
  exists found, all_candidates fs input_paths = Ret found.
Proof.
  induction input_paths as [|input_path rest IH]; intros Hall; cbn [all_candidates].
  - now exists [].
  - destruct (Hall input_path (or_introl eq_refl)) as [matches ->].
    destruct IH as [others ->]; [intros i Hi; apply Hall; now right|].
    now eexists.
Qed.

Lemma list_set_NoDup (so : SetOrder) (xs : list Path) : NoDup (list_set so xs).
Proof.
  apply (Permutation_NoDup (Permutation_sym (list_set_spec so xs))).
  apply NoDup_nodup.
Qed.

Lemma list_set_In (so : SetOrder) (xs : list Path) (p : Path) :
  In p (list_set so xs) <-> In p xs.
Proof.
  rewrite <- (nodup_In string_dec xs p). split; apply Permutation_in.
  - apply list_set_spec.
  - apply Permutation_sym, list_set_spec.
Qed.

(** C8. For every list of inputs and every two of its inputs (patterns,
    directories or files) that both match the same source file, the file
    set resolved by the scanner contains that file exactly once.  A file is
    identified by its path, as in the source.  With the two inputs alone
    the scanner returns; with further inputs it returns when no input is
    a pattern that [pathlib] refuses. *)
Theorem scanner_deduplicates (so : SetOrder) (fs : FileSystem)
        (input_paths : list string) (pattern1 pattern2 : string) (file : Path)
        (matches1 matches2 : list Path) :
  In pattern1 input_paths -> In pattern2 input_paths ->
  candidates fs pattern1 = Ret matches1 -> In file matches1 ->
  candidates fs pattern2 = Ret matches2 -> In file matches2 ->
  (exists kotlin_files,
      find_kotlin_files so fs [pattern1; pattern2] = Ret kotlin_files
      /\ count_occ string_dec kotlin_files file = 1)
  /\ (forall kotlin_files,
         find_kotlin_files so fs input_paths = Ret kotlin_files ->
         count_occ string_dec kotlin_files file = 1)
  /\ ((forall input_path, In input_path input_paths ->
                          exists matches, candidates fs input_path = Ret matches) ->
      exists kotlin_files,
        find_kotlin_files so fs input_paths = Ret kotlin_files
        /\ count_occ string_dec kotlin_files file = 1).
Proof.
  intros Hin1 Hin2 Hc1 Hfile1 Hc2 Hfile2.
  assert (Honce : forall inputs kotlin_files,
             In pattern1 inputs ->
             find_kotlin_files so fs inputs = Ret kotlin_files ->
             count_occ string_dec kotlin_files file = 1).
  { intros inputs kotlin_files Hin. rewrite find_kotlin_files_candidates.
    destruct (all_candidates fs inputs) as [found|e] eqn:Hall; [|discriminate].
    intros [= <-]. apply (proj1 (NoDup_count_occ' string_dec _)).
    - apply list_set_NoDup.
    - apply list_set_In. apply (all_candidates_In fs inputs found file Hall).
      now exists pattern1, matches1. }
  assert (Hreturns : forall inputs,
             In pattern1 inputs ->
             (forall input_path, In input_path inputs ->
                                 exists matches, candidates fs input_path = Ret matches) ->
             exists kotlin_files,
               find_kotlin_files so fs inputs = Ret kotlin_files
               /\ count_occ string_dec kotlin_files file = 1).
  { intros inputs Hin Hall. destruct (all_candidates_returns fs inputs Hall) as [found Hf].
    exists (list_set so found).
    assert (Hfind : find_kotlin_files so fs inputs = Ret (list_set so found))
      by (rewrite find_kotlin_files_candidates; now rewrite Hf).
    split; [exact Hfind | now apply (Honce inputs)]. }
  split; [|split].
  - apply Hreturns; [now left|].
    intros i [<-|[<-|[]]]; eauto.
  - intros kotlin_files. now apply Honce.
  - now apply Hreturns.
Qed.

Lemma scanner_deduplicates_witness :
  exists kotlin_files,
    find_kotlin_files insertion_order
      {| to_path := fun s => s;
         is_file := fun _ => false;
         is_dir := fun _ => false;
         rglob_kt := fun _ => [];
         glob_cwd := fun pattern =>
           if pattern =? "src/*.kt" then Ret ["src/math.kt"]
           else if pattern =? "src/**/*.kt"
                then Ret ["src/math.kt"; "src/util/clock.kt"]
                else Ret [];
         read_text := fun _ => inr "unused";
         open_write := fun _ => Ret tt |}
      ["src/*.kt"; "src/**/*.kt"] = Ret kotlin_files
    /\ count_occ string_dec kotlin_files "src/math.kt" = 1.
Proof.
  refine (proj1 (scanner_deduplicates _ _ ["src/*.kt"; "src/**/*.kt"]
                   "src/*.kt" "src/**/*.kt" "src/math.kt"
                   ["src/math.kt"] ["src/math.kt"; "src/util/clock.kt"]
                   _ _ _ _ _ _)).
  - left; reflexivity.
  - right; left; reflexivity.
  - reflexivity.
  - left; reflexivity.
  - reflexivity.
  - left; reflexivity.
Defined.

(** ** The printing monad *)

Lemma returns_ret {A : Type} (a : A) : returns (ret a) a.
Proof. intros out. now exists out. Qed.

Lemma returns_print (line : string) : returns (print line) tt.
Proof. intros out. now eexists. Qed.

Lemma returns_when (b : bool) (c : M unit) : returns c tt -> returns (when b c) tt.
Proof. destruct b; [trivial | intros _; apply returns_ret]. Qed.

Lemma returns_bind {A B : Type} (c : M A) (k : A -> M B) (a : A) (b : B) :
  returns c a -> returns (k a) b -> returns (bind c k) b.
Proof.
  intros Hc Hk out. unfold bind.
  destruct (Hc out) as [out1 ->]. apply Hk.
Qed.

Lemma returns_fst {A : Type} (c : M A) (a : A) (out : list string) :
  returns c a -> fst (c out) = Ret a.
Proof. intros H. now destruct (H out) as [out' ->]. Qed.

Create HintDb returns.
#[local] Hint Resolve returns_ret returns_print returns_when : returns.

(** ** Extractor: one function *)

Lemma params_loop_returns (name : string) (params : list string) (sig_parts : list string) :
  returns (params_loop name params sig_parts)
          (option_map (app sig_parts) (all_descriptors params)).
Proof.
  revert sig_parts.
  induction params as [|param rest IH]; intros sig_parts;
    cbn [params_loop all_descriptors option_map].
  - rewrite app_nil_r. apply returns_ret.
  - unfold param_descriptor, malformed, descriptor, param_type.
    destruct (PyStr.mem_char ":" (PyStr.strip param)); cbn [negb].
    + destruct (parse_kotlin_type _) as [type_name is_nullable].
      destruct (kotlin_to_jni_type type_name is_nullable) as [d|] eqn:Hd.
      * rewrite (kotlin_to_jni_type_truthy _ _ _ Hd).
        specialize (IH (sig_parts ++ [d])%list).
        destruct (all_descriptors rest) as [ds|]; cbn [option_map] in *.
        -- now rewrite <- app_assoc in IH.
        -- exact IH.
      * eapply returns_bind; eauto with returns.
    + eapply returns_bind; eauto with returns.
Qed.

(** What the body of the method loop appends is the ExportedFunction of the
    match, whatever is printed. *)
Lemma process_match_returns (verbose : bool) (m : Re.method_match) :
  returns (process_match verbose m) (entry_of m).
Proof.
  unfold process_match, entry_of.
  eapply returns_bind; [eauto with returns|].
  eapply returns_bind with (a := all_descriptors (params_of m)).
  - unfold params_of.
    destruct (PyStr.truthy (PyStr.strip (Re.group_params m))).
    + pose proof (params_loop_returns (Re.group_name m)
                    (PyStr.split "," (PyStr.strip (Re.group_params m))) []) as H.
      destruct (all_descriptors _); exact H.
    + apply returns_ret.
  - destruct (all_descriptors (params_of m)) as [ds|]; [|apply returns_ret].
    replace (if truthy_opt (Re.group_ret m)
             then match Re.group_ret m with Some r => r | None => "Unit" end
             else "Unit") with (return_text m)
      by (unfold return_text, truthy_opt; now destruct (Re.group_ret m)).
    unfold descriptor.
    destruct (parse_kotlin_type (return_text m)) as [ret_type ret_nullable].
    destruct (kotlin_to_jni_type ret_type ret_nullable) as [r|] eqn:Hr;
      cbn [truthy_opt negb].
    + rewrite (kotlin_to_jni_type_truthy _ _ _ Hr). cbn [negb].
      eapply returns_bind; eauto with returns.
    + eapply returns_bind; eauto with returns.
Qed.

Lemma methods_loop_returns (verbose : bool) (matches : list Re.method_match)
      (methods_found : list method) :
  returns (methods_loop verbose matches methods_found)
          (methods_found ++ successes matches)%list.
Proof.
  revert methods_found.
  induction matches as [|m rest IH]; intros methods_found;
    cbn [methods_loop successes flat_map].
  - rewrite app_nil_r. apply returns_ret.
  - eapply returns_bind; [apply process_match_returns|].
    fold (successes rest).
    destruct (entry_of m) as [entry|]; cbn [app].
    + specialize (IH (methods_found ++ [entry])%list).
      now rewrite <- app_assoc in IH.
    + apply IH.
Qed.

(** ** Extractor: the owning class *)

(** The loop over the class patterns never ends without a class name: it
    returns a non-empty name found by one of the first two patterns, or
    the compilation of the third pattern raises. *)
Lemma class_loop_outcome (file_content : string) :
  (exists c, class_loop class_patterns file_content = Ret (Some c)
             /\ PyStr.truthy c = true)
  \/ class_loop class_patterns file_content
     = Raise (re_error "look-behind requires fixed-width pattern").
Proof.
  unfold class_patterns. cbn [class_loop re_finditer].
  destruct (first_candidate (Re.finditer Re.match_visibility 0 None file_content))
    as [c1|] eqn:H1; cbn [truthy_opt].
  - destruct (PyStr.truthy c1) eqn:T1; [left; now exists c1|].
    destruct (first_candidate (Re.finditer Re.match_modifiers 0 None file_content))
      as [c2|] eqn:H2; cbn [truthy_opt].
    + destruct (PyStr.truthy c2) eqn:T2; [left; now exists c2 | now right].
    + now right.
  - destruct (first_candidate (Re.finditer Re.match_modifiers 0 None file_content))
      as [c2|] eqn:H2; cbn [truthy_opt].
    + destruct (PyStr.truthy c2) eqn:T2; [left; now exists c2 | now right].
    + now right.
Qed.

Lemma truthy_append_r (a b : string) : PyStr.truthy b = true -> PyStr.truthy (a ++ b) = true.
Proof.
  unfold PyStr.truthy. destruct b; [discriminate|]. intros _.
  now destruct a.
Qed.

(** [extract_package_and_class] returns a non-empty class name or raises
    [re.error]; it never returns [None] or an empty name. *)
Lemma extract_package_and_class_outcome (file_content : string) (file_path : Path) :
  (exists c, extract_package_and_class file_content file_path = Ret (Some c)
             /\ PyStr.truthy c = true)
  \/ extract_package_and_class file_content file_path
     = Raise (re_error "look-behind requires fixed-width pattern").
Proof.
  unfold extract_package_and_class.
  destruct (class_loop_outcome file_content) as [(c & -> & Hc) | ->]; [|now right].
  left. cbn [truthy_opt]. rewrite Hc. cbn [negb].
  destruct (Re.search Re.match_package file_content) as [p|].
  - rewrite Hc. destruct (PyStr.truthy p); cbn [andb].
    + eexists; split; [reflexivity|].
      now apply truthy_append_r, truthy_append_r.
    + now exists c.
  - rewrite Hc. now exists c.
Qed.

(** ** Extractor: the loop over the files *)

Lemma files_loop_group (fs : FileSystem) (verbose : bool) (kotlin_files : list Path)
      (class_methods : dict (list method)) (out : list string) :
  fst (files_loop fs verbose kotlin_files class_methods out)
  = group_files fs kotlin_files class_methods.
Proof.
  revert class_methods out.
  induction kotlin_files as [|kt_file rest IH]; intros class_methods out;
    cbn [files_loop group_files]; [reflexivity|].
  unfold bind at 1.
  destruct (returns_when verbose _ (returns_print ("Scanning: " ++ kt_file)) out)
    as [out1 ->].
  unfold scan_file.
  destruct (read_text fs kt_file) as [text|e].
  - unfold bind at 1, lift.
    destruct (extract_package_and_class text kt_file) as [[class_name|]|e];
      [| |reflexivity].
    + destruct (PyStr.truthy class_name); cbn [negb].
      * unfold bind at 1.
        destruct (returns_when verbose _ (returns_print ("  Class: " ++ class_name)) out1)
          as [out2 ->].
        unfold bind at 1.
        destruct (methods_loop_returns verbose (method_matches text) [] out2)
          as [out3 ->].
        cbn [app]. destruct (successes (method_matches text)); apply IH.
      * unfold bind at 1, print. apply IH.
    + unfold bind at 1, print. apply IH.
  - unfold bind at 1, print. apply IH.
Qed.

(** ** The grouping dictionary *)

Lemma dict_keys_extend (d : dict (list method)) (k : string) (v : list method) :
  dict_keys (dict_extend d k v)
  = if notin (dict_keys d) k then (dict_keys d ++ [k])%list else dict_keys d.
Proof.
  unfold notin, dict_keys.
  induction d as [|[k' v'] d IH]; cbn [dict_extend map existsb fst app negb];
    [reflexivity|].
  destruct (k =? k') eqn:E; cbn [orb negb map fst]; [reflexivity|].
  rewrite IH. now destruct (existsb (String.eqb k) (map fst d)).
Qed.

Lemma dict_find_extend (d : dict (list method)) (k : string) (v : list method)
      (c : string) :
  dict_find (dict_extend d k v) c
  = if c =? k then (dict_find d k ++ v)%list else dict_find d c.
Proof.
  unfold dict_find.
  induction d as [|[k' v'] d IH]; cbn [dict_extend dict_get].
  - destruct (c =? k); reflexivity.
  - destruct (k =? k') eqn:E; cbn [dict_get].
    + apply String.eqb_eq in E; subst k'.
      destruct (c =? k); reflexivity.
    + destruct (c =? k') eqn:E'; [|exact IH].
      apply String.eqb_eq in E'; subst k'.
      rewrite String.eqb_sym, E. reflexivity.
Qed.

Lemma total_methods_extend (d : dict (list method)) (k : string) (v : list method) :
  total_methods (dict_extend d k v) = total_methods d + List.length v.
Proof.
  unfold total_methods.
  induction d as [|[k' v'] d IH]; cbn [dict_extend]; [simpl; lia|].
  destruct (k =? k'); simpl in *.
  - rewrite length_app. lia.
  - rewrite IH. lia.
Qed.

Lemma filter_filter_and {A : Type} (f g : A -> bool) (l : list A) :
  filter f (filter g l) = filter (fun x => g x && f x) l.
Proof.
  induction l as [|x l IH]; cbn [filter]; [reflexivity|].
  destruct (g x); cbn [filter andb]; [destruct (f x)|]; now rewrite IH.
Qed.

Lemma notin_app (ks : list string) (k c : string) :
  notin (ks ++ [k]) c = negb (c =? k) && notin ks c.
Proof.
  unfold notin. rewrite existsb_app. cbn [existsb].
  rewrite orb_false_r, negb_orb. apply andb_comm.
Qed.

Lemma notin_known (ks : list string) (k c : string) :
  notin ks k = false -> negb (c =? k) && notin ks c = notin ks c.
Proof.
  intros Hk. destruct (String.eqb_spec c k) as [->|]; cbn [negb andb]; [|reflexivity].
  now rewrite Hk.
Qed.

Lemma first_occurrences_In (l : list string) (x : string) :
  In x (first_occurrences l) <-> In x l.
Proof.
  induction l as [|y l IH]; cbn [first_occurrences In]; [reflexivity|].
  rewrite filter_In, IH. destruct (String.eqb_spec x y) as [->|Hne].
  - intuition.
  - cbn [negb]. intuition congruence.
Qed.

Lemma first_occurrences_NoDup (l : list string) : NoDup (first_occurrences l).
Proof.
  induction l as [|y l IH]; cbn [first_occurrences]; constructor.
  - rewrite filter_In, String.eqb_refl. cbn [negb]. intuition discriminate.
  - now apply NoDup_filter.
Qed.

(** ** The grouping built by the Extractor *)

Section Grouping.

Variable fs : FileSystem.

(** A run over files none of which makes the class detection raise
    returns the grouping whose classes are the classes found, in the order
    of their first file, and whose functions are, class by class, the
    functions found file after file. *)
Lemma group_files_spec (kotlin_files : list Path) (d : dict (list method)) :
  forallb (fun p => negb (crashes fs p)) kotlin_files = true ->
  exists d',
    group_files fs kotlin_files d = Ret d'
    /\ dict_keys d'
       = (dict_keys d
          ++ filter (notin (dict_keys d))
                    (first_occurrences (flat_map (class_found fs) kotlin_files)))%list
    /\ (forall c, dict_find d' c
                  = (dict_find d c ++ flat_map (found_for fs c) kotlin_files)%list)
    /\ total_methods d'
       = total_methods d + list_sum (map (found_count fs) kotlin_files).
Proof.
  revert d.
  induction kotlin_files as [|p rest IH]; intros d Hok;
    cbn [group_files flat_map map list_sum first_occurrences filter forallb] in *.
  - exists d. repeat split; intros; rewrite ?app_nil_r; auto.
  - apply andb_prop in Hok as [Hp Hrest].
    unfold crashes, class_found, found_for, found_count in *.
    destruct (scan_file fs p) as [|e|c found]; [|discriminate|].
    + destruct (IH d Hrest) as (d' & Hd & Hk & Hf & Ht).
      exists d'. repeat split; auto.
    + destruct found as [|m found].
      * destruct (IH d Hrest) as (d' & Hd & Hk & Hf & Ht).
        exists d'. repeat split; auto.
        intros c'. rewrite Hf. now destruct (c' =? c).
      * destruct (IH (dict_extend d c (m :: found)) Hrest) as (d' & Hd & Hk & Hf & Ht).
        exists d'. split; [exact Hd|]. split; [|split].
        -- rewrite Hk, dict_keys_extend. cbn [app first_occurrences filter].
           rewrite filter_filter_and.
           destruct (notin (dict_keys d) c) eqn:Hc.
           ++ rewrite <- app_assoc. cbn [app]. do 2 f_equal.
              apply filter_ext. intros a. apply notin_app.
           ++ f_equal. apply filter_ext. intros a. symmetry.
              now apply notin_known.
        -- intros c'. rewrite Hf, dict_find_extend.
           destruct (String.eqb_spec c' c) as [->|].
           ++ now rewrite <- app_assoc.
           ++ reflexivity.
        -- rewrite Ht, total_methods_extend. simpl. lia.
Qed.

(** A run over files one of which makes the class detection raise ends
    with that exception. *)
Lemma group_files_crash (kotlin_files : list Path) (d : dict (list method)) :
  forallb (fun p => negb (crashes fs p)) kotlin_files = false ->
  group_files fs kotlin_files d
  = Raise (re_error "look-behind requires fixed-width pattern").
Proof.
  revert d.
  induction kotlin_files as [|p rest IH]; intros d Hko;
    cbn [group_files forallb] in *; [discriminate|].
  unfold crashes in Hko.
  destruct (scan_file fs p) as [|e|c found] eqn:Hp; cbn [negb andb] in Hko.
  - now apply IH.
  - f_equal. unfold scan_file in Hp.
    destruct (read_text fs p) as [text|]; [|discriminate].
    destruct (extract_package_and_class_outcome text p) as [(c & Hc & Ht) | Hc];
      rewrite Hc in Hp.
    + rewrite Ht in Hp. discriminate.
    + now inversion Hp.
  - destruct found; now apply IH.
Qed.

End Grouping.

(** ** Extractor: well-formed and failing functions *)

Lemma all_descriptors_well_formed (params : list string) :
  Forall (fun param => malformed param = false
                       /\ descriptor (param_type param) <> None) params ->
  exists ds, all_descriptors params = Some ds.
Proof.
  induction 1 as [|param rest [Hm Hd] _ [ds IH]]; cbn [all_descriptors].
  - now exists [].
  - unfold param_descriptor. rewrite Hm.
    destruct (descriptor (param_type param)) as [d|]; [|contradiction].
    rewrite IH. now eexists.
Qed.

Lemma entry_of_well_formed (m : Re.method_match) :
  well_formed m -> exists sig, entry_of m = Some (Re.group_name m, sig).
Proof.
  intros [Hparams Hret]. unfold entry_of.
  destruct (all_descriptors_well_formed _ Hparams) as [ds ->].
  destruct (descriptor (return_text m)) as [r|]; [|contradiction].
  now eexists.
Qed.

Lemma entry_of_unknown_param (m : Re.method_match) :
  has_unknown_param m -> entry_of m = None.
Proof.
  unfold has_unknown_param, entry_of.
  enough (H : Exists (fun param => malformed param = false
                                   /\ descriptor (param_type param) = None) (params_of m)
              -> all_descriptors (params_of m) = None).
  { intros Hex. now rewrite (H Hex). }
  induction 1 as [param rest [Hm Hd] | param rest _ IH]; cbn [all_descriptors].
  - unfold param_descriptor. now rewrite Hm, Hd.
  - destruct (param_descriptor param); [now rewrite IH | reflexivity].
Qed.

Lemma successes_well_formed (matches : list Re.method_match) :
  Forall well_formed matches ->
  map fst (successes matches) = map Re.group_name matches.
Proof.
  induction 1 as [|m rest Hm _ IH]; cbn [successes flat_map map]; [reflexivity|].
  destruct (entry_of_well_formed m Hm) as [sig ->].
  cbn [app map fst]. fold (successes rest). now rewrite IH.
Qed.

Lemma successes_app (a b : list Re.method_match) :
  successes (a ++ b) = (successes a ++ successes b)%list.
Proof. apply flat_map_app. Qed.

Lemma successes_In (matches : list Re.method_match) (m : Re.method_match) (e : method) :
  In m matches -> entry_of m = Some e -> In e (successes matches).
Proof.
  intros Hin He. apply in_flat_map. exists m. split; [exact Hin|].
  rewrite He. now left.
Qed.

(** ** Extractor: grouping by class *)

Section Declarations.

Variable fs : FileSystem.

(** A file with an owning class whose functions all resolve is scanned,
    and adds one entry per declared function. *)
Lemma scan_file_well_formed (p : Path) :
  owning_class fs p <> None -> Forall well_formed (declared fs p) ->
  crashes fs p = false
  /\ class_found fs p = match owning_class fs p, declared fs p with
                        | Some c, _ :: _ => [c]
                        | _, _ => []
                        end
  /\ (forall c, found_for fs c p
                = match owning_class fs p with
                  | Some c' => if c' =? c then successes (declared fs p) else []
                  | None => []
                  end)
  /\ found_count fs p = List.length (declared fs p).
Proof.
  unfold crashes, class_found, found_for, found_count, scan_file,
    owning_class, declared.
  destruct (read_text fs p) as [text|]; [|intros H; now contradiction H].
  destruct (extract_package_and_class text p) as [[c|]|];
    try (intros H; now contradiction H).
  destruct (PyStr.truthy c); [|intros H; now contradiction H].
  intros _ Hwf.
  pose proof (successes_well_formed _ Hwf) as Hnames.
  assert (Hlen : List.length (successes (method_matches text))
                 = List.length (method_matches text)).
  { transitivity (List.length (map fst (successes (method_matches text)))).
    - symmetry. apply length_map.
    - rewrite Hnames. apply length_map. }
  repeat split.
  - destruct (successes (method_matches text)), (method_matches text);
      try reflexivity; discriminate.
  - intros c'. now rewrite (String.eqb_sym c' c).
  - exact Hlen.
Qed.

(** X20. For every list of files in which each file can be read and has
    an owning class (the class detection returns for it) and every
    annotated function is free of malformed parameters and unknown types,
    with N annotated functions declared in all and M distinct owning
    classes among the files that declare one, the Extractor returns
    exactly M class bindings whose function lists sum to N functions; the
    classes come in the order of their first declaration, the functions of
    a class in the order of their declarations, file after file, each
    under its declared name; and the functions of several files with the
    same class name are in one binding. *)
Theorem extractor_groups_by_class (kotlin_files : list Path) (verbose : bool)
        (out : list string) :
  Forall (fun p => owning_class fs p <> None
                   /\ Forall well_formed (declared fs p)) kotlin_files ->
  exists class_methods,
    fst (extract_native_exports fs kotlin_files verbose out) = Ret class_methods
    /\ dict_keys class_methods = first_occurrences (classes_of fs kotlin_files)
    /\ List.length class_methods
       = List.length (first_occurrences (classes_of fs kotlin_files))
    /\ total_methods class_methods
       = list_sum (map (fun p => List.length (declared fs p)) kotlin_files)
    /\ (forall c, dict_find class_methods c = functions_of fs kotlin_files c)
    /\ (forall p, In p kotlin_files ->
                  map fst (successes (declared fs p))
                  = map Re.group_name (declared fs p)).
Proof.
  intros Hfiles.
  assert (Hok : forallb (fun p => negb (crashes fs p)) kotlin_files = true).
  { apply forallb_forall. intros p Hp.
    rewrite Forall_forall in Hfiles. destruct (Hfiles p Hp) as [Hc Hwf].
    now rewrite (proj1 (scan_file_well_formed p Hc Hwf)). }
  destruct (group_files_spec fs kotlin_files [] Hok) as (d & Hd & Hk & Hf & Ht).
  cbn [dict_keys map app total_methods list_sum] in Hk, Ht.
  assert (Hcls : flat_map (class_found fs) kotlin_files = classes_of fs kotlin_files).
  { unfold classes_of. clear Hok Hd Hk Hf Ht.
    induction Hfiles as [|p rest [Hc Hwf] _ IH]; cbn [flat_map]; [reflexivity|].
    rewrite IH.
    now rewrite (proj1 (proj2 (scan_file_well_formed p Hc Hwf))). }
  assert (Hfun : forall c, flat_map (found_for fs c) kotlin_files
                           = functions_of fs kotlin_files c).
  { intros c. unfold functions_of. clear Hok Hd Hk Hf Ht Hcls.
    induction Hfiles as [|p rest [Hc Hwf] _ IH]; cbn [flat_map]; [reflexivity|].
    rewrite IH.
    now rewrite (proj1 (proj2 (proj2 (scan_file_well_formed p Hc Hwf))) c). }
  assert (Hcnt : map (found_count fs) kotlin_files
                 = map (fun p => List.length (declared fs p)) kotlin_files).
  { clear Hok Hd Hk Hf Ht Hcls Hfun.
    induction Hfiles as [|p rest [Hc Hwf] _ IH]; cbn [map]; [reflexivity|].
    rewrite IH.
    now rewrite (proj2 (proj2 (proj2 (scan_file_well_formed p Hc Hwf)))). }
  assert (Hall : filter (notin []) (first_occurrences (classes_of fs kotlin_files))
                 = first_occurrences (classes_of fs kotlin_files)).
  { apply forallb_filter_id, forallb_forall. reflexivity. }
  rewrite Hcls, Hall in Hk.
  exists d. unfold extract_native_exports. rewrite files_loop_group.
  split; [exact Hd|]. split; [exact Hk|]. split; [|split; [|split]].
  - rewrite <- Hk. unfold dict_keys. now rewrite length_map.
  - rewrite Ht, Hcnt. reflexivity.
  - intros c. rewrite Hf, Hfun. reflexivity.
  - intros p Hp. rewrite Forall_forall in Hfiles.
    apply successes_well_formed, (Hfiles p Hp).
Qed.

End Declarations.

(** Closed instances of the hypotheses are settled by evaluation, one
    list at a time (a predicate over an arbitrary function is not
    evaluated). *)
Ltac eval_forall :=
  match goal with
  | |- Forall ?P ?l => let l' := eval vm_compute in l in change (Forall P l')
  end.

Ltac check_closed := vm_compute; first [reflexivity | discriminate].

Ltac solve_well_formed :=
  unfold well_formed; split;
  [ eval_forall; repeat (apply Forall_cons; [split; check_closed|]); apply Forall_nil
  | check_closed ].

Ltac solve_files :=
  repeat (apply Forall_cons;
          [ split;
            [ check_closed
            | eval_forall; repeat (apply Forall_cons; [solve_well_formed|]);
              apply Forall_nil ]
          | ]);
  apply Forall_nil.

Lemma extractor_groups_by_class_witness :
  exists class_methods,
    fst (extract_native_exports demo_fs ["src/math.kt"; "src/clock.kt"; "src/more.kt"]
                                false []) = Ret class_methods
    /\ dict_keys class_methods = ["com/example/Math"; "com/example/time/Clock"]
    /\ List.length class_methods = 2
    /\ total_methods class_methods = 5
    /\ (forall c, dict_find class_methods c
                  = functions_of demo_fs ["src/math.kt"; "src/clock.kt"; "src/more.kt"] c)
    /\ (forall p, In p ["src/math.kt"; "src/clock.kt"; "src/more.kt"] ->
                  map fst (successes (declared demo_fs p))
                  = map Re.group_name (declared demo_fs p)).
Proof.
  apply (extractor_groups_by_class demo_fs
           ["src/math.kt"; "src/clock.kt"; "src/more.kt"] false []).
  solve_files.
Defined.

Example extractor_groups_demo :
  fst (extract_native_exports demo_fs ["src/math.kt"; "src/clock.kt"; "src/more.kt"]
                              false [])
  = Ret [ ("com/example/Math",
           [("add", "(II)I"); ("getName", "()Ljava/lang/String;");
            ("scale", "([FLjava/lang/Float;)[F")]);
          ("com/example/time/Clock", [("now", "()J"); ("reset", "()V")]) ].
Proof. vm_compute. reflexivity. Qed.

(** ** Extractor: a function with an unknown type *)

(** X21. For every readable file for which the class detection returns a
    class and that contains an annotated function with a parameter of
    unknown type and a sibling annotated function whose parameter and
    return types all map, the Extractor's result has one binding, for the
    class of the file, whose function list holds the sibling under its name
    and signature and nothing for the failing function: the list is made
    of the entries of the other functions of the file only, so the
    unresolved type removes no other function. *)
Theorem unknown_type_degrades_one_function
        (fs : FileSystem) (kt_file : Path) (text class_name : string)
        (failing sibling : Re.method_match) (verbose : bool) (out : list string) :
  read_text fs kt_file = inl text ->
  extract_package_and_class text kt_file = Ret (Some class_name) ->
  In failing (method_matches text) -> has_unknown_param failing ->
  In sibling (method_matches text) -> well_formed sibling ->
  exists sig found,
    fst (extract_native_exports fs [kt_file] verbose out) = Ret [(class_name, found)]
    /\ entry_of sibling = Some (Re.group_name sibling, sig)
    /\ In (Re.group_name sibling, sig) found
    /\ entry_of failing = None
    /\ (forall before after,
           method_matches text = (before ++ failing :: after)%list ->
           found = (successes before ++ successes after)%list)
    /\ (forall m e, In m (method_matches text) -> entry_of m = Some e -> In e found).
Proof.
  intros Hread Hclass Hfailing Hunknown Hsibling Hwf.
  destruct (entry_of_well_formed sibling Hwf) as [sig Hentry].
  pose proof (entry_of_unknown_param failing Hunknown) as Hnone.
  pose proof (successes_In _ _ _ Hsibling Hentry) as Hin.
  exists sig, (successes (method_matches text)).
  split; [|split; [exact Hentry | split; [exact Hin | split; [exact Hnone | split]]]].
  - unfold extract_native_exports. rewrite files_loop_group.
    cbn [group_files]. unfold scan_file. rewrite Hread, Hclass.
    destruct (extract_package_and_class_outcome text kt_file)
      as [(c & Hc & Ht) | Hc]; rewrite Hclass in Hc; [|discriminate].
    inversion Hc; subst c. rewrite Ht.
    destruct (successes (method_matches text)); [contradiction | reflexivity].
  - intros before after ->. rewrite successes_app.
    cbn [successes flat_map]. rewrite Hnone. reflexivity.
  - intros m e. apply successes_In.
Qed.

Lemma unknown_type_degrades_one_function_witness :
  exists sig found,
    fst (extract_native_exports demo_fs ["src/bridge.kt"] false [])
    = Ret [("com/example/Bridge", found)]
    /\ entry_of (Re.MethodMatch "good" "n: Int" (Some "Int")) = Some ("good", sig)
    /\ In ("good", sig) found
    /\ entry_of (Re.MethodMatch "bad" "handle: Foo, n: Int" (Some "Int")) = None
    /\ (forall before after,
           method_matches bridge_kt
           = (before ++ Re.MethodMatch "bad" "handle: Foo, n: Int" (Some "Int") :: after)%list ->
           found = (successes before ++ successes after)%list)
    /\ (forall m e, In m (method_matches bridge_kt) -> entry_of m = Some e -> In e found).
Proof.
  apply (unknown_type_degrades_one_function demo_fs "src/bridge.kt" bridge_kt
           "com/example/Bridge"
           (Re.MethodMatch "bad" "handle: Foo, n: Int" (Some "Int"))
           (Re.MethodMatch "good" "n: Int" (Some "Int")) false []).
  - reflexivity.
  - vm_compute. reflexivity.
  - vm_compute. left. reflexivity.
  - apply Exists_cons_hd. split; check_closed.
  - vm_compute. right. left. reflexivity.
  - solve_well_formed.
Defined.

Example unknown_type_demo :
  extract_native_exports demo_fs ["src/bridge.kt"] false []
  = (Ret [("com/example/Bridge", [("good", "(I)I")])],
     ["Error: Unknown parameter type in bad: Foo"]).
Proof. vm_compute. reflexivity. Qed.

(** ** C2 and C5: a class declared with two modifiers *)

(** C2, on the code. The file [app/foo.kt] declares the class [Foo] with a
    visibility modifier followed by another modifier, and in it one
    annotated function, [good], without malformed parameter and without
    unknown type (N = 1, M = 1). The Extractor does not return one class
    binding with one function: neither of the first two class patterns
    accepts the declaration, and the Extractor ends with the [re.error] of
    the third. The same happens when the file comes after [src/math.kt],
    whose two functions are well formed, and when [src/math.kt] comes with
    [lib/helpers.kt], which declares no class and no annotated function. *)
Theorem extractor_raises_on_modified_class (verbose : bool) (out : list string) :
  read_text demo_fs "app/foo.kt" = inl foo_kt
  /\ (exists good, declared demo_fs "app/foo.kt" = [good]
                   /\ Re.group_name good = "good" /\ well_formed good)
  /\ fst (extract_native_exports demo_fs ["app/foo.kt"] verbose out)
     = Raise (re_error "look-behind requires fixed-width pattern")
  /\ Forall well_formed (declared demo_fs "src/math.kt")
  /\ fst (extract_native_exports demo_fs ["src/math.kt"; "app/foo.kt"] verbose out)
     = Raise (re_error "look-behind requires fixed-width pattern")
  /\ declared demo_fs "lib/helpers.kt" = []
  /\ fst (extract_native_exports demo_fs ["src/math.kt"; "lib/helpers.kt"] verbose out)
     = Raise (re_error "look-behind requires fixed-width pattern").
Proof.
  unfold extract_native_exports. rewrite !files_loop_group.
  split; [reflexivity|]. split.
  { exists (Re.MethodMatch "good" "n: Int" (Some "Int")).
    split; [vm_compute; reflexivity|]. split; [reflexivity | solve_well_formed]. }
  split; [vm_compute; reflexivity|]. split.
  { eval_forall. repeat (apply Forall_cons; [solve_well_formed|]). apply Forall_nil. }
  split; [vm_compute; reflexivity|].
  split; vm_compute; reflexivity.
Qed.

(** C5, on the code. The file [app/bridge.kt] declares the class [Bridge]
    with a visibility modifier followed by another modifier, and in it the
    annotated function [bad], with a parameter of unknown type, before its
    sibling [good], whose types all map. The Extractor's result does not
    hold the sibling: the class detection raises before any function of
    the file is looked at, so the run ends with the [re.error] of the third
    class pattern, without a line printed about [bad]. *)
Theorem sibling_lost_on_modified_class (verbose : bool) (out : list string) :
  read_text demo_fs "app/bridge.kt" = inl app_bridge_kt
  /\ (exists bad good,
         declared demo_fs "app/bridge.kt" = [bad; good]
         /\ Re.group_name bad = "bad" /\ has_unknown_param bad
         /\ Re.group_name good = "good" /\ well_formed good
         /\ entry_of good = Some ("good", "(I)I"))
  /\ fst (extract_native_exports demo_fs ["app/bridge.kt"] verbose out)
     = Raise (re_error "look-behind requires fixed-width pattern")
  /\ extract_native_exports demo_fs ["app/bridge.kt"] false out
     = (Raise (re_error "look-behind requires fixed-width pattern"), out).
Proof.
  split; [reflexivity|]. split.
  { exists (Re.MethodMatch "bad" "handle: Foo, n: Int" (Some "Int")),
           (Re.MethodMatch "good" "n: Int" (Some "Int")).
    split; [vm_compute; reflexivity|]. split; [reflexivity|]. split.
    { apply Exists_cons_hd. split; check_closed. }
    split; [reflexivity|]. split; [solve_well_formed | vm_compute; reflexivity]. }
  split.
  - unfold extract_native_exports. rewrite files_loop_group. vm_compute. reflexivity.
  - unfold extract_native_exports. cbn [files_loop].
    unfold bind at 1. cbn [when]. unfold ret at 1.
    vm_compute. reflexivity.
Qed.

(** ** CodeEmitter *)

Lemma concat_empty_cons (x : string) (xs : list string) :
  String.concat "" (x :: xs) = x ++ String.concat "" xs.
Proof.
  destruct xs; cbn [String.concat]; [now rewrite append_empty_r | reflexivity].
Qed.

Lemma emit_methods_text (class_name : string) (methods : list method) (f : string) :
  fold_left (emit_method class_name) methods f
  = f ++ String.concat "" (map (method_handle class_name) methods).
Proof.
  revert f. induction methods as [|[name sig] rest IH]; intros f.
  - cbn [fold_left map String.concat]. now rewrite append_empty_r.
  - cbn [fold_left map]. rewrite IH, concat_empty_cons.
    unfold emit_method, write, method_handle. cbn [fst snd].
    rewrite !append_assoc. reflexivity.
Qed.

Lemma emit_class_text (f : string) (entry : string * list method) :
  emit_class f entry = f ++ class_block entry.
Proof.
  destruct entry as [class_name methods].
  unfold emit_class, write, class_block, resolve_class, fail_fast, global_reference.
  cbn [fst snd]. rewrite emit_methods_text.
  rewrite !append_assoc. reflexivity.
Qed.

Lemma emit_classes_text (class_methods : dict (list method)) (f : string) :
  fold_left emit_class class_methods f
  = f ++ String.concat "" (map class_block class_methods).
Proof.
  revert f. induction class_methods as [|entry rest IH]; intros f.
  - cbn [fold_left map String.concat]. now rewrite append_empty_r.
  - cbn [fold_left map]. rewrite IH, concat_empty_cons, emit_class_text.
    now rewrite append_assoc.
Qed.

Lemma short_name_unqualified (name : string) :
  PyStr.mem_char "/" name = false -> PyStr.split "/" name = [name].
Proof.
  induction name as [|c name IH]; cbn [PyStr.mem_char PyStr.split]; [reflexivity|].
  rewrite Ascii.eqb_sym. destruct (Ascii.eqb c "/"); [discriminate|].
  intros H. now rewrite (IH H).
Qed.

Lemma split_nonempty (sep : ascii) (s : string) : PyStr.split sep s <> [].
Proof.
  destruct s as [|c s]; cbn [PyStr.split]; [discriminate|].
  destruct (Ascii.eqb c sep); [discriminate|].
  destruct (PyStr.split sep s); discriminate.
Qed.

(** The short name of a qualified class name is what follows its last
    slash. *)
Lemma short_name_qualified (package name : string) :
  PyStr.mem_char "/" name = false ->
  short_name (package ++ "/" ++ name) = name.
Proof.
  intros Hname. unfold short_name.
  change ("/" ++ name) with (String "/"%char name).
  assert (H : exists w ws, PyStr.split "/" (package ++ String "/"%char name)
                           = (w :: ws ++ [name])%list).
  { induction package as [|c package (w & ws & IH)]; cbn [append PyStr.split].
    - cbn [Ascii.eqb Bool.eqb]. rewrite (short_name_unqualified name Hname).
      now exists "", [].
    - rewrite IH. destruct (Ascii.eqb c "/").
      + now exists "", (w :: ws)%list.
      + now exists (String c w), ws. }
  destruct H as (w & ws & ->).
  change (w :: ws ++ [name])%list with ((w :: ws) ++ [name])%list.
  apply last_last.
Qed.

(** C6. For every class-to-functions grouping (empty or not), the emitted
    source is the header comment, the load entry point and the unload
    entry point; the load entry point is its prologue, then one scoped
    block per class in the order of the grouping, then the return of the
    success sentinel.  The block of a class resolves the class by its
    fully-qualified name; then, on failure, logs an error naming the short
    name of the class and returns the error sentinel, before the block of any
    later class; then registers the global reference; then resolves one
    method handle per function, in the order of the function list.  The
    short name of a qualified class name is what follows its last slash. *)
Theorem load_entry_point_structure (class_methods : dict (list method))
        (helper : string) :
  generate_cpp_file class_methods helper
  = header_comment class_methods
    ++ load_prologue helper
    ++ String.concat "" (map class_block class_methods)
    ++ load_epilogue
    ++ unload_entry_point
  /\ Forall (fun entry =>
               class_block entry
               = "    // Load methods for " ++ fst entry ++ nl ++ "    {" ++ nl
                 ++ resolve_class (fst entry)
                 ++ fail_fast (fst entry)
                 ++ global_reference
                 ++ String.concat "" (map (method_handle (fst entry)) (snd entry))
                 ++ "    }" ++ nl ++ nl) class_methods
  /\ (forall package name,
         PyStr.mem_char "/" name = false ->
         short_name (package ++ "/" ++ name) = name
         /\ short_name name = name).
Proof.
  split; [|split].
  - unfold generate_cpp_file, write. rewrite emit_classes_text.
    unfold header_comment, load_prologue, load_epilogue, unload_entry_point.
    rewrite !append_assoc. reflexivity.
  - apply Forall_forall. reflexivity.
  - intros package name Hname. split.
    + now apply short_name_qualified.
    + unfold short_name. now rewrite short_name_unqualified.
Qed.

Lemma load_entry_point_structure_witness :
  PyStr.mem_char "/" "Math" = false
  /\ short_name ("com/example" ++ "/" ++ "Math") = "Math"
  /\ short_name "Math" = "Math".
Proof.
  split; [reflexivity|].
  apply (proj2 (proj2 (load_entry_point_structure
                         [("com/example/Math", [("add", "(II)I")])]
                         "saturn::platform::agdk::JNIHelper"))).
  reflexivity.
Defined.

(** ** The command-line tool *)

Lemma print_methods_returns (methods : list method) : returns (print_methods methods) tt.
Proof.
  induction methods as [|[name sig] rest IH]; cbn [print_methods].
  - apply returns_ret.
  - eapply returns_bind; [apply returns_print | exact IH].
Qed.

Lemma print_classes_returns (class_methods : dict (list method)) :
  returns (print_classes class_methods) tt.
Proof.
  induction class_methods as [|[class_name methods] rest IH]; cbn [print_classes].
  - apply returns_ret.
  - eapply returns_bind; [apply returns_print|].
    eapply returns_bind; [apply print_methods_returns | exact IH].
Qed.

(** The value [main] returns, or the exception it ends with, is decided by
    what the scanner ends with and the grouping built from the files. *)
Lemma main_outcome (so : SetOrder) (fs : FileSystem) (args : Args) (out : list string) :
  fst (main so fs args out)
  = scan_then_run fs args (find_kotlin_files so fs (effective_input args)).
Proof.
  unfold main, scan_then_run, run_of. unfold bind at 1. unfold lift.
  destruct (find_kotlin_files so fs (effective_input args)) as [[|p files]|e];
    [reflexivity| |reflexivity].
  unfold bind at 1.
  destruct (returns_when (verbose args) _
              (returns_print ("Found " ++ PyStr.of_nat (List.length (p :: files))
                              ++ " Kotlin files")) out) as [out1 ->].
  unfold bind at 1.
  pose proof (files_loop_group fs (verbose args) (p :: files) [] out1) as Hgroup.
  unfold extract_native_exports.
  destruct (files_loop fs (verbose args) (p :: files) [] out1) as [r out2].
  cbn [fst] in Hgroup. rewrite <- Hgroup.
  destruct r as [[|entry class_methods]|e]; [reflexivity| |reflexivity].
  cbv zeta. unfold bind at 1. unfold lift.
  destruct (open_write fs (to_path fs (output args))) as [[]|e]; [|reflexivity].
  apply returns_fst.
  eapply returns_bind; [apply returns_print|].
  eapply returns_bind; [|apply returns_ret].
  apply returns_when. eapply returns_bind;
    [apply returns_print | apply print_classes_returns].
Qed.

(** Without exported functions, the last line [main] prints is its
    warning. *)
Lemma main_warns_without_exports (so : SetOrder) (fs : FileSystem) (args : Args)
      (out : list string) (kotlin_files : list Path) :
  find_kotlin_files so fs (effective_input args) = Ret kotlin_files ->
  kotlin_files <> [] ->
  group_files fs kotlin_files [] = Ret [] ->
  exists out',
    main so fs args out
    = (Ret {| exit_code := 0; written := None |},
       (out' ++ ["Warning: No @NativeExport methods found"])%list).
Proof.
  intros Hfind Hne Hgroup. unfold main. unfold bind at 1. unfold lift. rewrite Hfind.
  destruct kotlin_files as [|p files]; [contradiction|].
  unfold bind at 1.
  destruct (returns_when (verbose args) _
              (returns_print ("Found " ++ PyStr.of_nat (List.length (p :: files))
                              ++ " Kotlin files")) out) as [out1 ->].
  unfold bind at 1.
  pose proof (files_loop_group fs (verbose args) (p :: files) [] out1) as Hfst.
  unfold extract_native_exports.
  destruct (files_loop fs (verbose args) (p :: files) [] out1) as [r out2].
  cbn [fst] in Hfst. rewrite Hgroup in Hfst. subst r.
  exists out2. reflexivity.
Qed.

(** ** C10 and C7: a file without class declaration *)

(** The file name plays no part in the class detection: the branch that
    infers the class name from the file name is never reached, the third
    pattern raising before it. *)
Lemma filename_fallback_unreachable (file_content : string) (path1 path2 : Path) :
  extract_package_and_class file_content path1
  = extract_package_and_class file_content path2.
Proof.
  unfold extract_package_and_class.
  destruct (class_loop_outcome file_content) as [(c & -> & Hc) | ->]; [|reflexivity].
  cbn [truthy_opt]. rewrite Hc. reflexivity.
Qed.

(** The branch of the Extractor that warns about an undeterminable class
    and skips the file is never taken. *)
Lemma skip_branch_unreachable (file_content : string) (file_path : Path) :
  extract_package_and_class file_content file_path <> Ret None
  /\ extract_package_and_class file_content file_path <> Ret (Some "").
Proof.
  destruct (extract_package_and_class_outcome file_content file_path)
    as [(c & -> & Hc) | ->]; split; try discriminate.
  intros H. inversion H; subst c. discriminate.
Qed.

(** C10, on the code. For the file [lib/helpers.kt], whose base name is
    not empty and whose text holds a package line and a top-level function
    but no class declaration, the owning-class determination does not
    return the class name derived from the file name: compiling the third
    class pattern raises [re.error], and the exception leaves
    [extract_package_and_class]. *)
Theorem owning_class_raises_without_declaration :
  path_stem "lib/helpers.kt" = "helpers"
  /\ class_from_filename "lib/helpers.kt" = Ret "Helpers"
  /\ extract_package_and_class helpers_kt "lib/helpers.kt"
     = Raise (re_error "look-behind requires fixed-width pattern").
Proof. repeat split; vm_compute; reflexivity. Qed.

(** C7, on the code. With the directory [lib] as input, one source file
    resolves and it holds no exported function; [main] does not return
    exit code 0 after a warning, it ends with the [re.error] raised by the
    class detection, whatever the iteration order of the set. The same
    happens with [src] and [lib] as inputs, where exported functions are
    found in [src]. *)
Theorem main_raises_without_declaration (so : SetOrder) :
  find_kotlin_files so demo_fs ["lib"] = Ret ["lib/helpers.kt"]
  /\ method_matches helpers_kt = []
  /\ main so demo_fs (demo_args ["lib"]) []
     = (Raise (re_error "look-behind requires fixed-width pattern"), [])
  /\ fst (main so demo_fs (demo_args ["src"; "lib"]) [])
     = Raise (re_error "look-behind requires fixed-width pattern").
Proof.
  assert (Hfiles : find_kotlin_files so demo_fs ["lib"] = Ret ["lib/helpers.kt"]).
  { unfold find_kotlin_files.
    change (collect_kotlin_files demo_fs ["lib"] []) with (Ret ["lib/helpers.kt"]).
    cbv iota beta. f_equal. apply Permutation_length_1_inv, Permutation_sym, (list_set_spec so). }
  split; [exact Hfiles|]. split; [vm_compute; reflexivity|]. split.
  - unfold main. change (effective_input (demo_args ["lib"])) with ["lib"].
    rewrite Hfiles. vm_compute. reflexivity.
  - rewrite main_outcome. unfold scan_then_run, run_of.
    change (effective_input (demo_args ["src"; "lib"])) with ["src"; "lib"].
    unfold find_kotlin_files.
    destruct (collect_kotlin_files demo_fs ["src"; "lib"] []) as [found|e] eqn:Hfound;
      [|vm_compute in Hfound; discriminate].
    assert (Hin : In "lib/helpers.kt" (list_set so found)).
    { apply list_set_In. vm_compute in Hfound. injection Hfound as <-.
      cbn. tauto. }
    destruct (list_set so found) as [|p files] eqn:E; [contradiction|].
    rewrite group_files_crash; [reflexivity|].
    apply not_true_is_false. intros Hall.
    rewrite forallb_forall in Hall. specialize (Hall _ Hin).
    vm_compute in Hall. discriminate.
Qed.

(** ** C1: the order of the scanned files *)

Lemma find_kotlin_files_Permutation (so1 so2 : SetOrder) (fs : FileSystem)
      (input_paths : list string) :
  match find_kotlin_files so1 fs input_paths, find_kotlin_files so2 fs input_paths with
  | Ret files1, Ret files2 => Permutation files1 files2
  | Raise e1, Raise e2 => e1 = e2
  | _, _ => False
  end.
Proof.
  rewrite !find_kotlin_files_candidates.
  destruct (all_candidates fs input_paths) as [found|e]; [|reflexivity].
  eapply Permutation_trans; [apply list_set_spec|].
  apply Permutation_sym, list_set_spec.
Qed.

Lemma find_kotlin_files_NoDup (so : SetOrder) (fs : FileSystem)
      (input_paths : list string) (kotlin_files : list Path) :
  find_kotlin_files so fs input_paths = Ret kotlin_files -> NoDup kotlin_files.
Proof.
  rewrite find_kotlin_files_candidates.
  destruct (all_candidates fs input_paths) as [found|e]; [|discriminate].
  intros [= <-]. apply list_set_NoDup.
Qed.

Lemma first_occurrences_Permutation (l1 l2 : list string) :
  Permutation l1 l2 -> Permutation (first_occurrences l1) (first_occurrences l2).
Proof.
  intros Hperm. apply NoDup_Permutation; try apply first_occurrences_NoDup.
  intros x. rewrite !first_occurrences_In.
  split; apply Permutation_in; [exact Hperm | now apply Permutation_sym].
Qed.

Lemma crash_free_Permutation (fs : FileSystem) (l1 l2 : list Path) :
  Permutation l1 l2 ->
  forallb (fun p => negb (crashes fs p)) l1 = forallb (fun p => negb (crashes fs p)) l2.
Proof.
  intros Hperm. apply eq_true_iff_eq. rewrite !forallb_forall.
  split; intros H x Hx; apply H; revert Hx; apply Permutation_in;
    [now apply Permutation_sym | exact Hperm].
Qed.

(** A grouping without repeated class is its classes, each with what a
    lookup finds for it. *)
Lemma dict_by_keys (d : dict (list method)) :
  NoDup (dict_keys d) -> d = map (fun k => (k, dict_find d k)) (dict_keys d).
Proof.
  unfold dict_keys, dict_find.
  induction d as [|[k v] d IH]; cbn [map fst dict_get]; intros Hnd; [reflexivity|].
  inversion Hnd as [|? ? Hk Hd]; subst.
  rewrite String.eqb_refl. f_equal.
  rewrite (IH Hd) at 1. apply map_ext_in. intros k' Hk'.
  destruct (String.eqb_spec k' k) as [->|]; [contradiction | reflexivity].
Qed.

(** When no file makes the class detection raise, the Extractor returns the
    grouping in closed form. *)
Lemma group_files_grouping_of (fs : FileSystem) (kotlin_files : list Path) :
  forallb (fun p => negb (crashes fs p)) kotlin_files = true ->
  group_files fs kotlin_files [] = Ret (grouping_of fs kotlin_files)
  /\ (forall c, dict_find (grouping_of fs kotlin_files) c
                = flat_map (found_for fs c) kotlin_files)
  /\ total_methods (grouping_of fs kotlin_files)
     = list_sum (map (found_count fs) kotlin_files).
Proof.
  intros Hok. destruct (group_files_spec fs kotlin_files [] Hok) as (d & Hd & Hk & Hf & Ht).
  cbn [dict_keys map app] in Hk.
  rewrite forallb_filter_id in Hk by (apply forallb_forall; reflexivity).
  assert (Heq : d = grouping_of fs kotlin_files).
  { rewrite (dict_by_keys d) by (rewrite Hk; apply first_occurrences_NoDup).
    unfold grouping_of. rewrite Hk. apply map_ext. intros c. now rewrite Hf. }
  subst d. split; [exact Hd|]. split; [exact Hf | exact Ht].
Qed.

Lemma grouping_of_keys (fs : FileSystem) (kotlin_files : list Path) :
  dict_keys (grouping_of fs kotlin_files)
  = first_occurrences (flat_map (class_found fs) kotlin_files).
Proof.
  unfold grouping_of, dict_keys. rewrite map_map. cbn [fst]. apply map_id.
Qed.

(** A concatenation to which at most one element of a list without
    repetition contributes does not depend on the order of the list. *)
Lemma flat_map_nil {A B : Type} (g : A -> list B) (l : list A) :
  (forall x, In x l -> g x = []) -> flat_map g l = [].
Proof.
  induction l as [|a l IH]; intros Hall; cbn [flat_map]; [reflexivity|].
  rewrite (Hall a (or_introl eq_refl)), IH; [reflexivity|].
  intros x Hx. apply Hall. now right.
Qed.

Lemma flat_map_one {A B : Type} (g : A -> list B) (l : list A) (f : A) :
  NoDup l -> In f l -> (forall x, In x l -> x <> f -> g x = []) ->
  flat_map g l = g f.
Proof.
  induction l as [|a l IH]; intros Hnd Hin Hall; [contradiction|].
  inversion Hnd as [|? ? Ha Hl]; subst. cbn [flat_map].
  destruct Hin as [->|Hin].
  - rewrite flat_map_nil, app_nil_r; [reflexivity|].
    intros x Hx. apply Hall; [now right|]. intros ->. contradiction.
  - rewrite (Hall a (or_introl eq_refl)) by (intros ->; contradiction).
    apply IH; [assumption..|]. intros x Hx. apply Hall. now right.
Qed.

Lemma flat_map_contributor {A B : Type} (g : A -> list B) (l : list A) :
  (forall x, In x l -> g x = []) \/ (exists f, In f l /\ g f <> []).
Proof.
  induction l as [|a l [IH | (f & Hf & Hg)]].
  - left. intros x [].
  - destruct (g a) as [|b bs] eqn:Ha.
    + left. intros x [<-|Hx]; [exact Ha | now apply IH].
    + right. exists a. split; [now left|]. rewrite Ha. discriminate.
  - right. exists f. split; [now right | exact Hg].
Qed.

Lemma flat_map_single_source {A B : Type} (g : A -> list B) (l1 l2 : list A) :
  NoDup l1 -> NoDup l2 -> Permutation l1 l2 ->
  (forall x y, In x l1 -> In y l1 -> g x <> [] -> g y <> [] -> x = y) ->
  flat_map g l1 = flat_map g l2.
Proof.
  intros Hnd1 Hnd2 Hperm Hone.
  destruct (flat_map_contributor g l1) as [Hnil | (f & Hf & Hg)].
  - rewrite !flat_map_nil; [reflexivity| |exact Hnil].
    intros x Hx. apply Hnil. revert Hx. apply Permutation_in.
    now apply Permutation_sym.
  - assert (Hothers : forall x, In x l1 -> x <> f -> g x = []).
    { intros x Hx Hne. destruct (g x) as [|b bs] eqn:Hgx; [reflexivity|].
      exfalso. apply Hne. apply Hone; try assumption. rewrite Hgx. discriminate. }
    rewrite (flat_map_one g l1 f Hnd1 Hf Hothers).
    symmetry. apply flat_map_one; [exact Hnd2| |].
    + revert Hf. now apply Permutation_in.
    + intros x Hx. apply Hothers. revert Hx. apply Permutation_in.
      now apply Permutation_sym.
Qed.

(** C1, as stated, fails: with the two files [src/math.kt] and
    [src/clock.kt] as inputs, unchanged between the runs, a run whose set
    hands the files back in one order and a run whose set hands them back
    in the other order write different output files. *)
Lemma output_depends_on_set_order :
  exists text1 text2,
    written_text (fst (main insertion_order demo_fs
                            (demo_args ["src/math.kt"; "src/clock.kt"]) []))
    = Some text1
    /\ written_text (fst (main reverse_order demo_fs
                               (demo_args ["src/math.kt"; "src/clock.kt"]) []))
       = Some text2
    /\ text1 <> text2.
Proof.
  eexists. eexists.
  split; [vm_compute; reflexivity|].
  split; [vm_compute; reflexivity|].
  intros H. apply String.eqb_eq in H. vm_compute in H. discriminate.
Qed.

(** C1, amended. For every file system and every arguments, two runs on
    the same inputs and the same file contents, whose sets of resolved
    files may iterate in different orders, both end with the same
    exception, or both return the same exit code and both write the output
    file or neither does. When they write it, they write it at the same
    path, and each text is the one the emitter writes for the grouping, in
    closed form, of the files in the order the run's set hands them back:
    the two orders are rearrangements of one list of files without
    repetition, the header comment is the same, the classes are the same
    up to their order, every class has the functions of its files, file
    after file in the run's order and within a file in the order of the
    declarations, and a class whose functions come from one file has the
    same list of functions in both texts. *)
Theorem generation_up_to_scan_order (so1 so2 : SetOrder) (fs : FileSystem) (args : Args) :
  match fst (main so1 fs args []), fst (main so2 fs args []) with
  | Raise e1, Raise e2 => e1 = e2
  | Ret r1, Ret r2 =>
      exit_code r1 = exit_code r2
      /\ match written r1, written r2 with
         | None, None => True
         | Some (path1, text1), Some (path2, text2) =>
             path1 = path2
             /\ exists files1 files2,
                 find_kotlin_files so1 fs (effective_input args) = Ret files1
                 /\ find_kotlin_files so2 fs (effective_input args) = Ret files2
                 /\ NoDup files1 /\ Permutation files1 files2
                 /\ text1 = generate_cpp_file (grouping_of fs files1) (helper_class args)
                 /\ text2 = generate_cpp_file (grouping_of fs files2) (helper_class args)
                 /\ header_comment (grouping_of fs files1)
                    = header_comment (grouping_of fs files2)
                 /\ Permutation (dict_keys (grouping_of fs files1))
                                (dict_keys (grouping_of fs files2))
                 /\ (forall c,
                        dict_find (grouping_of fs files1) c
                        = flat_map (found_for fs c) files1
                        /\ dict_find (grouping_of fs files2) c
                           = flat_map (found_for fs c) files2)
                 /\ (forall c, single_source fs files1 c ->
                               dict_find (grouping_of fs files1) c
                               = dict_find (grouping_of fs files2) c)
         | _, _ => False
         end
  | _, _ => False
  end.
Proof.
  rewrite !main_outcome. unfold scan_then_run.
  pose proof (find_kotlin_files_Permutation so1 so2 fs (effective_input args)) as Hperm.
  pose proof (find_kotlin_files_NoDup so1 fs (effective_input args)) as Hnd1.
  pose proof (find_kotlin_files_NoDup so2 fs (effective_input args)) as Hnd2.
  destruct (find_kotlin_files so1 fs (effective_input args)) as [files1|e1];
    destruct (find_kotlin_files so2 fs (effective_input args)) as [files2|e2];
    try contradiction; [|exact Hperm].
  specialize (Hnd1 files1 eq_refl). specialize (Hnd2 files2 eq_refl).
  pose proof (crash_free_Permutation fs files1 files2 Hperm) as Hcrash.
  unfold run_of.
  destruct files1 as [|p1 l1]; destruct files2 as [|p2 l2].
  - cbn. auto.
  - apply Permutation_nil in Hperm. discriminate.
  - apply Permutation_sym, Permutation_nil in Hperm. discriminate.
  - set (files1 := p1 :: l1) in *. set (files2 := p2 :: l2) in *.
    destruct (forallb (fun p => negb (crashes fs p)) files1) eqn:H1; symmetry in Hcrash.
    + destruct (group_files_grouping_of fs files1 H1) as (-> & Hf1 & Ht1).
      destruct (group_files_grouping_of fs files2 Hcrash) as (-> & Hf2 & Ht2).
      assert (Hkeys : Permutation (dict_keys (grouping_of fs files1))
                                  (dict_keys (grouping_of fs files2))).
      { rewrite !grouping_of_keys.
        apply first_occurrences_Permutation, Permutation_flat_map, Hperm. }
      assert (Htotal : total_methods (grouping_of fs files1)
                       = total_methods (grouping_of fs files2)).
      { rewrite Ht1, Ht2.
        apply Permutation_list_sum, Permutation_map, Hperm. }
      pose proof (Permutation_length Hkeys) as Hlen.
      unfold dict_keys in Hlen. rewrite !length_map in Hlen.
      assert (Hheader : header_comment (grouping_of fs files1)
                        = header_comment (grouping_of fs files2)).
      { unfold header_comment. now rewrite Hlen, Htotal. }
      assert (Hone : forall c, single_source fs files1 c ->
                               dict_find (grouping_of fs files1) c
                               = dict_find (grouping_of fs files2) c).
      { intros c Hc. rewrite Hf1, Hf2.
        now apply flat_map_single_source. }
      destruct (grouping_of fs files1) as [|b1 d1] eqn:E1;
        destruct (grouping_of fs files2) as [|b2 d2] eqn:E2; try discriminate.
      * cbn. auto.
      * destruct (open_write fs (to_path fs (output args))) as [[]|e]; [|reflexivity].
        cbn [exit_code written]. split; [reflexivity|]. split; [reflexivity|].
        exists files1, files2. rewrite E1, E2. repeat split; auto.
        all: apply Hf1 || apply Hf2.
    + now rewrite (group_files_crash fs files1 [] H1),
                  (group_files_crash fs files2 [] Hcrash).
Qed.

Lemma generation_up_to_scan_order_witness :
  exists files1 files2 text1 text2,
    find_kotlin_files insertion_order demo_fs ["src/math.kt"; "src/clock.kt"] = Ret files1
    /\ find_kotlin_files reverse_order demo_fs ["src/math.kt"; "src/clock.kt"] = Ret files2
    /\ files1 <> files2
    /\ Permutation files1 files2
    /\ written_text (fst (main insertion_order demo_fs
                               (demo_args ["src/math.kt"; "src/clock.kt"]) []))
       = Some text1
    /\ written_text (fst (main reverse_order demo_fs
                               (demo_args ["src/math.kt"; "src/clock.kt"]) []))
       = Some text2
    /\ text1 = generate_cpp_file (grouping_of demo_fs files1)
                                 "saturn::platform::agdk::JNIHelper"
    /\ text2 = generate_cpp_file (grouping_of demo_fs files2)
                                 "saturn::platform::agdk::JNIHelper"
    /\ (forall c, dict_find (grouping_of demo_fs files1) c
                  = dict_find (grouping_of demo_fs files2) c).
Proof.
  pose proof (generation_up_to_scan_order insertion_order reverse_order demo_fs
                (demo_args ["src/math.kt"; "src/clock.kt"])) as H.
  destruct (fst (main insertion_order demo_fs
                      (demo_args ["src/math.kt"; "src/clock.kt"]) []))
    as [[code1 [[path1 text1]|]]|e1] eqn:E1;
    try (vm_compute in E1; discriminate).
  destruct (fst (main reverse_order demo_fs
                      (demo_args ["src/math.kt"; "src/clock.kt"]) []))
    as [[code2 [[path2 text2]|]]|e2] eqn:E2;
    try (vm_compute in E2; discriminate).
  cbn [exit_code written] in H.
  destruct H as (_ & _ & files1 & files2 & Hf1 & Hf2 & _ & Hperm & Ht1 & Ht2
                 & _ & _ & _ & Hone).
  exists files1, files2, text1, text2.
  split; [exact Hf1|]. split; [exact Hf2|]. split.
  { vm_compute in Hf1, Hf2. injection Hf1 as <-. injection Hf2 as <-. discriminate. }
  split; [exact Hperm|]. split; [reflexivity|]. split; [reflexivity|].
  split; [exact Ht1|]. split; [exact Ht2|].
  intros c. apply Hone.
  vm_compute in Hf1. injection Hf1 as <-.
  assert (Hmath : scan_file demo_fs "src/math.kt"
                  = Scanned "com/example/Math"
                            [("add", "(II)I"); ("getName", "()Ljava/lang/String;")])
    by (vm_compute; reflexivity).
  assert (Hclock : scan_file demo_fs "src/clock.kt"
                   = Scanned "com/example/time/Clock" [("now", "()J"); ("reset", "()V")])
    by (vm_compute; reflexivity).
  intros f1 f2 [<-|[<-|[]]] [<-|[<-|[]]]; try reflexivity;
    unfold found_for; rewrite Hmath, Hclock;
    destruct (String.eqb_spec c "com/example/Math") as [->|];
    try (intros _ Hnil; now contradiction Hnil);
    try (intros Hnil _; now contradiction Hnil).
Defined.

(** With two files of one class, the order of the functions of the class
    follows the order of the files: the functions of a file stay together
    and in the order of their declarations, the files come in the order
    the set hands them back. *)
Example method_order_follows_set_order :
  find_kotlin_files insertion_order demo_fs ["src/math.kt"; "src/more.kt"]
  = Ret ["src/math.kt"; "src/more.kt"]
  /\ find_kotlin_files reverse_order demo_fs ["src/math.kt"; "src/more.kt"]
     = Ret ["src/more.kt"; "src/math.kt"]
  /\ group_files demo_fs ["src/math.kt"; "src/more.kt"] []
     = Ret [("com/example/Math",
             [("add", "(II)I"); ("getName", "()Ljava/lang/String;");
              ("scale", "([FLjava/lang/Float;)[F")])]
  /\ group_files demo_fs ["src/more.kt"; "src/math.kt"] []
     = Ret [("com/example/Math",
             [("scale", "([FLjava/lang/Float;)[F");
              ("add", "(II)I"); ("getName", "()Ljava/lang/String;")])].
Proof. repeat split; vm_compute; reflexivity. Qed.

Example kotlin_to_jni_type_IntArrayArray :
  kotlin_to_jni_type "IntArrayArray" true = Some "[[I".
Proof. reflexivity. Qed.

(** * Further properties of the generator *)

(** ** TypeMapper: which types map *)

Lemma endswith_split (s suf : string) :
  PyStr.endswith s suf = true -> exists x, s = x ++ suf.
Proof.
  induction s as [|c s IH]; cbn [PyStr.endswith].
  - destruct (String.eqb_spec "" suf) as [<-|]; [now exists "" | discriminate].
  - destruct (String.eqb_spec (String c s) suf) as [<-|]; [now exists ""|].
    intros H. destruct (IH H) as [x ->]. now exists (String c x).
Qed.

Lemma mapping_values_truthy (ktype d : string) :
  dict_get mapping ktype = Some d -> PyStr.truthy d = true.
Proof.
  unfold mapping. cbn [dict_get].
  repeat match goal with
    | |- context [if ?b then _ else _] => destruct b
    end; intros H; inversion H; reflexivity.
Qed.

Lemma base_type_plain (ktype : string) :
  base_type ktype false = dict_get mapping ktype.
Proof.
  unfold base_type. destruct (dict_get mapping ktype) as [d|] eqn:Hd; [|reflexivity].
  now rewrite (mapping_values_truthy _ _ Hd).
Qed.

Lemma array_of_marks (element : string) (n : nat) :
  kotlin_to_jni_type (array_of n element) false
  = option_map (array_marks n) (kotlin_to_jni_type element false).
Proof.
  induction n as [|n IH]; cbn [array_of array_marks].
  - now destruct (kotlin_to_jni_type element false).
  - rewrite array_suffix, IH. now destruct (kotlin_to_jni_type element false).
Qed.

(** X1. Whether a type name maps does not depend on its nullability: the
    mapper fails on a nullable type exactly when it fails on the
    non-nullable one.  In particular the boxing of a nullable primitive
    always finds its wrapper. *)
Theorem nullability_never_decides_failure (ktype : string) :
  kotlin_to_jni_type ktype true = None <-> kotlin_to_jni_type ktype false = None.
Proof.
  rewrite (kotlin_to_jni_type_eq ktype true), (kotlin_to_jni_type_eq ktype false).
  destruct (PyStr.endswith ktype "Array"); [reflexivity|].
  unfold base_type, mapping. cbn [dict_get].
  repeat match goal with
    | |- context [if String.eqb ktype ?k then _ else _] => destruct (String.eqb ktype k)
    end; cbn; split; intros H; first [discriminate H | reflexivity].
Qed.

(** X2. The non-nullable types that map are exactly the names of the table
    followed by any number of array suffixes, and the descriptor is the one
    of the table behind as many array markers.  So the empty name, a bare
    array suffix and any name outside the table never map, while an array
    of Unit or of String does. *)
Theorem mapped_types (ktype d : string) :
  kotlin_to_jni_type ktype false = Some d
  <-> exists n base d0,
        ktype = array_of n base
        /\ dict_get mapping base = Some d0
        /\ d = array_marks n d0.
Proof.
  split.
  - remember (String.length ktype) as len eqn:Hlen. revert ktype d Hlen.
    induction len as [len IH] using lt_wf_ind. intros ktype d Hlen.
    rewrite kotlin_to_jni_type_eq.
    destruct (PyStr.endswith ktype "Array") eqn:Hends.
    + destruct (endswith_split _ _ Hends) as [element ->].
      change 5 with (String.length "Array"). rewrite drop_last_append.
      destruct (kotlin_to_jni_type element false) as [e|] eqn:He; [|discriminate].
      rewrite (kotlin_to_jni_type_truthy _ _ _ He). intros [= <-].
      destruct (IH (String.length element)) with (ktype := element) (d := e)
        as (n & base & d0 & -> & Hbase & ->); try reflexivity; try exact He.
      { subst len. rewrite append_length. cbn. lia. }
      now exists (S n), base, d0.
    + rewrite base_type_plain. intros H. now exists 0, ktype, d.
  - intros (n & base & d0 & -> & Hbase & ->).
    rewrite array_of_marks.
    replace (kotlin_to_jni_type base false) with (Some d0); [reflexivity|].
    symmetry. rewrite kotlin_to_jni_type_eq.
    destruct (PyStr.endswith base "Array") eqn:Hends.
    + exfalso. destruct (endswith_split _ _ Hends) as [x ->].
      revert Hbase. unfold mapping. cbn [dict_get].
      repeat match goal with
        | |- context [if String.eqb ?a ?k then _ else _] =>
            destruct (String.eqb_spec a k) as [E|_];
            [apply (f_equal (fun s => PyStr.endswith s "Array")) in E;
             rewrite endswith_append in E; discriminate E|]
        end.
      discriminate.
    + now rewrite base_type_plain.
Qed.

Lemma base_type_alphabet (ktype : string) (nullable : bool) (d : string) :
  base_type ktype nullable = Some d -> all_chars is_descriptor_char d = true.
Proof.
  unfold base_type, mapping. cbn [dict_get].
  repeat match goal with
    | |- context [if String.eqb ktype ?k then _ else _] => destruct (String.eqb ktype k)
    end; destruct nullable; cbn; intros H; inversion H; reflexivity.
Qed.

(** X3. A descriptor returned by the mapper, for any type name and either
    nullability, is not empty and is made of letters, slashes, semicolons
    and opening brackets only. *)
Theorem descriptor_alphabet (ktype : string) (nullable : bool) (d : string) :
  kotlin_to_jni_type ktype nullable = Some d ->
  d <> "" /\ all_chars is_descriptor_char d = true.
Proof.
  intros H. split.
  - apply kotlin_to_jni_type_truthy in H. now destruct d.
  - remember (String.length ktype) as len eqn:Hlen.
    revert ktype nullable d Hlen H.
    induction len as [len IH] using lt_wf_ind. intros ktype nullable d Hlen.
    rewrite kotlin_to_jni_type_eq.
    destruct (PyStr.endswith ktype "Array") eqn:Hends; [|apply base_type_alphabet].
    destruct (endswith_split _ _ Hends) as [element ->].
    change 5 with (String.length "Array"). rewrite drop_last_append.
    destruct (kotlin_to_jni_type element false) as [e|] eqn:He; [|discriminate].
    destruct (PyStr.truthy e); [|discriminate]. intros [= <-].
    cbn [append all_chars]. apply andb_true_intro. split; [reflexivity|].
    apply (IH (String.length element)) with (ktype := element) (nullable := false);
      [| reflexivity | exact He].
    subst len. rewrite append_length. cbn. lia.
Qed.

Lemma descriptor_alphabet_witness :
  "[Ljava/lang/String;" <> ""
  /\ all_chars is_descriptor_char "[Ljava/lang/String;" = true.
Proof.
  apply (descriptor_alphabet "StringArray" true). reflexivity.
Defined.

(** ** The shape of what the patterns capture *)

Lemma finditer_In {G : Type} (m : option ascii -> string -> option (G * string))
      (skip : nat) (prev : option ascii) (s : string) (g : G) :
  In g (Re.finditer m skip prev s) ->
  exists prev' s' rest, m prev' s' = Some (g, rest).
Proof.
  revert skip prev. induction s as [|c s IH]; intros skip prev;
    cbn [Re.finditer]; [contradiction|].
  destruct skip as [|k]; [|apply IH].
  destruct (m prev (String c s)) as [[g' rest]|] eqn:Hm; [|apply IH].
  intros [<-|Hin]; [now exists prev, (String c s), rest | now apply IH in Hin].
Qed.

Lemma search_Some {G : Type} (m : string -> option (G * string)) (s : string) (g : G) :
  Re.search m s = Some g -> exists s' rest, m s' = Some (g, rest).
Proof.
  induction s as [|c s IH]; cbn [Re.search].
  - destruct (m "") as [[g' rest]|] eqn:Hm; [|discriminate].
    intros [= <-]. now exists "", rest.
  - destruct (m (String c s)) as [[g' rest]|] eqn:Hm; [|exact IH].
    intros [= <-]. now exists (String c s), rest.
Qed.

Lemma first_of_Some {G : Type} (m : string -> option G) (starts : list string) (g : G) :
  Re.first_of m starts = Some g -> exists s, m s = Some g.
Proof.
  induction starts as [|s starts IH]; cbn [Re.first_of]; [discriminate|].
  intros H. apply orelse_cases in H as [H|H]; [now exists s | now apply IH].
Qed.

Lemma span_all_chars (f : ascii -> bool) (s : string) :
  all_chars f (fst (Re.span f s)) = true.
Proof.
  induction s as [|c s IH]; cbn [Re.span]; [reflexivity|].
  destruct (f c) eqn:Hc; [|reflexivity].
  destruct (Re.span f s) as [run rest]. cbn [fst all_chars] in *.
  now rewrite Hc, IH.
Qed.

Lemma truthy_nonempty (s : string) : PyStr.truthy s = true <-> s <> "".
Proof. destruct s; cbn; split; intros H; congruence. Qed.

Lemma class_decl_shape (s g rest : string) :
  Re.class_decl s = Some (g, rest) -> g <> "" /\ all_chars PyStr.is_word g = true.
Proof.
  unfold Re.class_decl.
  destruct (Re.alt_lit _ s) as [s1|]; [|discriminate].
  destruct (Re.ws_plus s1) as [s2|]; [|discriminate].
  pose proof (span_all_chars PyStr.is_word s2) as Hall.
  destruct (Re.span PyStr.is_word s2) as [run rest']. cbn [fst] in Hall.
  destruct (PyStr.truthy run) eqn:Hrun; [|discriminate].
  intros [= <- _]. split; [now apply truthy_nonempty | exact Hall].
Qed.

Lemma visibility_tail_shape (s g rest : string) :
  Re.visibility_tail s = Some (g, rest) -> g <> "" /\ all_chars PyStr.is_word g = true.
Proof.
  unfold Re.visibility_tail.
  destruct (Re.alt_lit _ (Re.skip_ws s)) as [s1|]; [|apply class_decl_shape].
  destruct (Re.ws_plus s1) as [s2|]; [|apply class_decl_shape].
  intros H. apply orelse_cases in H as [H|H]; now apply class_decl_shape in H.
Qed.

Lemma modifiers_star_shape (fuel : nat) (s g rest : string) :
  Re.modifiers_star fuel s = Some (g, rest) ->
  g <> "" /\ all_chars PyStr.is_word g = true.
Proof.
  revert s. induction fuel as [|fuel IH]; intros s; cbn [Re.modifiers_star];
    [apply class_decl_shape|].
  destruct (Re.alt_lit _ s) as [s1|]; [|apply class_decl_shape].
  destruct (Re.ws_plus s1) as [s2|]; [|apply class_decl_shape].
  intros H. apply orelse_cases in H as [H|H];
    [now apply IH in H | now apply class_decl_shape in H].
Qed.

(** Every candidate of the two class patterns is a non-empty word. *)
Lemma class_candidates_shape (pattern : class_pattern) (text : string)
      (candidates : list string) (g : string) :
  re_finditer pattern text = Ret candidates -> In g candidates ->
  g <> "" /\ all_chars PyStr.is_word g = true.
Proof.
  destruct pattern; cbn [re_finditer]; [| |discriminate]; intros [= <-] Hin;
    apply finditer_In in Hin as (prev & s & rest & Hm).
  - unfold Re.match_visibility in Hm. apply first_of_Some in Hm as [s' Hm].
    now apply visibility_tail_shape in Hm.
  - unfold Re.match_modifiers in Hm. apply first_of_Some in Hm as [s' Hm].
    unfold Re.modifiers_tail in Hm. now apply modifiers_star_shape in Hm.
Qed.

Lemma first_candidate_Some (candidates : list string) (c : string) :
  first_candidate candidates = Some c ->
  In c candidates /\ PyStr.startswith c "Native" = false.
Proof.
  induction candidates as [|x rest IH]; cbn [first_candidate]; [discriminate|].
  destruct (negb (x =? "NativeExport")) eqn:H1; cbn [andb];
    [destruct (PyStr.startswith x "Native") eqn:H2; cbn [negb]|].
  - intros H. destruct (IH H). split; [now right | assumption].
  - intros [= <-]. split; [now left | assumption].
  - intros H. destruct (IH H). split; [now right | assumption].
Qed.

Lemma class_loop_shape (text c : string) :
  class_loop class_patterns text = Ret (Some c) ->
  c <> "" /\ all_chars PyStr.is_word c = true /\ PyStr.startswith c "Native" = false.
Proof.
  assert (Hstep : forall pattern candidates,
             re_finditer pattern text = Ret candidates ->
             first_candidate candidates = Some c ->
             c <> "" /\ all_chars PyStr.is_word c = true
             /\ PyStr.startswith c "Native" = false).
  { intros pattern candidates Hre Hfirst.
    apply first_candidate_Some in Hfirst as [Hin Hnative].
    destruct (class_candidates_shape pattern text candidates c Hre Hin). auto. }
  unfold class_patterns. cbn [class_loop].
  destruct (re_finditer pattern_visibility text) as [cands1|] eqn:H1; [|discriminate].
  destruct (first_candidate cands1) as [c1|] eqn:F1; cbn [truthy_opt].
  - destruct (PyStr.truthy c1).
    + intros [= ->]. exact (Hstep _ _ H1 F1).
    + destruct (re_finditer pattern_modifiers text) as [cands2|] eqn:H2; [|discriminate].
      destruct (first_candidate cands2) as [c2|] eqn:F2; cbn [truthy_opt];
        [destruct (PyStr.truthy c2)|]; try discriminate.
      intros [= ->]. exact (Hstep _ _ H2 F2).
  - destruct (re_finditer pattern_modifiers text) as [cands2|] eqn:H2; [|discriminate].
    destruct (first_candidate cands2) as [c2|] eqn:F2; cbn [truthy_opt];
      [destruct (PyStr.truthy c2)|]; try discriminate.
    intros [= ->]. exact (Hstep _ _ H2 F2).
Qed.

Lemma native_export_tail_shape (s : string) (m : Re.method_match) (rest : string) :
  Re.native_export_tail s = Some (m, rest) ->
  Re.group_name m <> ""
  /\ all_chars PyStr.is_word (Re.group_name m) = true
  /\ all_chars Re.is_not_rparen (Re.group_params m) = true
  /\ match Re.group_ret m with
     | Some r => r <> "" /\ all_chars Re.is_ret_char r = true
     | None => True
     end.
Proof.
  unfold Re.native_export_tail.
  destruct (Re.lit "@NativeExport" s) as [s1|]; [|discriminate].
  destruct (Re.lit "fun" (Re.skip_ws s1)) as [s2|]; [|discriminate].
  destruct (Re.ws_plus s2) as [s3|]; [|discriminate].
  pose proof (span_all_chars PyStr.is_word s3) as Hname.
  destruct (Re.span PyStr.is_word s3) as [name s4]. cbn [fst] in Hname.
  destruct (PyStr.truthy name) eqn:Tname; cbn [negb]; [|discriminate].
  destruct (Re.lit "(" (Re.skip_ws s4)) as [s5|]; [|discriminate].
  pose proof (span_all_chars Re.is_not_rparen s5) as Hparams.
  destruct (Re.span Re.is_not_rparen s5) as [params s6]. cbn [fst] in Hparams.
  destruct (Re.lit ")" s6) as [s7|]; [|discriminate].
  assert (Hret : match fst (Re.return_tail s7) with
                 | Some r => r <> "" /\ all_chars Re.is_ret_char r = true
                 | None => True
                 end).
  { unfold Re.return_tail.
    destruct (Re.lit ":" (Re.skip_ws s7)) as [s8|]; [|exact I].
    pose proof (span_all_chars Re.is_ret_char (Re.skip_ws s8)) as Hr.
    destruct (Re.span Re.is_ret_char (Re.skip_ws s8)) as [g r]. cbn [fst] in Hr.
    destruct (PyStr.truthy g) eqn:Tg; cbn [fst]; [|exact I].
    split; [now apply truthy_nonempty | exact Hr]. }
  destruct (Re.return_tail s7) as [ret rest']. cbn [fst] in Hret.
  intros [= <- _]. cbn [Re.group_name Re.group_params Re.group_ret].
  repeat split; try assumption. now apply truthy_nonempty.
Qed.

(** What the method pattern captures. *)
Lemma method_matches_shape (text : string) (m : Re.method_match) :
  In m (method_matches text) ->
  Re.group_name m <> ""
  /\ all_chars PyStr.is_word (Re.group_name m) = true
  /\ all_chars Re.is_not_rparen (Re.group_params m) = true
  /\ match Re.group_ret m with
     | Some r => r <> "" /\ all_chars Re.is_ret_char r = true
     | None => True
     end.
Proof.
  intros Hin. apply finditer_In in Hin as (prev & s & rest & Hm).
  unfold Re.match_method in Hm.
  destruct (Re.lit "@JvmStatic" s) as [s1|]; [|now apply native_export_tail_shape in Hm].
  apply orelse_cases in Hm as [Hm|Hm]; now apply native_export_tail_shape in Hm.
Qed.

(** X4. Every function the method pattern finds in a text has a non-empty
    name of word characters, a parameter text without closing
    parenthesis, and a return-type text that, when present, is not empty
    and holds neither white space nor an opening brace. *)
Theorem method_match_shape (text : string) (m : Re.method_match) :
  In m (method_matches text) ->
  Re.group_name m <> ""
  /\ all_chars PyStr.is_word (Re.group_name m) = true
  /\ all_chars Re.is_not_rparen (Re.group_params m) = true
  /\ match Re.group_ret m with
     | Some r => r <> "" /\ all_chars Re.is_ret_char r = true
     | None => True
     end.
Proof. apply method_matches_shape. Qed.

Lemma method_match_shape_witness :
  Re.group_name (Re.MethodMatch "scale" "xs: FloatArray, k: Float?" (Some "FloatArray")) <> ""
  /\ all_chars PyStr.is_word "scale" = true
  /\ all_chars Re.is_not_rparen "xs: FloatArray, k: Float?" = true
  /\ ("FloatArray" <> "" /\ all_chars Re.is_ret_char "FloatArray" = true).
Proof.
  apply (method_match_shape more_kt
           (Re.MethodMatch "scale" "xs: FloatArray, k: Float?" (Some "FloatArray"))).
  vm_compute. left. reflexivity.
Defined.

Lemma all_chars_append (f : ascii -> bool) (a b : string) :
  all_chars f (a ++ b) = all_chars f a && all_chars f b.
Proof.
  induction a as [|c a IH]; cbn [append all_chars]; [reflexivity|].
  now rewrite IH, andb_assoc.
Qed.

Lemma all_chars_weaken (f g : ascii -> bool) (s : string) :
  (forall c, f c = true -> g c = true) -> all_chars f s = true -> all_chars g s = true.
Proof.
  intros Hfg. induction s as [|c s IH]; cbn [all_chars]; [reflexivity|].
  intros H. apply andb_prop in H as [Hc Hs]. now rewrite (Hfg c Hc), IH.
Qed.

Lemma word_is_class_char (c : ascii) : PyStr.is_word c = true -> is_class_char c = true.
Proof. unfold is_class_char. now intros ->. Qed.

Lemma word_has_no_slash (s : string) :
  all_chars PyStr.is_word s = true -> PyStr.mem_char "/" s = false.
Proof.
  induction s as [|c s IH]; cbn [all_chars PyStr.mem_char]; [reflexivity|].
  intros H. apply andb_prop in H as [Hc Hs].
  destruct (Ascii.eqb_spec "/"%char c) as [<-|]; [discriminate Hc | now apply IH].
Qed.

Lemma package_path_chars (p : string) :
  all_chars Re.is_package_char p = true ->
  all_chars is_class_char (PyStr.replace "." "/" p) = true.
Proof.
  induction p as [|c p IH]; cbn [all_chars PyStr.replace]; [reflexivity|].
  intros H. apply andb_prop in H as [Hc Hp]. rewrite (IH Hp), andb_true_r.
  destruct (Ascii.eqb_spec c "."%char) as [->|Hne]; [reflexivity|].
  unfold Re.is_package_char in Hc. unfold is_class_char, PyStr.is_word.
  destruct (Ascii.eqb c ".") eqn:E; [apply Ascii.eqb_eq in E; contradiction|].
  rewrite orb_false_r in Hc.
  destruct (PyStr.is_lower c), (PyStr.is_upper c), (PyStr.is_digit c),
    (Ascii.eqb c "_"); cbn in *; congruence.
Qed.

(** What the owning-class determination returns. *)
Lemma extract_package_and_class_shape (file_content : string) (file_path : Path) (c : string) :
  extract_package_and_class file_content file_path = Ret (Some c) ->
  all_chars is_class_char c = true
  /\ short_name c <> ""
  /\ all_chars PyStr.is_word (short_name c) = true
  /\ PyStr.startswith (short_name c) "Native" = false
  /\ match Re.search Re.match_package file_content with
     | Some p => c = PyStr.replace "." "/" p ++ "/" ++ short_name c
     | None => c = short_name c
     end.
Proof.
  unfold extract_package_and_class.
  destruct (class_loop class_patterns file_content) as [[cand|]|] eqn:Hloop;
    try discriminate.
  2:{ destruct (class_loop_outcome file_content) as [(c' & Hc' & _) | Hc'];
        rewrite Hloop in Hc'; discriminate. }
  destruct (class_loop_shape _ _ Hloop) as (Hne & Hword & Hnative).
  apply truthy_nonempty in Hne. cbn [truthy_opt]. rewrite Hne. cbn [negb].
  pose proof (word_has_no_slash _ Hword) as Hslash.
  assert (Hshort : short_name cand = cand).
  { unfold short_name. now rewrite short_name_unqualified. }
  destruct (Re.search Re.match_package file_content) as [p|] eqn:Hpkg.
  - apply search_Some in Hpkg as (s' & rest & Hm). unfold Re.match_package in Hm.
    destruct (Re.lit "package" s') as [s1|]; [|discriminate].
    destruct (Re.ws_plus s1) as [s2|]; [|discriminate].
    pose proof (span_all_chars Re.is_package_char s2) as Hp.
    destruct (Re.span Re.is_package_char s2) as [g r]. cbn [fst] in Hp.
    destruct (PyStr.truthy g) eqn:Tg; [|discriminate].
    injection Hm as -> _. rewrite Tg, Hne. cbn [andb]. intros [= <-].
    rewrite (short_name_qualified _ _ Hslash).
    repeat split; try assumption; [|now apply truthy_nonempty].
    rewrite !all_chars_append, (package_path_chars _ Hp).
    cbn [all_chars andb]. apply (all_chars_weaken _ _ _ word_is_class_char Hword).
  - rewrite Hne. intros [= <-]. rewrite Hshort.
    repeat split; try assumption; [|now apply truthy_nonempty].
    apply (all_chars_weaken _ _ _ word_is_class_char Hword).
Qed.



(** ** What the grouping holds *)

Lemma descriptor_is_signature_char (c : ascii) :
  is_descriptor_char c = true -> is_signature_char c = true.
Proof. unfold is_signature_char. now intros ->. Qed.

Lemma descriptor_alphabet_of (type_text d : string) :
  descriptor type_text = Some d -> all_chars is_signature_char d = true.
Proof.
  unfold descriptor. destruct (parse_kotlin_type type_text) as [type_name is_nullable].
  remember (String.length type_name) as len eqn:Hlen.
  revert type_name is_nullable d Hlen.
  induction len as [len IH] using lt_wf_ind. intros type_name is_nullable d Hlen.
  rewrite kotlin_to_jni_type_eq.
  destruct (PyStr.endswith type_name "Array") eqn:Hends.
  - destruct (endswith_split _ _ Hends) as [element ->].
    change 5 with (String.length "Array"). rewrite drop_last_append.
    destruct (kotlin_to_jni_type element false) as [e|] eqn:He; [|discriminate].
    destruct (PyStr.truthy e); [|discriminate]. intros [= <-].
    cbn [append all_chars]. apply andb_true_intro. split; [reflexivity|].
    apply (IH (String.length element)) with (type_name := element) (is_nullable := false);
      [| reflexivity | exact He].
    subst len. rewrite append_length. cbn. lia.
  - intros H. apply base_type_alphabet in H.
    apply (all_chars_weaken _ _ _ descriptor_is_signature_char H).
Qed.

Lemma all_descriptors_alphabet (params ds : list string) :
  all_descriptors params = Some ds ->
  all_chars is_signature_char (PyStr.join ds) = true.
Proof.
  revert ds. induction params as [|param rest IH]; intros ds; cbn [all_descriptors].
  - now intros [= <-].
  - unfold param_descriptor. destruct (malformed param); [discriminate|].
    destruct (descriptor (param_type param)) as [d|] eqn:Hd; [|discriminate].
    destruct (all_descriptors rest) as [ds'|]; [|discriminate].
    cbn [option_map]. intros [= <-]. unfold PyStr.join.
    rewrite concat_empty_cons, all_chars_append.
    rewrite (descriptor_alphabet_of _ _ Hd). now apply IH.
Qed.

Lemma entry_of_ok (text : string) (m : Re.method_match) (e : method) :
  In m (method_matches text) -> entry_of m = Some e -> method_ok e.
Proof.
  intros Hin. destruct (method_matches_shape text m Hin) as (Hne & Hword & _).
  unfold entry_of.
  destruct (all_descriptors (params_of m)) as [ds|] eqn:Hds; [|discriminate].
  destruct (descriptor (return_text m)) as [r|] eqn:Hr; [|discriminate].
  intros [= <-]. unfold method_ok. cbn [fst snd]. repeat split; try assumption.
  cbn [append all_chars]. rewrite !all_chars_append, (all_descriptors_alphabet _ _ Hds).
  cbn [append all_chars]. now rewrite (descriptor_alphabet_of _ _ Hr).
Qed.

Lemma successes_ok (text : string) :
  Forall method_ok (successes (method_matches text)).
Proof.
  apply Forall_forall. intros e He. apply in_flat_map in He as (m & Hm & He).
  destruct (entry_of m) as [e'|] eqn:Hentry; [|contradiction].
  destruct He as [<-|[]]. exact (entry_of_ok text m e' Hm Hentry).
Qed.

Lemma notin_false_In (ks : list string) (k : string) : notin ks k = false <-> In k ks.
Proof.
  unfold notin. rewrite negb_false_iff, existsb_exists. split.
  - intros (x & Hx & E). apply String.eqb_eq in E. now subst.
  - intros H. exists k. split; [exact H | apply String.eqb_refl].
Qed.

Lemma dict_extend_ok (d : dict (list method)) (k : string) (v : list method) :
  Forall binding_ok d -> binding_ok (k, v) -> Forall binding_ok (dict_extend d k v).
Proof.
  intros Hd (Hk & Hc & Hv & Hms). cbn [fst snd] in *.
  induction Hd as [|[k' v'] d (Hk' & Hc' & Hv' & Hms') Hd IH]; cbn [dict_extend].
  - repeat constructor; assumption.
  - cbn [fst snd] in *. destruct (k =? k'); constructor; try assumption.
    + repeat split; cbn [fst snd]; try assumption.
      * destruct v'; [contradiction | discriminate].
      * apply Forall_app. split; assumption.
    + repeat split; assumption.
Qed.

Lemma dict_extend_NoDup (d : dict (list method)) (k : string) (v : list method) :
  NoDup (dict_keys d) -> NoDup (dict_keys (dict_extend d k v)).
Proof.
  intros Hd. rewrite dict_keys_extend.
  destruct (notin (dict_keys d) k) eqn:Hk; [|exact Hd].
  apply NoDup_app; [exact Hd | repeat constructor; intros [] |].
  intros x Hx [<-|[]]. apply notin_false_In in Hx. congruence.
Qed.

Lemma group_files_ok (fs : FileSystem) (kotlin_files : list Path)
      (d d' : dict (list method)) :
  group_files fs kotlin_files d = Ret d' ->
  Forall binding_ok d -> NoDup (dict_keys d) ->
  Forall binding_ok d' /\ NoDup (dict_keys d').
Proof.
  revert d. induction kotlin_files as [|p rest IH]; intros d; cbn [group_files].
  - intros [= <-]. auto.
  - destruct (scan_file fs p) as [|e|c found] eqn:Hscan; [apply IH | discriminate |].
    destruct found as [|m found]; [apply IH|].
    intros Hrun Hd Hnd. apply (IH _ Hrun); [|now apply dict_extend_NoDup].
    apply dict_extend_ok; [exact Hd|].
    unfold scan_file in Hscan.
    destruct (read_text fs p) as [text|]; [|discriminate].
    destruct (extract_package_and_class text p) as [[c'|]|] eqn:Hclass;
      try discriminate.
    destruct (PyStr.truthy c') eqn:Hc'; [|discriminate].
    injection Hscan as -> Hfound.
    destruct (extract_package_and_class_shape text p c Hclass) as (Hchars & _).
    repeat split; cbn [fst snd].
    + now apply truthy_nonempty.
    + exact Hchars.
    + discriminate.
    + rewrite <- Hfound. apply successes_ok.
Qed.

(** X6. Every grouping the Extractor returns has distinct class names and
    no binding without function.  Its class names are non-empty and made
    of word characters and slashes; its function names are non-empty
    words; its signatures are made of letters, slashes, semicolons,
    opening brackets and parentheses.  None of them holds a quote, a
    backslash or a line break, so none can end the string literal the
    emitter puts it in. *)
Theorem extracted_grouping_well_formed (fs : FileSystem) (kotlin_files : list Path)
        (verbose : bool) (out : list string) (class_methods : dict (list method)) :
  fst (extract_native_exports fs kotlin_files verbose out) = Ret class_methods ->
  NoDup (dict_keys class_methods)
  /\ Forall binding_ok class_methods
  /\ List.length class_methods <= total_methods class_methods.
Proof.
  unfold extract_native_exports. rewrite files_loop_group. intros Hrun.
  destruct (group_files_ok fs kotlin_files [] class_methods Hrun) as [Hok Hnd];
    [constructor | constructor |].
  repeat split; try assumption.
  clear Hrun Hnd. unfold total_methods.
  induction Hok as [|[c ms] d (_ & _ & Hms & _) _ IH]; cbn [List.length map list_sum];
    [lia|].
  cbn [snd] in *. destruct ms; [contradiction|]. simpl in *. lia.
Qed.

Lemma extracted_grouping_well_formed_witness :
  NoDup (dict_keys [("com/example/Bridge", [("good", "(I)I")])])
  /\ Forall binding_ok [("com/example/Bridge", [("good", "(I)I")])]
  /\ List.length [("com/example/Bridge", [("good", "(I)I")])]
     <= total_methods [("com/example/Bridge", [("good", "(I)I")])].
Proof.
  apply (extracted_grouping_well_formed demo_fs ["src/bridge.kt"] false []).
  vm_compute. reflexivity.
Defined.

(** ** How the Extractor composes over the files *)

Lemma group_files_app (fs : FileSystem) (l1 l2 : list Path) (d : dict (list method)) :
  group_files fs (l1 ++ l2) d
  = match group_files fs l1 d with
    | Ret d1 => group_files fs l2 d1
    | Raise e => Raise e
    end.
Proof.
  revert d. induction l1 as [|p l1 IH]; intros d; cbn [app group_files]; [reflexivity|].
  destruct (scan_file fs p) as [|e|c found]; [apply IH | reflexivity |].
  destruct found; apply IH.
Qed.

(** X7. Scanning a list of files made of two parts is scanning the first
    part and then the second part from the grouping reached; if the first
    part raises, so does the whole.  What is printed on the way, and the
    verbosity, play no part in the grouping. *)
Theorem extraction_composes (fs : FileSystem) (files1 files2 : list Path)
        (class_methods : dict (list method)) (verbose verbose1 verbose2 : bool)
        (out out1 out2 : list string) :
  fst (files_loop fs verbose (files1 ++ files2) class_methods out)
  = match fst (files_loop fs verbose1 files1 class_methods out1) with
    | Ret reached => fst (files_loop fs verbose2 files2 reached out2)
    | Raise e => Raise e
    end.
Proof.
  rewrite !files_loop_group, group_files_app.
  destruct (group_files fs files1 class_methods); [|reflexivity].
  now rewrite files_loop_group.
Qed.

(** X8. A file that cannot be read is skipped: the grouping is the one
    obtained without the file, wherever the file stands in the list, and a
    run on that file alone returns the empty grouping after one warning
    that names the file and the error. *)
Theorem unreadable_file_is_skipped (fs : FileSystem) (kt_file : Path) (error : string)
        (before after : list Path) (verbose : bool) (out : list string) :
  read_text fs kt_file = inr error ->
  fst (extract_native_exports fs (before ++ kt_file :: after) verbose out)
  = fst (extract_native_exports fs (before ++ after) verbose out)
  /\ extract_native_exports fs [kt_file] false out
     = (Ret [],
        (out ++ [("Warning: Could not read " ++ kt_file ++ ": " ++ error)%string])%list).
Proof.
  intros Hread. unfold extract_native_exports. split.
  - rewrite !files_loop_group, !group_files_app.
    destruct (group_files fs before []); [|reflexivity].
    cbn [group_files]. unfold scan_file. now rewrite Hread.
  - cbn [files_loop]. rewrite Hread. reflexivity.
Qed.

Lemma unreadable_file_is_skipped_witness :
  fst (extract_native_exports demo_fs (["src/math.kt"] ++ "src/gone.kt" :: ["src/clock.kt"])
                              false [])
  = fst (extract_native_exports demo_fs (["src/math.kt"] ++ ["src/clock.kt"]) false [])
  /\ extract_native_exports demo_fs ["src/gone.kt"] false []
     = (Ret [],
        ([] ++ [("Warning: Could not read " ++ "src/gone.kt" ++ ": "
                 ++ "[Errno 2] No such file or directory: 'src/gone.kt'")%string])%list).
Proof.
  apply (unreadable_file_is_skipped demo_fs "src/gone.kt"
           "[Errno 2] No such file or directory: 'src/gone.kt'"
           ["src/math.kt"] ["src/clock.kt"] false []).
  reflexivity.
Defined.

(** ** When a run ends with an exception *)

Lemma extract_package_and_class_raises (text : string) (file_path : Path) :
  (exists e, extract_package_and_class text file_path = Raise e)
  <-> lacks_class_declaration text = true.
Proof.
  assert (Hret : forall c, PyStr.truthy c = true ->
            class_loop class_patterns text = Ret (Some c) ->
            exists c', extract_package_and_class text file_path = Ret (Some c')).
  { intros c Hc Hloop. unfold extract_package_and_class. rewrite Hloop.
    cbn [truthy_opt]. rewrite Hc. cbn [negb].
    destruct (Re.search Re.match_package text) as [p|];
      [destruct (PyStr.truthy p)|]; cbn [andb]; rewrite ?Hc; now eexists. }
  assert (Hraise : class_loop class_patterns text
                   = Raise (re_error "look-behind requires fixed-width pattern") ->
                   exists e, extract_package_and_class text file_path = Raise e).
  { intros Hloop. unfold extract_package_and_class. rewrite Hloop. now eexists. }
  revert Hret Hraise.
  unfold lacks_class_declaration, class_patterns. cbn [class_loop re_finditer].
  destruct (first_candidate (Re.finditer Re.match_visibility 0 None text)) as [c1|];
    cbn [truthy_opt]; [destruct (PyStr.truthy c1) eqn:T1|]; cbn [negb andb].
  - intros Hret _. destruct (Hret c1 T1 eq_refl) as [c' ->].
    split; [intros [e He]; discriminate | discriminate].
  - destruct (first_candidate (Re.finditer Re.match_modifiers 0 None text)) as [c2|];
      cbn [truthy_opt]; [destruct (PyStr.truthy c2) eqn:T2|]; cbn [negb].
    + intros Hret _. destruct (Hret c2 T2 eq_refl) as [c' ->].
      split; [intros [e He]; discriminate | discriminate].
    + intros _ Hraise. split; [reflexivity | intros _; now apply Hraise].
    + intros _ Hraise. split; [reflexivity | intros _; now apply Hraise].
  - destruct (first_candidate (Re.finditer Re.match_modifiers 0 None text)) as [c2|];
      cbn [truthy_opt]; [destruct (PyStr.truthy c2) eqn:T2|]; cbn [negb].
    + intros Hret _. destruct (Hret c2 T2 eq_refl) as [c' ->].
      split; [intros [e He]; discriminate | discriminate].
    + intros _ Hraise. split; [reflexivity | intros _; now apply Hraise].
    + intros _ Hraise. split; [reflexivity | intros _; now apply Hraise].
Qed.

Lemma crashes_iff (fs : FileSystem) (kt_file : Path) :
  crashes fs kt_file = true
  <-> exists text, read_text fs kt_file = inl text
                   /\ lacks_class_declaration text = true.
Proof.
  unfold crashes, scan_file.
  destruct (read_text fs kt_file) as [text|err].
  - pose proof (extract_package_and_class_raises text kt_file) as Hiff.
    destruct (extract_package_and_class text kt_file) as [[c|]|e].
    + split; [destruct (PyStr.truthy c); discriminate|].
      intros (t & [= <-] & Hl). apply Hiff in Hl as [e He]. discriminate.
    + split; [discriminate|].
      intros (t & [= <-] & Hl). apply Hiff in Hl as [e He]. discriminate.
    + split; [|reflexivity]. intros _. exists text. split; [reflexivity|].
      apply Hiff. now exists e.
  - split; [discriminate|]. intros (t & Ht & _). discriminate.
Qed.

(** X9. [main] ends with an exception in three cases only: the scanner
    raises; or one of the resolved files can be read and holds no class or
    object declaration that the first two class patterns accept (the names
    starting with [Native] are not accepted); or the Extractor returns a
    grouping that is not empty and the output file cannot be opened.  The
    exception is the one of the scanner, the [re.error] of the third class
    pattern, or the one of the opening.  Otherwise [main] returns an exit
    code. *)
Theorem main_raises_iff (so : SetOrder) (fs : FileSystem) (args : Args)
        (out : list string) :
  ((exists e, fst (main so fs args out) = Raise e)
   <-> (exists e, find_kotlin_files so fs (effective_input args) = Raise e)
       \/ (exists kotlin_files kt_file text,
              find_kotlin_files so fs (effective_input args) = Ret kotlin_files
              /\ In kt_file kotlin_files
              /\ read_text fs kt_file = inl text
              /\ lacks_class_declaration text = true)
       \/ (exists kotlin_files entry class_methods e,
              find_kotlin_files so fs (effective_input args) = Ret kotlin_files
              /\ group_files fs kotlin_files [] = Ret (entry :: class_methods)
              /\ open_write fs (to_path fs (output args)) = Raise e))
  /\ forall e, fst (main so fs args out) = Raise e ->
               find_kotlin_files so fs (effective_input args) = Raise e
               \/ e = re_error "look-behind requires fixed-width pattern"
               \/ open_write fs (to_path fs (output args)) = Raise e.
Proof.
  rewrite main_outcome. unfold scan_then_run, run_of.
  destruct (find_kotlin_files so fs (effective_input args)) as [files|e0].
  2:{ split.
      - split; [intros _; left; now exists e0 | intros _; now exists e0].
      - intros e [= <-]. now left. }
  destruct (forallb (fun p => negb (crashes fs p)) files) eqn:Hall.
  - assert (Hnone : forall p, In p files -> crashes fs p = false).
    { intros p Hp. rewrite forallb_forall in Hall.
      apply negb_true_iff. now apply Hall. }
    destruct (group_files_spec fs files [] Hall) as (d & Hd & _).
    destruct files as [|p0 rest].
    { cbn [group_files] in Hd. injection Hd as <-. split.
      - split; [intros [e He]; discriminate|].
        intros [[e He] | [(l & p & text & [= <-] & [] & _)
                         | (l & b & d & e & [= <-] & Hg & _)]]; discriminate.
      - intros e He. discriminate. }
    rewrite Hd. destruct d as [|entry d].
    { split.
      - split; [intros [e He]; discriminate|].
        intros [[e He] | [(l & p & text & [= <-] & Hp & Hread & Hlacks)
                         | (l & b & d & e & [= <-] & Hg & _)]].
        + discriminate.
        + assert (Hc : crashes fs p = true) by (apply crashes_iff; eauto).
          rewrite (Hnone p Hp) in Hc. discriminate.
        + rewrite Hd in Hg. discriminate.
      - intros e He. discriminate. }
    destruct (open_write fs (to_path fs (output args))) as [[]|e0] eqn:Hopen.
    + split.
      * split; [intros [e He]; discriminate|].
        intros [[e He] | [(l & p & text & [= <-] & Hp & Hread & Hlacks)
                         | (l & b & d' & e & _ & _ & He)]].
        -- discriminate.
        -- assert (Hc : crashes fs p = true) by (apply crashes_iff; eauto).
           rewrite (Hnone p Hp) in Hc. discriminate.
        -- discriminate.
      * intros e He. discriminate.
    + split.
      * split; [|intros _; now exists e0].
        intros _. right. right. now exists (p0 :: rest), entry, d, e0.
      * intros e [= <-]. right. now right.
  - pose proof (group_files_crash fs files [] Hall) as Hcrash.
    assert (Hex : exists p, In p files /\ crashes fs p = true).
    { clear Hcrash. induction files as [|p rest IH]; cbn [forallb] in Hall;
        [discriminate|].
      destruct (crashes fs p) eqn:Hp; cbn [negb andb] in Hall.
      - exists p. split; [now left | exact Hp].
      - destruct (IH Hall) as (q & Hq & Hc). exists q. split; [now right | exact Hc]. }
    destruct Hex as (p & Hp & Hc).
    destruct files as [|p0 rest]; [contradiction|]. rewrite Hcrash.
    split.
    + split; [|intros _; now eexists].
      intros _. apply crashes_iff in Hc as (text & Hread & Hlacks).
      right. left. now exists (p0 :: rest), p, text.
    + intros e [= <-]. right. now left.
Qed.

Lemma main_raises_iff_witness :
  exists e, fst (main insertion_order demo_fs (demo_args ["lib"]) []) = Raise e.
Proof.
  apply (proj2 (proj1 (main_raises_iff insertion_order demo_fs (demo_args ["lib"]) []))).
  right. left. exists ["lib/helpers.kt"], "lib/helpers.kt", helpers_kt.
  split; [reflexivity|]. split; [now left|]. split; [reflexivity|].
  vm_compute. reflexivity.
Defined.

(** ** What [main] returns when no file raises *)

Lemma no_crash_forallb (fs : FileSystem) (files : list Path) :
  (forall p text, In p files -> read_text fs p = inl text ->
                  lacks_class_declaration text = false) ->
  forallb (fun p => negb (crashes fs p)) files = true.
Proof.
  intros H. apply forallb_forall. intros p Hp. apply negb_true_iff.
  destruct (crashes fs p) eqn:Hc; [|reflexivity].
  apply crashes_iff in Hc as (text & Hread & Hlacks).
  rewrite (H p text Hp Hread) in Hlacks. discriminate.
Qed.

(** X10. When the scanner returns and every resolved file that can be
    read holds a class or object declaration accepted by the first two
    class patterns, the Extractor returns a grouping, and [main] returns
    unless it cannot open the output file.  Without resolved file it
    prints its error line, writes nothing and returns 1.  With an empty
    grouping nothing is written, the warning is the last line printed, and
    [main] returns 0; with a non-empty grouping and an output file that can
    be opened, [main] returns 0 and the output file, at the path given,
    holds the text emitted for that grouping and the helper class given;
    when the file cannot be opened, [main] ends with the exception of the
    opening. *)
Theorem main_exit_codes (so : SetOrder) (fs : FileSystem) (args : Args)
        (out : list string) (kotlin_files : list Path) :
  find_kotlin_files so fs (effective_input args) = Ret kotlin_files ->
  (forall p text,
      In p kotlin_files ->
      read_text fs p = inl text -> lacks_class_declaration text = false) ->
  (kotlin_files = [] ->
   main so fs args out
   = (Ret {| exit_code := 1; written := None |},
      (out ++ ["Error: No Kotlin files found in specified input paths"])%list))
  /\ (kotlin_files <> [] ->
      exists class_methods,
        fst (extract_native_exports fs kotlin_files (verbose args) out)
        = Ret class_methods
        /\ fst (main so fs args out)
           = match class_methods with
             | [] => Ret {| exit_code := 0; written := None |}
             | _ :: _ =>
                 match open_write fs (to_path fs (output args)) with
                 | Raise e => Raise e
                 | Ret _ =>
                     Ret {| exit_code := 0;
                            written :=
                              Some (to_path fs (output args),
                                    generate_cpp_file class_methods
                                                      (helper_class args)) |}
                 end
             end
        /\ (class_methods = [] ->
            exists out',
              snd (main so fs args out)
              = (out' ++ ["Warning: No @NativeExport methods found"])%list)).
Proof.
  intros Hfind Hfiles. split.
  - intros ->. unfold main. unfold bind at 1. unfold lift. rewrite Hfind. reflexivity.
  - intros Hsome.
    pose proof (no_crash_forallb fs _ Hfiles) as Hall.
    destruct (group_files_spec fs _ [] Hall) as (d & Hd & _).
    exists d. unfold extract_native_exports. rewrite files_loop_group.
    split; [exact Hd|]. split.
    + rewrite main_outcome. unfold scan_then_run, run_of. rewrite Hfind.
      destruct kotlin_files; [contradiction|].
      rewrite Hd. reflexivity.
    + intros ->.
      destruct (main_warns_without_exports so fs args out kotlin_files Hfind Hsome Hd)
        as [out' ->]. now exists out'.
Qed.

Lemma main_exit_codes_witness :
  exists class_methods,
    fst (extract_native_exports demo_fs
           ["src/math.kt"; "src/clock.kt"; "src/more.kt"; "src/bridge.kt"]
           false []) = Ret class_methods
    /\ fst (main insertion_order demo_fs (demo_args ["src"]) [])
       = match class_methods with
         | [] => Ret {| exit_code := 0; written := None |}
         | _ :: _ =>
             Ret {| exit_code := 0;
                    written :=
                      Some ("jni_loader.cpp",
                            generate_cpp_file class_methods
                                              "saturn::platform::agdk::JNIHelper") |}
         end
    /\ (class_methods = [] ->
        exists out',
          snd (main insertion_order demo_fs (demo_args ["src"]) [])
          = (out' ++ ["Warning: No @NativeExport methods found"])%list).
Proof.
  refine (proj2 (main_exit_codes insertion_order demo_fs (demo_args ["src"]) []
                   ["src/math.kt"; "src/clock.kt"; "src/more.kt"; "src/bridge.kt"]
                   _ _) _).
  - reflexivity.
  - intros p text Hp Hread.
    destruct Hp as [<-|[<-|[<-|[<-|[]]]]]; injection Hread as <-;
      vm_compute; reflexivity.
  - discriminate.
Defined.

(** X11. The exit code and the output file of [main] do not depend on the
    verbosity flag nor on what was printed before: two runs that differ
    only in these return the same value, or raise the same exception. *)
Theorem verbosity_changes_no_result (so : SetOrder) (fs : FileSystem)
        (args1 args2 : Args) (out1 out2 : list string) :
  input args1 = input args2 -> output args1 = output args2 ->
  helper_class args1 = helper_class args2 ->
  fst (main so fs args1 out1) = fst (main so fs args2 out2).
Proof.
  intros Hin Hout Hhelper. rewrite !main_outcome.
  unfold scan_then_run, run_of, effective_input. now rewrite Hin, Hout, Hhelper.
Qed.

Lemma verbosity_changes_no_result_witness :
  fst (main reverse_order demo_fs
            {| input := Some ["src"]; output := "out.cpp";
               helper_class := "my::Helper"; verbose := true |} [])
  = fst (main reverse_order demo_fs
              {| input := Some ["src"]; output := "out.cpp";
                 helper_class := "my::Helper"; verbose := false |} ["earlier line"]).
Proof.
  apply (verbosity_changes_no_result reverse_order demo_fs); reflexivity.
Defined.

(** ** SourceScanner: what is resolved *)

Lemma all_candidates_raises (fs : FileSystem) (input_paths : list string) :
  (exists e, all_candidates fs input_paths = Raise e)
  <-> exists input_path e, In input_path input_paths
                           /\ candidates fs input_path = Raise e.
Proof.
  induction input_paths as [|input_path rest IH]; cbn [all_candidates].
  - split; [intros [e He]; discriminate | intros (? & ? & [] & _)].
  - destruct (candidates fs input_path) as [matches|e0] eqn:Hc.
    + destruct (all_candidates fs rest) as [others|e1].
      * split; [intros [e He]; discriminate|].
        intros (i & e & [<-|Hi] & Hraise); [congruence|].
        assert (Hex : exists e', Ret others = Raise e')
          by (apply IH; now exists i, e).
        destruct Hex as [e' He']. discriminate.
      * split; [|intros _; now exists e1].
        intros _. destruct (proj1 IH) as (i & e & Hi & He); [now exists e1|].
        exists i, e. split; [now right | exact He].
    + split; [|intros _; now exists e0].
      intros _. exists input_path, e0. split; [now left | exact Hc].
Qed.

Lemma find_kotlin_files_In (so : SetOrder) (fs : FileSystem) (input_paths : list string)
      (kotlin_files : list Path) (p : Path) :
  find_kotlin_files so fs input_paths = Ret kotlin_files ->
  (In p kotlin_files
   <-> exists input_path matches,
         In input_path input_paths
         /\ candidates fs input_path = Ret matches /\ In p matches).
Proof.
  rewrite find_kotlin_files_candidates.
  destruct (all_candidates fs input_paths) as [found|e] eqn:Hall; [|discriminate].
  intros [= <-]. rewrite list_set_In. now apply all_candidates_In.
Qed.

(** X12. When the scanner returns, the resolved list has no duplicate and
    holds exactly the paths that some input contributes (itself for a
    Kotlin file, the Kotlin files below it for a directory, its matches as
    a pattern otherwise); without input it is empty.  The scanner raises
    exactly when one input raises, which only an input that is neither a
    Kotlin file nor a directory does, as a pattern.  Whether it raises, and
    up to order what it returns, depend neither on the order of the inputs,
    nor on their repetition, nor on the iteration order of the set. *)
Theorem scanner_resolves_candidates (so : SetOrder) (fs : FileSystem)
        (input_paths : list string) :
  (forall kotlin_files,
      find_kotlin_files so fs input_paths = Ret kotlin_files ->
      NoDup kotlin_files
      /\ forall p, In p kotlin_files
                   <-> exists input_path matches,
                         In input_path input_paths
                         /\ candidates fs input_path = Ret matches /\ In p matches)
  /\ find_kotlin_files so fs [] = Ret []
  /\ ((exists e, find_kotlin_files so fs input_paths = Raise e)
      <-> exists input_path e,
            In input_path input_paths
            /\ glob_cwd fs input_path = Raise e
            /\ is_dir fs (to_path fs input_path) = false
            /\ is_file fs (to_path fs input_path)
               && (path_suffix (to_path fs input_path) =? ".kt") = false)
  /\ (forall so' input_paths',
         (forall x, In x input_paths <-> In x input_paths') ->
         match find_kotlin_files so fs input_paths,
               find_kotlin_files so' fs input_paths' with
         | Ret files, Ret files' => Permutation files files'
         | Raise _, Raise _ => True
         | _, _ => False
         end).
Proof.
  split; [|split; [|split]].
  - intros kotlin_files Hfind. split.
    + now apply (find_kotlin_files_NoDup so fs input_paths).
    + intros p. now apply (find_kotlin_files_In so fs input_paths).
  - unfold find_kotlin_files. cbn [collect_kotlin_files]. f_equal.
    apply Permutation_nil, Permutation_sym, (list_set_spec so []).
  - rewrite find_kotlin_files_candidates.
    assert (Hsame : (exists e, match all_candidates fs input_paths with
                               | Ret found => Ret (list_set so found)
                               | Raise e0 => Raise e0
                               end = Raise e)
                    <-> exists e, all_candidates fs input_paths = Raise e).
    { destruct (all_candidates fs input_paths) as [found|e0];
        split; intros [e He]; try discriminate; now exists e. }
    rewrite Hsame, all_candidates_raises.
    split; intros (i & e & Hi & H); exists i, e; (split; [exact Hi|]).
    + unfold candidates in H.
      destruct (is_file fs (to_path fs i) && (path_suffix (to_path fs i) =? ".kt"));
        [discriminate|].
      destruct (is_dir fs (to_path fs i)); [discriminate|]. now repeat split.
    + destruct H as (Hglob & Hdir & Hfile). unfold candidates.
      now rewrite Hfile, Hdir.
  - intros so' input_paths' Hsame.
    pose proof (find_kotlin_files_NoDup so fs input_paths) as Hnd.
    pose proof (find_kotlin_files_NoDup so' fs input_paths') as Hnd'.
    pose proof (fun l p => find_kotlin_files_In so fs input_paths l p) as Hin.
    pose proof (fun l p => find_kotlin_files_In so' fs input_paths' l p) as Hin'.
    pose proof (all_candidates_raises fs input_paths) as Hr.
    pose proof (all_candidates_raises fs input_paths') as Hr'.
    rewrite !find_kotlin_files_candidates in *.
    destruct (all_candidates fs input_paths) as [found|e];
      destruct (all_candidates fs input_paths') as [found'|e'].
    + apply NoDup_Permutation; [now apply Hnd | now apply Hnd' |].
      intros p. rewrite (Hin _ p eq_refl), (Hin' _ p eq_refl).
      split; intros (x & ms & Hx & Hms & Hp); exists x, ms;
        (split; [now apply Hsame | now split]).
    + destruct (proj1 Hr') as (i & e0 & Hi & He0); [now exists e'|].
      destruct (proj2 Hr) as [e1 He1]; [|discriminate].
      exists i, e0. split; [now apply Hsame | exact He0].
    + destruct (proj1 Hr) as (i & e0 & Hi & He0); [now eexists|].
      destruct (proj2 Hr') as [e1 He1]; [|discriminate].
      exists i, e0. split; [now apply Hsame | exact He0].
    + exact I.
Qed.

Lemma scanner_resolves_candidates_witness :
  match find_kotlin_files insertion_order demo_fs ["src/m*.kt"; "src/math.kt"],
        find_kotlin_files reverse_order demo_fs
                          ["src/math.kt"; "src/m*.kt"; "src/math.kt"] with
  | Ret files, Ret files' => Permutation files files'
  | Raise _, Raise _ => True
  | _, _ => False
  end.
Proof.
  apply (proj2 (proj2 (proj2 (scanner_resolves_candidates insertion_order demo_fs
                                ["src/m*.kt"; "src/math.kt"])))).
  intros x. cbn [In]. tauto.
Defined.

Lemma all_candidates_first_raise (fs : FileSystem) (before after : list string)
      (pattern : string) (e : exn) :
  (forall i, In i before -> exists matches, candidates fs i = Ret matches) ->
  candidates fs pattern = Raise e ->
  all_candidates fs (before ++ pattern :: after) = Raise e.
Proof.
  intros Hbefore Hraise.
  induction before as [|i before IH]; cbn [app all_candidates].
  - now rewrite Hraise.
  - destruct (Hbefore i (or_introl eq_refl)) as [matches ->].
    rewrite IH; [reflexivity|]. intros j Hj. apply Hbefore. now right.
Qed.

(** X22. An input that is neither a Kotlin file nor a directory and that
    the pattern matching refuses (an absolute pattern, for one) ends the
    run: when the inputs before it are resolved, the scanner raises the
    exception of that input, whatever comes after it, and [main] ends with
    the same exception, without printing a line and without exit code. *)
Theorem main_raises_on_refused_pattern (so : SetOrder) (fs : FileSystem) (args : Args)
        (out : list string) (before after : list string) (pattern : string) (e : exn) :
  effective_input args = (before ++ pattern :: after)%list ->
  (forall i, In i before -> exists matches, candidates fs i = Ret matches) ->
  is_file fs (to_path fs pattern) && (path_suffix (to_path fs pattern) =? ".kt") = false ->
  is_dir fs (to_path fs pattern) = false ->
  glob_cwd fs pattern = Raise e ->
  find_kotlin_files so fs (effective_input args) = Raise e
  /\ main so fs args out = (Raise e, out).
Proof.
  intros Hinputs Hbefore Hfile Hdir Hglob.
  assert (Hfind : find_kotlin_files so fs (effective_input args) = Raise e).
  { rewrite find_kotlin_files_candidates, Hinputs.
    rewrite (all_candidates_first_raise fs before after pattern e Hbefore);
      [reflexivity|].
    unfold candidates. now rewrite Hfile, Hdir. }
  split; [exact Hfind|].
  unfold main. unfold bind at 1. unfold lift. now rewrite Hfind.
Qed.

Lemma main_raises_on_refused_pattern_witness :
  find_kotlin_files reverse_order demo_fs
                    (effective_input (demo_args ["src"; "/srv/app/*.kt"; "lib"]))
  = Raise (NotImplementedError "Non-relative patterns are unsupported")
  /\ main reverse_order demo_fs (demo_args ["src"; "/srv/app/*.kt"; "lib"]) []
     = (Raise (NotImplementedError "Non-relative patterns are unsupported"), []).
Proof.
  apply (main_raises_on_refused_pattern reverse_order demo_fs
           (demo_args ["src"; "/srv/app/*.kt"; "lib"]) [] ["src"] ["lib"] "/srv/app/*.kt").
  - reflexivity.
  - intros i [<-|[]]. now eexists.
  - reflexivity.
  - reflexivity.
  - reflexivity.
Defined.

(** ** Paths: name, stem and suffix *)

Lemma substring_slice (n : nat) (s : string) :
  substring 0 n s ++ PyStr.slice_from n s = s.
Proof.
  revert n. induction s as [|c s IH]; intros [|n]; cbn; try reflexivity.
  now rewrite IH.
Qed.

Lemma substring_length_le (n : nat) (s : string) :
  n <= String.length s -> String.length (substring 0 n s) = n.
Proof.
  revert n. induction s as [|c s IH]; intros [|n] Hn; cbn in *; try lia;
    try reflexivity.
  rewrite IH; lia.
Qed.

(** The last occurrence of a character: nowhere, or before a rest that
    does not hold it. *)
Lemma rfind_from_spec (c : ascii) (s : string) (i last : Z) :
  (PyStr.mem_char c s = false /\ PyStr.rfind_from c s i last = last)
  \/ exists pre post,
       s = pre ++ String c post
       /\ PyStr.mem_char c post = false
       /\ PyStr.rfind_from c s i last = (i + Z.of_nat (String.length pre))%Z.
Proof.
  revert i last. induction s as [|d s IH]; intros i last;
    cbn [PyStr.rfind_from PyStr.mem_char].
  - now left.
  - destruct (Ascii.eqb_spec c d) as [<-|Hne].
    + right. destruct (IH (i + 1)%Z i) as [[Hno Hr] | (pre & post & -> & Hpost & Hr)].
      * exists "", s. cbn. rewrite Hr. repeat split; [assumption | lia].
      * exists (String c pre), post. cbn [append String.length].
        rewrite Hr. repeat split; [assumption | lia].
    + destruct (IH (i + 1)%Z last) as [[Hno Hr] | (pre & post & -> & Hpost & Hr)].
      * left. now split.
      * right. exists (String d pre), post. cbn [append String.length].
        rewrite Hr. repeat split; [assumption | lia].
Qed.

Lemma slice_from_append (pre post : string) :
  PyStr.slice_from (String.length pre) (pre ++ post) = post.
Proof. induction pre as [|c pre IH]; cbn; [now destruct post | exact IH]. Qed.

Lemma path_name_no_slash (p : Path) : PyStr.mem_char "/" (path_name p) = false.
Proof.
  unfold path_name, PyStr.rfind.
  destruct (rfind_from_spec "/" p 0 (-1)) as [[Hno ->] | (pre & post & -> & Hpost & ->)].
  - exact Hno.
  - replace (Z.to_nat (0 + Z.of_nat (String.length pre) + 1))
      with (String.length (pre ++ "/")) by (rewrite append_length; cbn; lia).
    change (String "/" post) with ("/" ++ post).
    now rewrite <- append_assoc, slice_from_append.
Qed.

(** X13. The name of a path holds no slash and is its stem followed by its
    suffix.  The suffix is [.kt] only for a name of the form stem [.kt]
    with a non-empty stem, so a file named [.kt] alone is not taken as a
    Kotlin file by the file branch of the scanner. *)
Theorem path_name_stem_suffix (p : Path) :
  PyStr.mem_char "/" (path_name p) = false
  /\ path_name p = path_stem p ++ path_suffix p
  /\ (path_suffix p = ".kt" -> path_stem p <> "" /\ path_name p = path_stem p ++ ".kt")
  /\ (path_name p = ".kt" -> path_suffix p = "").
Proof.
  split; [apply path_name_no_slash|].
  unfold path_stem, path_suffix.
  set (name := path_name p). set (i := PyStr.rfind "." name).
  destruct ((0 <? i)%Z && (i <? Z.of_nat (String.length name) - 1)%Z) eqn:Hi.
  - apply andb_prop in Hi as [H0 H1].
    apply Z.ltb_lt in H0. apply Z.ltb_lt in H1.
    split; [now rewrite substring_slice|]. split.
    + intros Hkt. split.
      * intros Hempty.
        assert (Hlen : String.length (substring 0 (Z.to_nat i) name) = Z.to_nat i)
          by (apply substring_length_le; lia).
        rewrite Hempty in Hlen. cbn in Hlen. lia.
      * rewrite <- Hkt. now rewrite substring_slice.
    + intros Hname. exfalso. subst i. rewrite Hname in H0, H1.
      vm_compute in H0. discriminate.
  - split; [now rewrite append_empty_r|]. split; [discriminate | reflexivity].
Qed.

Lemma path_name_stem_suffix_witness :
  path_stem "src/util/clock.kt" <> ""
  /\ path_name "src/util/clock.kt" = path_stem "src/util/clock.kt" ++ ".kt".
Proof.
  apply (proj1 (proj2 (proj2 (path_name_stem_suffix "src/util/clock.kt")))).
  reflexivity.
Defined.

(** ** Splitting and joining *)

Lemma concat_cons_cons (sep x y : string) (l : list string) :
  String.concat sep (x :: y :: l) = x ++ sep ++ String.concat sep (y :: l).
Proof. reflexivity. Qed.

(** X14. Splitting a text on a separator character loses nothing: there
    is at least one field, no field holds the separator, and joining the
    fields with the separator gives the text back.  So the parameters cut
    from a parameter list hold no comma, and an empty parameter between two
    commas is kept as an empty field. *)
Theorem split_join_round_trip (sep : ascii) (s : string) :
  PyStr.split sep s <> []
  /\ Forall (fun field => PyStr.mem_char sep field = false) (PyStr.split sep s)
  /\ String.concat (String sep "") (PyStr.split sep s) = s.
Proof.
  split; [apply split_nonempty|].
  induction s as [|c s [IHno IHjoin]]; cbn [PyStr.split].
  - split; [repeat constructor | reflexivity].
  - pose proof (split_nonempty sep s) as Hne.
    destruct (PyStr.split sep s) as [|w ws]; [contradiction|].
    destruct (Ascii.eqb_spec c sep) as [->|Hne'].
    + split; [constructor; [reflexivity | exact IHno]|].
      rewrite concat_cons_cons, IHjoin. reflexivity.
    + apply Forall_cons_iff in IHno as [Hw Hws]. split.
      * constructor; [|exact Hws]. cbn [PyStr.mem_char].
        destruct (Ascii.eqb_spec sep c) as [->|]; [contradiction | exact Hw].
      * rewrite <- IHjoin. now destruct ws.
Qed.

(** ** Parsing a type text *)

Lemma lstrip_spaces (ws x : string) :
  all_chars PyStr.is_space ws = true -> PyStr.lstrip (ws ++ x) = PyStr.lstrip x.
Proof.
  induction ws as [|c ws IH]; cbn [all_chars append PyStr.lstrip]; [reflexivity|].
  intros H. apply andb_prop in H as [-> Hws]. now apply IH.
Qed.

Lemma rstrip_only_spaces (ws : string) :
  all_chars PyStr.is_space ws = true -> PyStr.rstrip ws = "".
Proof.
  induction ws as [|c ws IH]; cbn [all_chars PyStr.rstrip]; [reflexivity|].
  intros H. apply andb_prop in H as [-> Hws]. now rewrite (IH Hws).
Qed.

Lemma rstrip_spaces (x ws : string) :
  all_chars PyStr.is_space ws = true -> PyStr.rstrip (x ++ ws) = PyStr.rstrip x.
Proof.
  intros Hws. induction x as [|c x IH]; cbn [append PyStr.rstrip].
  - now apply rstrip_only_spaces.
  - now rewrite IH.
Qed.

Lemma rstrip_last (a : string) (c : ascii) :
  PyStr.is_space c = false -> PyStr.rstrip (a ++ String c "") = a ++ String c "".
Proof.
  intros Hc. induction a as [|d a IH]; cbn [append PyStr.rstrip].
  - now rewrite Hc.
  - rewrite IH. now destruct a.
Qed.

Lemma lstrip_length (s : string) : String.length (PyStr.lstrip s) <= String.length s.
Proof.
  induction s as [|c s IH]; cbn [PyStr.lstrip String.length]; [lia|].
  destruct (PyStr.is_space c); cbn [String.length]; lia.
Qed.

Lemma rstrip_length (s : string) : String.length (PyStr.rstrip s) <= String.length s.
Proof.
  induction s as [|c s IH]; cbn [PyStr.rstrip String.length]; [lia|].
  destruct (PyStr.rstrip s); [destruct (PyStr.is_space c)|]; cbn [String.length] in *; lia.
Qed.

Lemma strip_fixed (t : string) :
  PyStr.strip t = t -> PyStr.lstrip t = t /\ PyStr.rstrip t = t.
Proof.
  unfold PyStr.strip. intros H.
  assert (Hl : PyStr.lstrip t = t).
  { pose proof (rstrip_length (PyStr.lstrip t)) as H1. rewrite H in H1.
    destruct t as [|c t]; [reflexivity|]. cbn [PyStr.lstrip] in *.
    destruct (PyStr.is_space c); [|reflexivity].
    pose proof (lstrip_length t). cbn [String.length] in H1. lia. }
  split; [exact Hl | now rewrite Hl in H].
Qed.

Lemma lstrip_head (t x : string) :
  PyStr.lstrip t = t -> t <> "" -> PyStr.lstrip (t ++ x) = t ++ x.
Proof.
  destruct t as [|c t]; [contradiction|]. cbn [append PyStr.lstrip]. intros H _.
  destruct (PyStr.is_space c); [|reflexivity].
  pose proof (lstrip_length t) as Hlen. rewrite H in Hlen. cbn in Hlen. lia.
Qed.

(** X15. A type name without white space at either end, written with any
    white space around it, parses to itself: as non-nullable when it does
    not end with a question mark, and as nullable when one question mark
    follows it.  Only one question mark is removed, and white space between
    the name and the mark stays in the name. *)
Theorem parse_kotlin_type_round_trip (type_name ws1 ws2 : string) :
  PyStr.strip type_name = type_name ->
  all_chars PyStr.is_space ws1 = true -> all_chars PyStr.is_space ws2 = true ->
  parse_kotlin_type (ws1 ++ type_name ++ "?" ++ ws2) = (type_name, true)
  /\ (PyStr.endswith type_name "?" = false ->
      parse_kotlin_type (ws1 ++ type_name ++ ws2) = (type_name, false)).
Proof.
  intros Hstrip H1 H2. destruct (strip_fixed _ Hstrip) as [Hl Hr].
  unfold parse_kotlin_type, PyStr.strip. split.
  - rewrite (lstrip_spaces _ _ H1).
    assert (Hhead : PyStr.lstrip (type_name ++ "?" ++ ws2) = type_name ++ "?" ++ ws2).
    { destruct type_name as [|c t]; [reflexivity|]. now apply lstrip_head. }
    rewrite Hhead, <- append_assoc, (rstrip_spaces _ _ H2), rstrip_last by reflexivity.
    rewrite endswith_append. change 1 with (String.length "?").
    now rewrite drop_last_append.
  - intros Hends. rewrite (lstrip_spaces _ _ H1).
    destruct type_name as [|c t].
    + cbn [append]. rewrite <- (append_empty_r ws2), (lstrip_spaces _ _ H2).
      reflexivity.
    + rewrite lstrip_head by (assumption || discriminate).
      rewrite (rstrip_spaces _ _ H2), Hr, Hends. reflexivity.
Qed.

Lemma parse_kotlin_type_round_trip_witness :
  parse_kotlin_type (" " ++ "IntArray" ++ "?" ++ "  ") = ("IntArray", true)
  /\ (PyStr.endswith "IntArray" "?" = false ->
      parse_kotlin_type (" " ++ "IntArray" ++ "  ") = ("IntArray", false)).
Proof.
  apply (parse_kotlin_type_round_trip "IntArray" " " "  "); reflexivity.
Defined.

(** ** Diagnostics *)

Lemma prints_ret {A : Type} (a : A) : prints (ret a) a [].
Proof. intros out. unfold ret. now rewrite app_nil_r. Qed.

Lemma prints_print (line : string) : prints (print line) tt [line].
Proof. intros out. reflexivity. Qed.

Lemma prints_bind {A B : Type} (c : M A) (k : A -> M B) (a : A) (b : B)
      (msgs1 msgs2 : list string) :
  prints c a msgs1 -> prints (k a) b msgs2 -> prints (bind c k) b (msgs1 ++ msgs2).
Proof.
  intros Hc Hk out. unfold bind. rewrite Hc, Hk. now rewrite app_assoc.
Qed.

Lemma params_loop_prints (name : string) (params sig_parts : list string) :
  exists msgs,
    prints (params_loop name params sig_parts)
           (option_map (app sig_parts) (all_descriptors params)) msgs
    /\ List.length msgs = match all_descriptors params with Some _ => 0 | None => 1 end.
Proof.
  revert sig_parts.
  induction params as [|param rest IH]; intros sig_parts;
    cbn [params_loop all_descriptors option_map].
  - exists []. split; [|reflexivity]. rewrite app_nil_r. apply prints_ret.
  - unfold param_descriptor, malformed, descriptor, param_type.
    destruct (PyStr.mem_char ":" (PyStr.strip param)); cbn [negb].
    + destruct (parse_kotlin_type _) as [type_name is_nullable].
      destruct (kotlin_to_jni_type type_name is_nullable) as [d|] eqn:Hd.
      * rewrite (kotlin_to_jni_type_truthy _ _ _ Hd).
        destruct (IH (sig_parts ++ [d])%list) as (msgs & Hp & Hlen).
        exists msgs. destruct (all_descriptors rest) as [ds|]; cbn [option_map] in *.
        -- split; [now rewrite <- app_assoc in Hp | exact Hlen].
        -- split; [exact Hp | exact Hlen].
      * eexists [_]. split; [|reflexivity].
        apply (prints_bind _ _ tt None [_] []); [apply prints_print | apply prints_ret].
    + eexists [_]. split; [|reflexivity].
      apply (prints_bind _ _ tt None [_] []); [apply prints_print | apply prints_ret].
Qed.

Lemma process_match_prints (m : Re.method_match) :
  exists msgs,
    prints (process_match false m) (entry_of m) msgs
    /\ List.length msgs = match entry_of m with Some _ => 0 | None => 1 end.
Proof.
  unfold process_match, entry_of. cbn [when].
  assert (Hparams : exists msgs,
             prints (if PyStr.truthy (PyStr.strip (Re.group_params m))
                     then params_loop (Re.group_name m)
                            (PyStr.split "," (PyStr.strip (Re.group_params m))) []
                     else ret (Some []))
                    (all_descriptors (params_of m)) msgs
             /\ List.length msgs
                = match all_descriptors (params_of m) with Some _ => 0 | None => 1 end).
  { unfold params_of. destruct (PyStr.truthy (PyStr.strip (Re.group_params m))).
    - destruct (params_loop_prints (Re.group_name m)
                  (PyStr.split "," (PyStr.strip (Re.group_params m))) [])
        as (msgs & Hp & Hlen).
      exists msgs. split; [|exact Hlen].
      destruct (all_descriptors _); exact Hp.
    - exists []. split; [apply prints_ret | reflexivity]. }
  destruct Hparams as (msgs1 & Hp1 & Hlen1).
  replace (if truthy_opt (Re.group_ret m)
           then match Re.group_ret m with Some r => r | None => "Unit" end
           else "Unit") with (return_text m)
    by (unfold return_text, truthy_opt; now destruct (Re.group_ret m)).
  destruct (all_descriptors (params_of m)) as [ds|].
  - unfold descriptor.
    destruct (parse_kotlin_type (return_text m)) as [ret_type ret_nullable].
    destruct (kotlin_to_jni_type ret_type ret_nullable) as [r|] eqn:Hr;
      cbn [truthy_opt negb].
    + rewrite (kotlin_to_jni_type_truthy _ _ _ Hr). cbn [negb].
      exists ([] ++ msgs1 ++ [] ++ [])%list. split.
      * eapply prints_bind; [apply prints_ret|].
        eapply prints_bind; [exact Hp1|].
        eapply prints_bind; apply prints_ret.
      * cbn [app]. rewrite !app_nil_r. exact Hlen1.
    + eexists ([] ++ msgs1 ++ [_] ++ [])%list. split.
      * eapply prints_bind; [apply prints_ret|].
        eapply prints_bind; [exact Hp1|].
        eapply prints_bind; [apply prints_print | apply prints_ret].
      * cbn [app]. rewrite length_app, Hlen1. reflexivity.
  - exists ([] ++ msgs1 ++ [])%list. split.
    + eapply prints_bind; [apply prints_ret|].
      eapply prints_bind; [exact Hp1 | apply prints_ret].
    + cbn [app]. rewrite app_nil_r. exact Hlen1.
Qed.

(** X16. Without the verbosity flag, the loop over the functions of a file
    prints exactly one line for each function it rejects (a malformed
    parameter, an unknown parameter type or an unknown return type, whichever
    comes first) and nothing for a function it accepts; the entries of the
    accepted functions are appended, in order, to those found before. *)
Theorem one_diagnostic_per_rejected_function (matches : list Re.method_match)
        (methods_found : list method) (out : list string) :
  exists msgs,
    methods_loop false matches methods_found out
    = (Ret (methods_found ++ successes matches)%list, (out ++ msgs)%list)
    /\ List.length msgs + List.length (successes matches) = List.length matches.
Proof.
  revert methods_found out.
  induction matches as [|m rest IH]; intros methods_found out;
    cbn [methods_loop successes flat_map].
  - exists []. rewrite !app_nil_r. split; reflexivity.
  - fold (successes rest). unfold bind at 1.
    destruct (process_match_prints m) as (msgs1 & Hp & Hlen). rewrite Hp.
    destruct (entry_of m) as [entry|].
    + destruct (IH (methods_found ++ [entry])%list (out ++ msgs1)%list)
        as (msgs2 & -> & Hlen2).
      exists (msgs1 ++ msgs2)%list. rewrite <- !app_assoc. split; [reflexivity|].
      rewrite !length_app. cbn [List.length app]. lia.
    + destruct (IH methods_found (out ++ msgs1)%list) as (msgs2 & -> & Hlen2).
      exists (msgs1 ++ msgs2)%list. rewrite <- !app_assoc. split; [reflexivity|].
      rewrite !length_app. cbn [List.length app]. lia.
Qed.

(** ** The grouping dictionary: append and look up *)

(** X17. Appending functions to the binding of a class puts them at the end
    of the list of that class and leaves every other binding as it was; the
    classes already present keep their order, and a class not yet present
    is added last. *)
Theorem dict_extend_lookup (d : dict (list method)) (k : string) (v : list method) :
  dict_find (dict_extend d k v) k = (dict_find d k ++ v)%list
  /\ (forall c, c <> k -> dict_get (dict_extend d k v) c = dict_get d c)
  /\ (In k (dict_keys d) -> dict_keys (dict_extend d k v) = dict_keys d)
  /\ (~ In k (dict_keys d) -> dict_keys (dict_extend d k v) = (dict_keys d ++ [k])%list).
Proof.
  split; [|split; [|split]].
  - rewrite dict_find_extend. now rewrite String.eqb_refl.
  - intros c Hc. induction d as [|[k' v'] d IH]; cbn [dict_extend dict_get].
    + now destruct (String.eqb_spec c k).
    + destruct (String.eqb_spec k k') as [<-|Hk]; cbn [dict_get].
      * now destruct (String.eqb_spec c k).
      * now rewrite IH.
  - intros Hin. rewrite dict_keys_extend.
    now rewrite (proj2 (notin_false_In _ _) Hin).
  - intros Hnot. rewrite dict_keys_extend.
    destruct (notin (dict_keys d) k) eqn:Hk; [reflexivity|].
    now apply notin_false_In in Hk.
Qed.

Lemma dict_extend_lookup_witness :
  dict_get (dict_extend [("A", [("f", "()V")]); ("B", [("g", "()I")])] "A" [("h", "()J")]) "B"
  = dict_get [("A", [("f", "()V")]); ("B", [("g", "()I")])] "B"
  /\ dict_keys (dict_extend [("A", [("f", "()V")]); ("B", [("g", "()I")])] "A" [("h", "()J")])
     = dict_keys [("A", [("f", "()V")]); ("B", [("g", "()I")])]
  /\ dict_keys (dict_extend [("A", [("f", "()V")])] "C" [("h", "()J")])
     = (dict_keys [("A", [("f", "()V")])] ++ ["C"])%list.
Proof.
  split; [|split].
  - apply (proj1 (proj2 (dict_extend_lookup
                           [("A", [("f", "()V")]); ("B", [("g", "()I")])] "A" [("h", "()J")]))).
    discriminate.
  - apply (proj1 (proj2 (proj2 (dict_extend_lookup
                           [("A", [("f", "()V")]); ("B", [("g", "()I")])] "A" [("h", "()J")])))).
    left. reflexivity.
  - apply (proj2 (proj2 (proj2 (dict_extend_lookup [("A", [("f", "()V")])] "C" [("h", "()J")])))).
    cbn. intros [H|[]]. discriminate.
Defined.

(** ** CodeEmitter: the helper class *)

(** X18. The helper class given to the emitter appears at one place of
    the emitted text, the accessor line of the load entry point: everything
    before it and everything after it is the same for every helper class.
    In particular the unload entry point, which ends the text, releases
    [saturn::platform::agdk::JNIHelper] whatever helper class is given. *)
Theorem helper_class_only_in_prologue (class_methods : dict (list method)) :
  exists before after,
    forall helper,
      generate_cpp_file class_methods helper
      = before ++ helper ++ after ++ unload_entry_point.
Proof.
  exists (header_comment class_methods
          ++ "JNIEXPORT jint JNI_OnLoad(JavaVM* vm, void* reserved)" ++ nl
          ++ "{" ++ nl
          ++ "    saturn::tools::Logger::initialize();" ++ nl ++ nl
          ++ "    auto helper = "),
         ("::getInstance();" ++ nl ++ nl
          ++ "    helper->initialize(vm);" ++ nl ++ nl
          ++ String.concat "" (map class_block class_methods)
          ++ load_epilogue).
  intros helper.
  unfold generate_cpp_file, write. rewrite emit_classes_text.
  unfold header_comment, load_epilogue, unload_entry_point.
  rewrite !append_assoc. reflexivity.
Qed.

Lemma nullability_never_decides_failure_witness :
  kotlin_to_jni_type "Widget" false = None.
Proof.
  apply (proj1 (nullability_never_decides_failure "Widget")). reflexivity.
Defined.

Lemma mapped_types_witness :
  kotlin_to_jni_type "UnitArrayArray" false = Some "[[V".
Proof.
  apply (proj2 (mapped_types "UnitArrayArray" "[[V")).
  exists 2, "Unit", "V". repeat split; reflexivity.
Defined.

(** ** SignatureBuilder *)

Lemma all_descriptors_Forall2 (params ds : list string) :
  all_descriptors params = Some ds ->
  Forall2 (fun param d => malformed param = false
                          /\ descriptor (param_type param) = Some d) params ds.
Proof.
  revert ds. induction params as [|param rest IH]; intros ds; cbn [all_descriptors].
  - intros [= <-]. constructor.
  - unfold param_descriptor. destruct (malformed param) eqn:Hm; [discriminate|].
    destruct (descriptor (param_type param)) as [d|] eqn:Hd; [|discriminate].
    destruct (all_descriptors rest) as [ds'|]; [|discriminate].
    cbn [option_map]. intros [= <-]. constructor; [now split | now apply IH].
Qed.

(** X19. When the body of the method loop accepts a function, the entry
    carries the name of the function, and its signature is an opening
    parenthesis, one descriptor for each parameter of the comma-separated
    list, in the order of the list and each mapped from the text after the
    last colon of the parameter, a closing parenthesis, and the descriptor
    of the return type (of [Unit] when none is written). *)
Theorem accepted_signature (verbose : bool) (m : Re.method_match) (out : list string)
        (name sig : string) :
  fst (process_match verbose m out) = Ret (Some (name, sig)) ->
  name = Re.group_name m
  /\ exists ds r,
       sig = "(" ++ PyStr.join ds ++ ")" ++ r
       /\ Forall2 (fun param d => PyStr.mem_char ":" (PyStr.strip param) = true
                                  /\ descriptor (param_type param) = Some d)
                  (params_of m) ds
       /\ descriptor (return_text m) = Some r
       /\ (Re.group_ret m = None -> r = "V").
Proof.
  rewrite (returns_fst _ _ out (process_match_returns verbose m)).
  unfold entry_of.
  destruct (all_descriptors (params_of m)) as [ds|] eqn:Hds; [|discriminate].
  destruct (descriptor (return_text m)) as [r|] eqn:Hr; [|discriminate].
  intros [= <- <-]. split; [reflexivity|]. exists ds, r.
  split; [reflexivity|]. split; [|split; [reflexivity|]].
  - apply all_descriptors_Forall2 in Hds.
    eapply Forall2_impl; [|exact Hds]. cbn beta. intros param d [Hm Hd].
    split; [|exact Hd]. unfold malformed in Hm. now apply negb_false_iff in Hm.
  - intros Hnone. unfold return_text in Hr. rewrite Hnone in Hr.
    vm_compute in Hr. now injection Hr as <-.
Qed.

Lemma accepted_signature_witness :
  "scale" = Re.group_name (Re.MethodMatch "scale" "xs: FloatArray, k: Float?" None)
  /\ exists ds r,
       "([FLjava/lang/Float;)V" = "(" ++ PyStr.join ds ++ ")" ++ r
       /\ Forall2 (fun param d => PyStr.mem_char ":" (PyStr.strip param) = true
                                  /\ descriptor (param_type param) = Some d)
                  (params_of (Re.MethodMatch "scale" "xs: FloatArray, k: Float?" None)) ds
       /\ descriptor (return_text (Re.MethodMatch "scale" "xs: FloatArray, k: Float?" None))
          = Some r
       /\ (Re.group_ret (Re.MethodMatch "scale" "xs: FloatArray, k: Float?" None) = None ->
           r = "V").
Proof.
  apply (accepted_signature false
           (Re.MethodMatch "scale" "xs: FloatArray, k: Float?" None) []).
  vm_compute. reflexivity.
Defined.

